(** * Cart-to-order reconciliation and revenue ledger of the e-commerce server

    A shallow embedding of the accounting core of [server.js] (the cart
    routes, [createOrUpdateOrder], [/checkout], the admin order routes,
    [updateRevenue] and the [/admin/revenue] query), of the routes that
    read the cart ([/getcartdata], [/cartdetails]), of [/admin/metrics],
    [generateOrderId] and the brute-force protection of [/login], together
    with the client-side functions that drive the cart ([updateCartQuantity],
    [normalizeCartData] and the totals of the shop context,
    [handleUpdateQuantity] of [CartItem.jsx]).

    Conventions of the model.
    - A JavaScript [Number] is a [Z]: prices, quantities and totals are taken
      to be integers, so [+] and [*] are exact.  [NaN] only arises from
      [undefined * n] in [/updatecartquantity]; that case is modelled by an
      absent price and the failing [save] it causes.  On whole numbers
      the rounding to cents of the cart totals returns its argument; it is
      kept in the definitions ([roundCents]) and in the statements.
    - A Mongo collection is a list of documents in natural order;
      [findOne] returns the first match, [save] of a loaded document replaces
      the document with the same [_id], [save] of a new document appends it.
    - [user.cartData] (an object of objects) is a finite map from the numeric
      product id to a finite map from the size label to the quantity.
    - Requests are handled one at a time (no interleaving of handlers).
    - Authentication, e-mail and admin notifications have no effect on the
      collections below and are left out; their failures are caught in the
      source ([sendPaymentNotification] has its own try/catch). *)

From stdpp Require Import base gmap strings list fin_maps sorting.
From Stdlib Require Import ZArith Lia Ascii.
From Stdlib Require DecimalString DecimalNat.

Local Open Scope Z_scope.

(* ===================================================================== *)
(** ** Data model (the mongoose schemas)                                  *)
(* ===================================================================== *)

(** [orderSchema.status] enum. *)
Inductive OrderStatus := pending | processing | shipped | delivered | cancelled.

(** [orderSchema.items.status] enum. *)
Inductive ItemStatus := in_cart | checkedout.

(** [orderSchema.paymentStatus] enum (['pending'], ['paid'], ['failed']). *)
Inductive PaymentStatus := payment_pending | paid | failed.

#[global] Instance OrderStatus_eq_dec : EqDecision OrderStatus.
Proof. solve_decision. Defined.
#[global] Instance ItemStatus_eq_dec : EqDecision ItemStatus.
Proof. solve_decision. Defined.
#[global] Instance PaymentStatus_eq_dec : EqDecision PaymentStatus.
Proof. solve_decision. Defined.

(** A JavaScript [Date] at the resolution the ledger reads it:
    [getFullYear()], [getMonth() + 1] and [getDate()] in server local time. *)
Record Date := mkDate { d_year : Z; d_month : Z; d_day : Z }.

#[global] Instance Date_eq_dec : EqDecision Date.
Proof. solve_decision. Defined.

(** An element of [order.items]. *)
Record OrderItem := mkItem {
  productId : Z;
  productName : string;
  quantity : Z;
  price : Z;
  size : string;
  itemTotal : Z;
  item_status : ItemStatus
}.

(** An [Order] document, without the contact data ([customerInfo]), the
    free-text fields and the [deliveredAt]/[cancelledAt] stamps, which the
    accounting never reads.  [o_id] is the document's [_id]; [orderId] is the
    sequence number [n] of the identifier ["ORD" + String(n).padStart(6,'0')]
    (the formatting is injective, so the unique index on [orderId] is an
    index on [n]).  [createdAt] is stamped by [timestamps: true] on the first
    save. *)
Record Order := mkOrder {
  o_id : nat;
  orderId : nat;
  userId : nat;
  items : list OrderItem;
  total : Z;
  status : OrderStatus;
  paymentMethod : string;
  paymentStatus : PaymentStatus;
  createdAt : Date;
  cancellationReason : option string
}.

(** A [Product] document: [new_price] is the schema field (default 0),
    [newprice] the extra field that [/updateproduct] writes ([strict: false]);
    [sizes] may be empty. *)
Record Product := mkProduct {
  p_oid : nat;
  p_id : Z;
  name : string;
  new_price : Z;
  newprice : option Z;
  sizes : list string
}.

(** A [User] document, reduced to what the cart routes read and write. *)
Record User := mkUser {
  u_id : nat;
  cartData : gmap Z (gmap string Z)
}.

(** A [Revenue] document: one bucket per calendar day. *)
Record Revenue := mkRevenue {
  date : Date;
  day : Z;
  month : Z;
  year : Z;
  dailyRevenue : Z;
  ordersCount : Z;
  deliveredRevenue : Z;
  pendingRevenue : Z;
  cancelledRevenue : Z;
  checkedoutRevenue : Z
}.

(** The database: the four collections and the source of fresh [_id]s. *)
Record Db := mkDb {
  users : list User;
  products : list Product;
  orders : list Order;
  revenues : list Revenue;
  next_oid : nat
}.

(* ===================================================================== *)
(** ** Revenue ledger: [updateRevenue]                                    *)
(* ===================================================================== *)

(** [Revenue.findOne({ date: dateKey })]. *)
Definition findRevenue (dateKey : Date) (revs : list Revenue) : option Revenue :=
  List.find (fun r => bool_decide (date r = dateKey)) revs.

(** [new Revenue({ date: dateKey, day, month, year, ...: 0 })]. *)
Definition newRevenue (dateKey : Date) : Revenue :=
  {| date := dateKey; day := d_day dateKey; month := d_month dateKey;
     year := d_year dateKey;
     dailyRevenue := 0; ordersCount := 0; deliveredRevenue := 0;
     pendingRevenue := 0; cancelledRevenue := 0; checkedoutRevenue := 0 |}.

(** [revenue.save()]: the bucket found by [findRevenue] is replaced in place,
    a new bucket is appended. *)
Fixpoint saveRevenue (r : Revenue) (revs : list Revenue) : list Revenue :=
  match revs with
  | [] => [r]
  | x :: rest =>
      if bool_decide (date x = date r) then r :: rest
      else x :: saveRevenue r rest
  end.

(** [items.reduce((sum, item) => sum + item.itemTotal, 0)]. *)
Definition sum_itemTotal (its : list OrderItem) : Z :=
  fold_left (fun sum item => sum + itemTotal item) its 0.

(** [orderData.items.filter(item => item.status === 'checkedout')
      .reduce((sum, item) => sum + item.itemTotal, 0)]. *)
Definition checkedoutTotal (orderData : Order) : Z :=
  sum_itemTotal
    (List.filter (fun item => bool_decide (item_status item = checkedout))
       (items orderData)).

(** The [if delivered / else if cancelled / else] block that both the ['add']
    and the ['update'] branch contain, followed by the checked-out sum. *)
Definition addOrderAmounts (orderData : Order) (revenue : Revenue) : Revenue :=
  let orderTotal := total orderData in
  let revenue1 :=
    if decide (status orderData = delivered) then
      {| date := date revenue; day := day revenue; month := month revenue;
         year := year revenue;
         dailyRevenue := dailyRevenue revenue + orderTotal;
         ordersCount := ordersCount revenue;
         deliveredRevenue := deliveredRevenue revenue + orderTotal;
         pendingRevenue := pendingRevenue revenue;
         cancelledRevenue := cancelledRevenue revenue;
         checkedoutRevenue := checkedoutRevenue revenue |}
    else if decide (status orderData = cancelled) then
      {| date := date revenue; day := day revenue; month := month revenue;
         year := year revenue;
         dailyRevenue := dailyRevenue revenue;
         ordersCount := ordersCount revenue;
         deliveredRevenue := deliveredRevenue revenue;
         pendingRevenue := pendingRevenue revenue;
         cancelledRevenue := cancelledRevenue revenue + orderTotal;
         checkedoutRevenue := checkedoutRevenue revenue |}
    else
      {| date := date revenue; day := day revenue; month := month revenue;
         year := year revenue;
         dailyRevenue := dailyRevenue revenue;
         ordersCount := ordersCount revenue;
         deliveredRevenue := deliveredRevenue revenue;
         pendingRevenue := pendingRevenue revenue + orderTotal;
         cancelledRevenue := cancelledRevenue revenue;
         checkedoutRevenue := checkedoutRevenue revenue |} in
  {| date := date revenue1; day := day revenue1; month := month revenue1;
     year := year revenue1;
     dailyRevenue := dailyRevenue revenue1;
     ordersCount := ordersCount revenue1;
     deliveredRevenue := deliveredRevenue revenue1;
     pendingRevenue := pendingRevenue revenue1;
     cancelledRevenue := cancelledRevenue revenue1;
     checkedoutRevenue := checkedoutRevenue revenue1 + checkedoutTotal orderData |}.

(** [revenue.ordersCount += 1]. *)
Definition incrOrdersCount (revenue : Revenue) : Revenue :=
  {| date := date revenue; day := day revenue; month := month revenue;
     year := year revenue;
     dailyRevenue := dailyRevenue revenue;
     ordersCount := ordersCount revenue + 1;
     deliveredRevenue := deliveredRevenue revenue;
     pendingRevenue := pendingRevenue revenue;
     cancelledRevenue := cancelledRevenue revenue;
     checkedoutRevenue := checkedoutRevenue revenue |}.

(** [updateRevenue(orderData, action)].  The day key is the calendar day of
    [orderData.createdAt] (always set on a saved document, so the
    [|| Date.now()] fallback does not fire); [orderData.total || 0] is
    [orderData.total].  Nothing in the body throws, so the surrounding
    try/catch is not reached.  The bucket is saved whatever [action] is. *)
Definition updateRevenue (orderData : Order) (action : string)
    (revs : list Revenue) : list Revenue :=
  let dateKey := createdAt orderData in
  let revenue :=
    match findRevenue dateKey revs with
    | Some r => r
    | None => newRevenue dateKey
    end in
  let revenue' :=
    if decide (action = "add") then
      addOrderAmounts orderData (incrOrdersCount revenue)
    else if decide (action = "update") then
      addOrderAmounts orderData revenue
    else revenue in
  saveRevenue revenue' revs.

(** The counters of the bucket of a day, all zero while the bucket does not
    exist yet. *)
Definition bucket (dateKey : Date) (revs : list Revenue) : Revenue :=
  default (newRevenue dateKey) (findRevenue dateKey revs).

(** The counter that the [if / else if / else] on [order.status] selects. *)
Definition statusRevenue (s : OrderStatus) (r : Revenue) : Z :=
  match s with
  | delivered => deliveredRevenue r
  | cancelled => cancelledRevenue r
  | _ => pendingRevenue r
  end.

(** What one call does to the bucket of the order's creation day. *)
Definition applyAction (action : string) (o : Order) (r : Revenue) : Revenue :=
  if decide (action = "add") then addOrderAmounts o (incrOrdersCount r)
  else if decide (action = "update") then addOrderAmounts o r
  else r.

(* ===================================================================== *)
(** ** Collections: lookups and saves                                     *)
(* ===================================================================== *)

(** [Users.findById(id)]. *)
Definition findUserById (uid : nat) (us : list User) : option User :=
  List.find (fun u => bool_decide (u_id u = uid)) us.

(** [user.save()] of a loaded user: the document with its [_id] is replaced. *)
Fixpoint saveUser (u : User) (us : list User) : list User :=
  match us with
  | [] => []
  | x :: rest =>
      if bool_decide (u_id x = u_id u) then u :: rest
      else x :: saveUser u rest
  end.

(** [Product.findOne({ id })]. *)
Definition findProduct (pid : Z) (ps : list Product) : option Product :=
  List.find (fun p => bool_decide (p_id p = pid)) ps.

(** The filter [{ userId, status: 'pending' }]. *)
Definition pendingOf (uid : nat) (o : Order) : bool :=
  bool_decide (userId o = uid) && bool_decide (status o = pending).

(** [Order.findOne({ userId, status: 'pending' })]. *)
Definition findPendingOrder (uid : nat) (os : list Order) : option Order :=
  List.find (pendingOf uid) os.

(** [Order.findById(orderId)]. *)
Definition findOrderById (oid : nat) (os : list Order) : option Order :=
  List.find (fun o => bool_decide (o_id o = oid)) os.

(** [order.save()] of a loaded order. *)
Fixpoint saveOrder (o : Order) (os : list Order) : list Order :=
  match os with
  | [] => []
  | x :: rest =>
      if bool_decide (o_id x = o_id o) then o :: rest
      else x :: saveOrder o rest
  end.

(** [Order.findByIdAndDelete(orderId)]. *)
Fixpoint deleteOrder (oid : nat) (os : list Order) : list Order :=
  match os with
  | [] => []
  | x :: rest =>
      if bool_decide (o_id x = oid) then rest
      else x :: deleteOrder oid rest
  end.

(** The [paymentMethod] enum of [orderSchema]. *)
Definition paymentMethods : list string :=
  ["cash_on_delivery"; "bank_transfer"; "stripe"; "paypal"].

(** [order.save()] of a new order.  Validation rejects a [paymentMethod]
    outside the enum and the unique index rejects an [orderId] already in
    the collection; both make [save] throw ([None]).  Otherwise the
    document is appended. *)
Definition insertOrder (o : Order) (os : list Order) : option (list Order) :=
  if decide (paymentMethod o ∈ paymentMethods) then
    if decide (orderId o ∈ List.map orderId os) then None
    else Some (os ++ [o])
  else None.

(* ===================================================================== *)
(** ** Order reconciler: [createOrUpdateOrder]                            *)
(* ===================================================================== *)

(** [product.new_price || product.newprice || 0]. *)
Definition productPrice (product : Product) : Z :=
  if decide (new_price product = 0) then default 0 (newprice product)
  else new_price product.

(** [product.new_price || product.newprice] (no [|| 0]): [None] is
    [undefined]. *)
Definition productPriceOpt (product : Product) : option Z :=
  if decide (new_price product = 0) then newprice product
  else Some (new_price product).

Definition setItems (o : Order) (its : list OrderItem) : Order :=
  {| o_id := o_id o; orderId := orderId o; userId := userId o;
     items := its; total := total o; status := status o;
     paymentMethod := paymentMethod o; paymentStatus := paymentStatus o;
     createdAt := createdAt o; cancellationReason := cancellationReason o |}.

Definition setTotal (o : Order) (t : Z) : Order :=
  {| o_id := o_id o; orderId := orderId o; userId := userId o;
     items := items o; total := t; status := status o;
     paymentMethod := paymentMethod o; paymentStatus := paymentStatus o;
     createdAt := createdAt o; cancellationReason := cancellationReason o |}.

Definition setStatus (o : Order) (s : OrderStatus) : Order :=
  {| o_id := o_id o; orderId := orderId o; userId := userId o;
     items := items o; total := total o; status := s;
     paymentMethod := paymentMethod o; paymentStatus := paymentStatus o;
     createdAt := createdAt o; cancellationReason := cancellationReason o |}.

Definition setPaymentMethod (o : Order) (pm : string) : Order :=
  {| o_id := o_id o; orderId := orderId o; userId := userId o;
     items := items o; total := total o; status := status o;
     paymentMethod := pm; paymentStatus := paymentStatus o;
     createdAt := createdAt o; cancellationReason := cancellationReason o |}.

Definition setPaymentStatus (o : Order) (ps : PaymentStatus) : Order :=
  {| o_id := o_id o; orderId := orderId o; userId := userId o;
     items := items o; total := total o; status := status o;
     paymentMethod := paymentMethod o; paymentStatus := ps;
     createdAt := createdAt o; cancellationReason := cancellationReason o |}.

Definition setCancellationReason (o : Order) (r : string) : Order :=
  {| o_id := o_id o; orderId := orderId o; userId := userId o;
     items := items o; total := total o; status := status o;
     paymentMethod := paymentMethod o; paymentStatus := paymentStatus o;
     createdAt := createdAt o; cancellationReason := Some r |}.

(** The tail shared by [createOrUpdateOrder] and [/updatecartquantity]:
    [order.total = order.items.reduce(...)], then the cancellation of an
    order whose item list became empty. *)
Definition recalculate (o : Order) : Order :=
  let o1 := setTotal o (sum_itemTotal (items o)) in
  if decide (items o1 = []) then
    setCancellationReason (setStatus o1 cancelled) "All items removed from cart"
  else o1.

(** The informal labels ['online'] and ['cash'] are mapped to enum values;
    any other label is kept. *)
Definition normalizePaymentMethod (paymentMethod : string) : string :=
  if decide (paymentMethod = "online") then "bank_transfer"
  else if decide (paymentMethod = "cash") then "cash_on_delivery"
  else paymentMethod.

Definition setOrders (db : Db) (os : list Order) : Db :=
  {| users := users db; products := products db; orders := os;
     revenues := revenues db; next_oid := next_oid db |}.

Definition setRevenues (db : Db) (rs : list Revenue) : Db :=
  {| users := users db; products := products db; orders := orders db;
     revenues := rs; next_oid := next_oid db |}.

Definition setUsers (db : Db) (us : list User) : Db :=
  {| users := us; products := products db; orders := orders db;
     revenues := revenues db; next_oid := next_oid db |}.

Definition setProducts (db : Db) (ps : list Product) : Db :=
  {| users := users db; products := ps; orders := orders db;
     revenues := revenues db; next_oid := next_oid db |}.

(** [new Order({...})] followed by [await order.save()]: the document gets a
    fresh [_id] and [createdAt = now].  [None] when [save] throws. *)
Definition createOrder (uid : nat) (its : list OrderItem) (tot : Z)
    (pm : string) (now : Date) (db : Db) : option (Order * Db) :=
  let order :=
    {| o_id := next_oid db;
       orderId := S (length (orders db));
       userId := uid; items := its; total := tot; status := pending;
       paymentMethod := pm; paymentStatus := payment_pending;
       createdAt := now; cancellationReason := None |} in
  os ← insertOrder order (orders db);
  Some (order,
        {| users := users db; products := products db; orders := os;
           revenues := revenues db; next_oid := S (next_oid db) |}).

(** The item pushed for a line that the order does not have yet. *)
Definition newCartItem (product : Product) (qty : Z) (sz : string)
    : OrderItem :=
  {| productId := p_id product; productName := name product;
     quantity := Z.abs qty; price := productPrice product; size := sz;
     itemTotal := productPrice product * Z.abs qty;
     item_status := in_cart |}.

(** The update of [order.items] in the [else if (order)] branch. *)
Definition mergeItem (product : Product) (qty : Z) (sz : string)
    (action : string) (its : list OrderItem) : list OrderItem :=
  let itemTotal' := productPrice product * Z.abs qty in
  match list_find (fun item => productId item = p_id product ∧ size item = sz) its with
  | Some (existingItemIndex, item) =>
      if decide (action = "add" ∧ qty > 0) then
        <[existingItemIndex :=
            {| productId := productId item; productName := productName item;
               quantity := quantity item + qty; price := price item;
               size := size item; itemTotal := itemTotal item + itemTotal';
               item_status := item_status item |}]> its
      else if decide (qty < 0) then
        let q := quantity item + qty in
        if decide (q <= 0) then delete existingItemIndex its
        else
          <[existingItemIndex :=
              {| productId := productId item; productName := productName item;
                 quantity := q; price := price item; size := size item;
                 itemTotal := price item * q;
                 item_status := item_status item |}]> its
      else its
  | None =>
      if decide (action = "add" ∧ qty > 0) then
        its ++ [newCartItem product qty sz]
      else its
  end.

(** [createOrUpdateOrder(user, product, quantity, size, paymentMethod,
    action)]; the parameters [quantity] and [size] are written [qty] and
    [sz].  [None] is the re-thrown error of the [catch] block: a failing
    [order.save()].  In the branch that updates an order, validation only
    looks at [paymentMethod] when the branch assigned it. *)
Definition createOrUpdateOrder (user : User) (product : Product) (qty : Z)
    (sz : string) (paymentMethod_ action : string) (now : Date) (db : Db)
    : option Db :=
  let normalizedPaymentMethod := normalizePaymentMethod paymentMethod_ in
  let itemTotal' := productPrice product * Z.abs qty in
  match findPendingOrder (u_id user) (orders db) with
  | None =>
      if decide (action = "add" ∧ qty > 0) then
        '(order, db1) ← createOrder (u_id user)
                          [newCartItem product qty sz] itemTotal'
                          normalizedPaymentMethod now db;
        Some (setRevenues db1 (updateRevenue order "add" (revenues db1)))
      else Some db
  | Some order =>
      let order1 := setItems order (mergeItem product qty sz action (items order)) in
      let modified :=
        bool_decide (paymentMethod_ ≠ "" ∧
                     normalizedPaymentMethod ≠ paymentMethod order1) in
      let order2 :=
        if modified then setPaymentMethod order1 normalizedPaymentMethod
        else order1 in
      let order3 := recalculate order2 in
      if modified && bool_decide (paymentMethod order3 ∉ paymentMethods) then None
      else
        Some (setRevenues (setOrders db (saveOrder order3 (orders db)))
                (updateRevenue order3 "update" (revenues db)))
  end.

(* ===================================================================== *)
(** ** Cart store: the cart routes                                        *)
(* ===================================================================== *)

(** What a handler sends back: the HTTP status and the [success] flag. *)
Record Response := mkResponse { http_status : nat; success : bool }.

Definition ok : Response := {| http_status := 200; success := true |}.
Definition fail (code : nat) : Response := {| http_status := code; success := false |}.

(** The JSON body of [POST /addtocart] after the defaults of the handler's
    first lines are resolved by the caller: [b_quantity] is
    [Number(req.body.quantity ?? 1)], an empty [b_size] or
    [b_paymentMethod] stands for an absent field.  The handler rejects only
    [NaN] and 0, so it would also store a fractional quantity; the model
    covers the requests whose quantity is an integer, which are the ones
    the shop's own pages send. *)
Record AddToCartBody := mkBody {
  b_itemId : Z;
  b_quantity : Z;
  b_size : string;
  b_paymentMethod : string
}.

(** [cart[key]?.[size]]: the stored line, if any. *)
Definition cartLine (cart : gmap Z (gmap string Z)) (key : Z) (sz : string)
    : option Z :=
  cart !! key ≫= (.!! sz).

(** [cart[key]?.[size] || 0]. *)
Definition cartQuantity (cart : gmap Z (gmap string Z)) (key : Z) (sz : string)
    : Z :=
  default 0 (cartLine cart key sz).

(** The cart update of [/addtocart] (source lines 3347-3358), statement by
    statement. *)
Definition addtocartCart (cart : gmap Z (gmap string Z)) (productKey : Z)
    (sz : string) (qty : Z) : gmap Z (gmap string Z) :=
  (* if (!cart[productKey]) cart[productKey] = {} *)
  let sizes0 := default ∅ (cart !! productKey) in
  (* if (!cart[productKey][size]) cart[productKey][size] = 0 *)
  let sizes1 :=
    if decide (default 0 (sizes0 !! sz) = 0) then <[sz := 0]> sizes0
    else sizes0 in
  (* cart[productKey][size] += quantity *)
  let q := default 0 (sizes1 !! sz) + qty in
  let sizes2 := <[sz := q]> sizes1 in
  (* if (cart[productKey][size] <= 0) delete cart[productKey][size] *)
  let sizes3 := if decide (q <= 0) then delete sz sizes2 else sizes2 in
  (* if (Object.keys(cart[productKey]).length === 0) delete cart[productKey] *)
  if decide (sizes3 = ∅) then delete productKey cart
  else <[productKey := sizes3]> cart.

Definition setCartData (u : User) (cart : gmap Z (gmap string Z)) : User :=
  {| u_id := u_id u; cartData := cart |}.

(** The sizes a product can be ordered in:
    [product.sizes?.length ? product.sizes : ['S','M','L','XL','XXL']]. *)
Definition availableSizes (product : Product) : list string :=
  match sizes product with
  | [] => ["S"; "M"; "L"; "XL"; "XXL"]
  | _ :: _ => sizes product
  end.

(** [app.post('/addtocart')] for the authenticated user [uid].  The item is
    addressed by its numeric id; a product whose numeric id is 0 is reported
    as not found ([!productNumericId]).  The cart is saved before
    [createOrUpdateOrder] runs, so a throw there (status 500) leaves the new
    cart in place. *)
Definition addtocart (uid : nat) (body : AddToCartBody) (now : Date) (db : Db)
    : Response * Db :=
  let qty := b_quantity body in
  let sz := if decide (b_size body = "") then "default" else b_size body in
  let paymentMethod_ :=
    if decide (b_paymentMethod body = "") then "cash_on_delivery"
    else b_paymentMethod body in
  if decide (qty = 0) then (fail 400, db)
  else if decide (sz = "default") then (fail 400, db)
  else
    let productNumericId := b_itemId body in
    match findProduct productNumericId (products db) with
    | None => (fail 404, db)
    | Some productExists =>
        if decide (productNumericId = 0) then (fail 404, db)
        else if decide (sz ∉ availableSizes productExists) then (fail 400, db)
        else
          match findUserById uid (users db) with
          | None => (fail 404, db)
          | Some user =>
              let user1 :=
                setCartData user
                  (addtocartCart (cartData user) productNumericId sz qty) in
              let db1 := setUsers db (saveUser user1 (users db)) in
              match createOrUpdateOrder user1 productExists qty sz
                      paymentMethod_ "add" now db1 with
              | None => (fail 500, db1)
              | Some db2 => (ok, db2)
              end
          end
    end.

(** The cart update of [/updatecartquantity] (source lines 3200-3214). *)
Definition updatecartquantityCart (cart : gmap Z (gmap string Z)) (itemId : Z)
    (sz : string) (newQuantity : Z) : gmap Z (gmap string Z) :=
  (* if (!cart[itemId]) cart[itemId] = {} ; cart[itemId][size] = newQuantity *)
  let sizes1 := <[sz := newQuantity]> (default ∅ (cart !! itemId)) in
  if decide (newQuantity <= 0) then
    let sizes2 := delete sz sizes1 in
    if decide (sizes2 = ∅) then delete itemId cart
    else <[itemId := sizes2]> cart
  else <[itemId := sizes1]> cart.

(** The update of [order.items] in [/updatecartquantity].  The price is
    [product.new_price || product.newprice], which may be [undefined]; the
    item written with it then fails validation, which is the [None]. *)
Definition setItemQuantity (product : Product) (itemId : Z) (sz : string)
    (newQuantity : Z) (its : list OrderItem) : option (list OrderItem) :=
  match list_find (fun item => productId item = itemId ∧ size item = sz) its with
  | Some (existingItemIndex, item) =>
      if decide (newQuantity <= 0) then Some (delete existingItemIndex its)
      else
        p ← productPriceOpt product;
        Some (<[existingItemIndex :=
                  {| productId := productId item; productName := productName item;
                     quantity := newQuantity; price := price item;
                     size := size item; itemTotal := p * newQuantity;
                     item_status := item_status item |}]> its)
  | None =>
      if decide (newQuantity > 0) then
        p ← productPriceOpt product;
        Some (its ++ [ {| productId := itemId; productName := name product;
                          quantity := newQuantity; price := p; size := sz;
                          itemTotal := p * newQuantity;
                          item_status := in_cart |} ])
      else Some its
  end.

(** [app.post('/updatecartquantity')]: [qty] is the request's [quantity],
    which the handler adds to the current cart quantity.  An [itemId] of 0 is
    rejected by [!itemId]. *)
Definition updatecartquantity (uid : nat) (itemId : Z) (sz : string) (qty : Z)
    (db : Db) : Response * Db :=
  if decide (itemId = 0) then (fail 400, db)
  else
    match findUserById uid (users db) with
    | None => (fail 404, db)
    | Some user =>
        match findProduct itemId (products db) with
        | None => (fail 404, db)
        | Some product =>
            let currentQuantity := cartQuantity (cartData user) itemId sz in
            let newQuantity := currentQuantity + qty in
            if decide (newQuantity < 0) then (fail 400, db)
            else
              let user1 :=
                setCartData user
                  (updatecartquantityCart (cartData user) itemId sz newQuantity) in
              let db1 := setUsers db (saveUser user1 (users db)) in
              match findPendingOrder (u_id user1) (orders db1) with
              | None => (ok, db1)
              | Some order =>
                  match setItemQuantity product itemId sz newQuantity (items order) with
                  | None => (fail 500, db1)
                  | Some its =>
                      let order1 := recalculate (setItems order its) in
                      (ok,
                       setRevenues (setOrders db1 (saveOrder order1 (orders db1)))
                         (updateRevenue order1 "update" (revenues db1)))
                  end
              end
        end
    end.

(** [app.post('/clearcart')]. *)
Definition clearcart (uid : nat) (db : Db) : Response * Db :=
  match findUserById uid (users db) with
  | None => (fail 404, db)
  | Some user =>
      let db1 :=
        match findPendingOrder (u_id user) (orders db) with
        | Some pendingOrder =>
            let pendingOrder1 :=
              setCancellationReason (setStatus pendingOrder cancelled)
                "Cart cleared by user" in
            setRevenues (setOrders db (saveOrder pendingOrder1 (orders db)))
              (updateRevenue pendingOrder1 "update" (revenues db))
        | None => db
        end in
      (ok, setUsers db1 (saveUser (setCartData user ∅) (users db1)))
  end.

(* ===================================================================== *)
(** ** Checkout transition                                                *)
(* ===================================================================== *)

(** The inner loop of [/checkout] over [Object.entries(sizes)]: every size
    with a positive quantity pushes a ['checkedout'] item and adds its total
    to [totalAmount]. *)
Definition checkoutSizes (product : Product) (productId_ : Z)
    (acc : list OrderItem * Z) (entries : list (string * Z))
    : list OrderItem * Z :=
  fold_left
    (fun (acc : list OrderItem * Z) (entry : string * Z) =>
       let '(updatedItems, totalAmount) := acc in
       let '(sz, qty) := entry in
       if decide (qty > 0) then
         let price_ := productPrice product in
         let itemTotal_ := price_ * qty in
         (updatedItems ++
            [ {| productId := productId_; productName := name product;
                 quantity := qty; price := price_; size := sz;
                 itemTotal := itemTotal_; item_status := checkedout |} ],
          totalAmount + itemTotal_)
       else acc)
    entries acc.

(** [Object.entries(user.cartData)]: the keys are product ids (non-negative
    integers), which JavaScript enumerates in ascending numeric order.  (The order in which
    the sizes of one product are enumerated is the map's, not the insertion
    order of the source; no statement below depends on it.) *)
Definition keyLe (a b : Z * gmap string Z) : Prop := a.1 ≤ b.1.

#[global] Instance keyLe_dec a b : Decision (keyLe a b) := decide (a.1 ≤ b.1).

Definition cartEntries (cart : gmap Z (gmap string Z))
    : list (Z * gmap string Z) :=
  merge_sort keyLe (map_to_list cart).

(** The outer loop over [Object.entries(user.cartData)]: an entry whose
    product is not in the catalog is skipped ([if (!product) continue]).
    The result is [(updatedItems, totalAmount)]. *)
Definition checkoutItems (ps : list Product) (cart : gmap Z (gmap string Z))
    : list OrderItem * Z :=
  fold_left
    (fun (acc : list OrderItem * Z) (entry : Z * gmap string Z) =>
       let '(productId_, sizes_) := entry in
       match findProduct productId_ ps with
       | None => acc
       | Some product => checkoutSizes product productId_ acc (map_to_list sizes_)
       end)
    (cartEntries cart) ([], 0).

(** The items that the loops push, written as a list comprehension: per
    product found in the catalog, one ['checkedout'] item per size with a
    positive quantity. *)
Definition checkedoutItem (product : Product) (productId_ : Z)
    (entry : string * Z) : OrderItem :=
  {| productId := productId_; productName := name product;
     quantity := entry.2; price := productPrice product; size := entry.1;
     itemTotal := productPrice product * entry.2;
     item_status := checkedout |}.

Definition sizeItems (product : Product) (productId_ : Z)
    (entries : list (string * Z)) : list OrderItem :=
  flat_map
    (fun entry => if decide (entry.2 > 0)
                  then [checkedoutItem product productId_ entry] else [])
    entries.

Definition cartItemsOf (ps : list Product)
    (entries : list (Z * gmap string Z)) : list OrderItem :=
  flat_map
    (fun entry => match findProduct entry.1 ps with
                  | None => []
                  | Some product => sizeItems product entry.1 (map_to_list entry.2)
                  end)
    entries.

(** [app.post('/checkout')].  [address] and [phone] are only tested for
    presence here (the contact data they are copied to is not modelled).
    The cart is emptied and saved before the order is looked up; creating a
    new order can throw (status 500) with the cart already empty. *)
Definition checkout (uid : nat) (address phone paymentMethod_ : string)
    (now : Date) (db : Db) : Response * Db :=
  if decide (address = "" ∨ phone = "" ∨ paymentMethod_ = "") then (fail 400, db)
  else if decide (paymentMethod_ ∉ paymentMethods) then (fail 400, db)
  else
    match findUserById uid (users db) with
    | None => (fail 404, db)
    | Some user =>
        if decide (cartData user = ∅) then (fail 400, db)
        else
          let '(updatedItems, totalAmount) :=
            checkoutItems (products db) (cartData user) in
          let db1 := setUsers db (saveUser (setCartData user ∅) (users db)) in
          match findPendingOrder (u_id user) (orders db1) with
          | Some order =>
              let order1 :=
                setPaymentStatus
                  (setPaymentMethod
                     (setTotal (setItems order updatedItems) totalAmount)
                     paymentMethod_)
                  payment_pending in
              (ok,
               setRevenues (setOrders db1 (saveOrder order1 (orders db1)))
                 (updateRevenue order1 "update" (revenues db1)))
          | None =>
              match createOrder (u_id user) updatedItems totalAmount
                      paymentMethod_ now db1 with
              | None => (fail 500, db1)
              | Some (order, db2) =>
                  (ok, setRevenues db2 (updateRevenue order "add" (revenues db2)))
              end
          end
    end.

(** [app.post('/createorder')]: confirms the pending order.  An empty
    [paymentMethod_] keeps the stored one ([paymentMethod || existing]); a
    label outside the enum makes [save] throw before anything is written. *)
Definition createorder (uid : nat) (paymentMethod_ : string) (db : Db)
    : Response * Db :=
  match findPendingOrder uid (orders db) with
  | None => (fail 400, db)
  | Some existingOrder =>
      let pm :=
        if decide (paymentMethod_ = "") then paymentMethod existingOrder
        else paymentMethod_ in
      if decide (pm ≠ paymentMethod existingOrder ∧ pm ∉ paymentMethods)
      then (fail 500, db)
      else
        let order1 := setStatus (setPaymentMethod existingOrder pm) processing in
        let db1 := setOrders db (saveOrder order1 (orders db)) in
        let db2 :=
          match findUserById uid (users db1) with
          | Some user => setUsers db1 (saveUser (setCartData user ∅) (users db1))
          | None => db1
          end in
        (ok, setRevenues db2 (updateRevenue order1 "update" (revenues db2)))
  end.

(* ===================================================================== *)
(** ** Admin routes                                                       *)
(* ===================================================================== *)

(** The status strings accepted by [/admin/orders/:orderId/status]. *)
Definition parseStatus (s : string) : option OrderStatus :=
  if decide (s = "pending") then Some pending
  else if decide (s = "processing") then Some processing
  else if decide (s = "shipped") then Some shipped
  else if decide (s = "delivered") then Some delivered
  else if decide (s = "cancelled") then Some cancelled
  else None.

(** [app.post('/admin/orders/:orderId/status')], for a request without the
    optional [notes], [trackingNumber] and [cancellationReason] fields. *)
Definition adminOrderStatus (oid : nat) (status_ : string) (db : Db)
    : Response * Db :=
  match parseStatus status_ with
  | None => (fail 400, db)
  | Some st =>
      match findOrderById oid (orders db) with
      | None => (fail 404, db)
      | Some order =>
          let order1 := setStatus order st in
          let order2 :=
            if decide (st = delivered) then setPaymentStatus order1 paid
            else if decide (st = cancelled) then setPaymentStatus order1 failed
            else order1 in
          (ok,
           setRevenues (setOrders db (saveOrder order2 (orders db)))
             (updateRevenue order2 "update" (revenues db)))
      end
  end.

(** [app.delete('/admin/orders/:orderId')]. *)
Definition adminDeleteOrder (oid : nat) (db : Db) : Response * Db :=
  match findOrderById oid (orders db) with
  | None => (fail 404, db)
  | Some order =>
      let db1 := setRevenues db (updateRevenue order "remove" (revenues db)) in
      (ok, setOrders db1 (deleteOrder oid (orders db1)))
  end.

(** [product.save()] of a loaded product. *)
Fixpoint saveProduct (p : Product) (ps : list Product) : list Product :=
  match ps with
  | [] => []
  | x :: rest =>
      if bool_decide (p_oid x = p_oid p) then p :: rest
      else x :: saveProduct p rest
  end.

(** [app.put('/updateproduct')], reduced to the price:
    [if (new_price !== undefined) { product.new_price = new_price;
    product.newprice = new_price }]. *)
Definition updateproduct (oid : nat) (new_price_ : option Z) (db : Db)
    : Response * Db :=
  match List.find (fun p => bool_decide (p_oid p = oid)) (products db) with
  | None => (fail 404, db)
  | Some product =>
      let product1 :=
        match new_price_ with
        | Some n =>
            {| p_oid := p_oid product; p_id := p_id product;
               name := name product; new_price := n; newprice := Some n;
               sizes := sizes product |}
        | None => product
        end in
      (ok, setProducts db (saveProduct product1 (products db)))
  end.

(* ===================================================================== *)
(** ** The revenue query: [/admin/revenue]                                *)
(* ===================================================================== *)

Inductive Period := daily | monthly | yearly.

(** A row of the aggregation result: [_id] (the grouping key, most
    significant component first), the summed [deliveredRevenue] (named
    [deliveredRevenue], [monthlyRevenue] or [yearlyRevenue] in the source),
    the summed [ordersCount], and for the daily period [$first: '$date']. *)
Record RevenueRow := mkRow {
  row_id : list Z;
  row_revenue : Z;
  row_ordersCount : Z;
  row_date : option Date
}.

(** The [$match] stage: [year] and [month] filter when given. *)
Definition matchStage (year_ month_ : option Z) (r : Revenue) : bool :=
  match year_ with Some y => bool_decide (year r = y) | None => true end &&
  match month_ with Some m => bool_decide (month r = m) | None => true end.

Definition groupKey (period : Period) (r : Revenue) : list Z :=
  match period with
  | daily => [year r; month r; day r]
  | monthly => [year r; month r]
  | yearly => [year r]
  end.

(** One document entering the [$group] stage. *)
Fixpoint groupAdd (period : Period) (r : Revenue) (rows : list RevenueRow)
    : list RevenueRow :=
  match rows with
  | [] =>
      [ {| row_id := groupKey period r;
           row_revenue := deliveredRevenue r;
           row_ordersCount := ordersCount r;
           row_date := match period with daily => Some (date r) | _ => None end |} ]
  | row :: rest =>
      if decide (row_id row = groupKey period r) then
        {| row_id := row_id row;
           row_revenue := row_revenue row + deliveredRevenue r;
           row_ordersCount := row_ordersCount row + ordersCount r;
           row_date := row_date row |} :: rest
      else row :: groupAdd period r rest
  end.

Definition groupStage (period : Period) (revs : list Revenue) : list RevenueRow :=
  fold_left (fun rows r => groupAdd period r rows) revs [].

(** Lexicographic [a > b] on keys, for the descending sorts. *)
Fixpoint keyGt (a b : list Z) : bool :=
  match a, b with
  | x :: a', y :: b' => (y <? x) || ((x =? y) && keyGt a' b')
  | _, _ => false
  end.

(** The sort key of a row: [date] for the daily period, [_id.year] and
    [_id.month] otherwise. *)
Definition sortKey (row : RevenueRow) : list Z :=
  match row_date row with
  | Some d => [d_year d; d_month d; d_day d]
  | None => row_id row
  end.

Fixpoint insertDesc (row : RevenueRow) (sorted : list RevenueRow)
    : list RevenueRow :=
  match sorted with
  | [] => [row]
  | x :: rest =>
      if keyGt (sortKey row) (sortKey x) then row :: sorted
      else x :: insertDesc row rest
  end.

(** The [$sort] stage (descending). *)
Definition sortStage (rows : list RevenueRow) : list RevenueRow :=
  fold_right insertDesc [] rows.

(** [Revenue.aggregate(pipeline)] for the three periods the handler knows:
    [$match], [$group], [$sort], and [$limit] 30 (daily) or 12 (monthly). *)
Definition getRevenue (period : Period) (year_ month_ : option Z)
    (revs : list Revenue) : list RevenueRow :=
  let matched := List.filter (matchStage year_ month_) revs in
  let sorted := sortStage (groupStage period matched) in
  match period with
  | daily => take 30 sorted
  | monthly => take 12 sorted
  | yearly => sorted
  end.

(** The counters that the handler does not aggregate, overwritten by
    arbitrary values [g r = (daily, pending, cancelled, checkedout)]. *)
Definition overwriteUnreported (g : Revenue → Z * Z * Z * Z) (r : Revenue)
    : Revenue :=
  let '(dl, p, c, k) := g r in
  {| date := date r; day := day r; month := month r; year := year r;
     dailyRevenue := dl; ordersCount := ordersCount r;
     deliveredRevenue := deliveredRevenue r;
     pendingRevenue := p; cancelledRevenue := c; checkedoutRevenue := k |}.

(** The [deliveredRevenue] of the buckets of one group. *)
Definition deliveredOf (period : Period) (key : list Z) (revs : list Revenue)
    : Z :=
  foldr Z.add 0
    (List.map deliveredRevenue
       (List.filter (fun r => bool_decide (groupKey period r = key)) revs)).

(** The invariant of the [$group] stage over the documents [seen] so far. *)
Definition grouped (period : Period) (seen : list Revenue)
    (rows : list RevenueRow) : Prop :=
  NoDup (List.map row_id rows) ∧
  (∀ row, In row rows → row_revenue row = deliveredOf period (row_id row) seen) ∧
  (∀ r, In r seen → groupKey period r ∈ List.map row_id rows).

(* ===================================================================== *)
(** ** Client side: the shop context and the cart page                    *)
(* ===================================================================== *)

(** [updateCartQuantity(itemId, size, newQuantity)] of the shop context: the
    body it posts to [/addtocart], or [None] when it returns without a
    request (no token, unknown product, unchanged quantity).  [token] tells
    whether [localStorage] holds an auth token, [cartItems] is the client's
    copy of the cart.  [product.id || product._id] is the numeric id (for a
    product with id 0 the server answers 404 either way). *)
Definition updateCartQuantity (token : bool) (all_product : list Product)
    (cartItems : gmap Z (gmap string Z)) (itemId : Z) (sz : string)
    (newQuantity : Z) : option AddToCartBody :=
  if negb token then None
  else
    match findProduct itemId all_product with
    | None => None
    | Some product =>
        let productIdToSend := p_id product in
        let currentQuantity := cartQuantity cartItems productIdToSend sz in
        if decide (newQuantity = currentQuantity) then None
        else
          let difference := newQuantity - currentQuantity in
          Some {| b_itemId := productIdToSend; b_quantity := difference;
                  b_size := sz; b_paymentMethod := "cash" |}
    end.

(** [getProductQuantity(itemId, size)]: the quantity of one size, or of all
    sizes of the product when no size is given (the empty string). *)
Definition getProductQuantity (cartItems : gmap Z (gmap string Z)) (itemId : Z)
    (sz : string) : Z :=
  let itemData := default ∅ (cartItems !! itemId) in
  if decide (sz = "") then
    fold_left (fun total_ (e : string * Z) => total_ + e.2) (map_to_list itemData) 0
  else default 0 (itemData !! sz).

(** The clamp at the head of [handleUpdateQuantity] in [CartItem.jsx]. *)
Definition clampQuantity (newQuantity : Z) : Z :=
  if decide (newQuantity < 1) then 1
  else if decide (newQuantity > 10) then 10
  else newQuantity.

(** [handleUpdateQuantity(itemId, size, newQuantity)] of the cart page: the
    request that results, if any. *)
Definition handleUpdateQuantity (token : bool) (all_product : list Product)
    (cartItems : gmap Z (gmap string Z)) (itemId : Z) (sz : string)
    (newQuantity : Z) : option AddToCartBody :=
  let newQuantity1 := clampQuantity newQuantity in
  let currentQuantity := getProductQuantity cartItems itemId sz in
  if decide (newQuantity1 = currentQuantity) then None
  else updateCartQuantity token all_product cartItems itemId sz newQuantity1.

(* ===================================================================== *)
(** ** The server as a transition system                                  *)
(* ===================================================================== *)

Inductive Request :=
| AddToCart (uid : nat) (body : AddToCartBody)
| UpdateCartQuantity (uid : nat) (itemId : Z) (sz : string) (qty : Z)
| ClearCart (uid : nat)
| Checkout (uid : nat) (address phone paymentMethod_ : string)
| CreateOrder (uid : nat) (paymentMethod_ : string)
| AdminOrderStatus (oid : nat) (status_ : string)
| AdminDeleteOrder (oid : nat)
| UpdateProduct (oid : nat) (new_price_ : option Z).

(** One request handled at server time [now]. *)
Definition handle (now : Date) (req : Request) (db : Db) : Response * Db :=
  match req with
  | AddToCart uid body => addtocart uid body now db
  | UpdateCartQuantity uid itemId sz qty => updatecartquantity uid itemId sz qty db
  | ClearCart uid => clearcart uid db
  | Checkout uid address phone pm => checkout uid address phone pm now db
  | CreateOrder uid pm => createorder uid pm db
  | AdminOrderStatus oid st => adminOrderStatus oid st db
  | AdminDeleteOrder oid => adminDeleteOrder oid db
  | UpdateProduct oid np => updateproduct oid np db
  end.

Definition step (now : Date) (req : Request) (db : Db) : Db :=
  (handle now req db).2.

(** A sequence of requests, each with the server time at which it arrives. *)
Definition run (reqs : list (Date * Request)) (db : Db) : Db :=
  fold_left (fun db_ (r : Date * Request) => step r.1 r.2 db_) reqs db.

(** The pending orders of a user, and the anchor invariant. *)
Definition pendingOrders (uid : nat) (os : list Order) : list Order :=
  List.filter (pendingOf uid) os.

Definition singlePending (db : Db) : Prop :=
  ∀ uid, (length (pendingOrders uid (orders db)) ≤ 1)%nat.

(** [_id]s are unique and were all drawn from the counter. *)
Definition wfOrders (db : Db) : Prop :=
  NoDup (List.map o_id (orders db)) ∧
  Forall (fun o => (o_id o < next_oid db)%nat) (orders db).

(** A status request that puts an order back to ['pending'] is admissible
    when the order is pending already or its user has no pending order. *)
Definition admissible (db : Db) (req : Request) : Prop :=
  match req with
  | AdminOrderStatus oid status_ =>
      status_ = "pending" →
      ∀ o, findOrderById oid (orders db) = Some o →
           status o = pending ∨ findPendingOrder (userId o) (orders db) = None
  | _ => True
  end.

(** What a request can do to the order collection: nothing; save a loaded
    order under its own [_id] and user, where the order was pending before,
    or is not pending afterwards, or its user has no pending order; append
    a new order for a user without a pending order; delete an order. *)
Inductive ordersStep (db db' : Db) : Prop :=
| orders_same :
    orders db' = orders db → next_oid db' = next_oid db → ordersStep db db'
| orders_save o o' :
    In o (orders db) → o_id o' = o_id o → userId o' = userId o →
    status o = pending ∨ status o' ≠ pending ∨
      findPendingOrder (userId o) (orders db) = None →
    orders db' = saveOrder o' (orders db) → next_oid db' = next_oid db →
    ordersStep db db'
| orders_create o :
    findPendingOrder (userId o) (orders db) = None →
    o_id o = next_oid db →
    orders db' = orders db ++ [o] → next_oid db' = S (next_oid db) →
    ordersStep db db'
| orders_delete oid :
    orders db' = deleteOrder oid (orders db) → next_oid db' = next_oid db →
    ordersStep db db'.

Inductive admissibleRun : Db → list (Date * Request) → Prop :=
| admissible_nil db : admissibleRun db []
| admissible_cons db now req reqs :
    admissible db req →
    admissibleRun (step now req db) reqs →
    admissibleRun db ((now, req) :: reqs).

(** Item and order consistency. *)
Definition itemConsistent (item : OrderItem) : Prop :=
  itemTotal item = price item * quantity item.

Definition totalConsistent (o : Order) : Prop :=
  total o = sum_itemTotal (items o).

Definition orderConsistent (o : Order) : Prop :=
  totalConsistent o ∧ Forall itemConsistent (items o).

(** An order whose total is in step and whose item list satisfies [R]. *)
Definition orderSound (R : list OrderItem → Prop) (o : Order) : Prop :=
  totalConsistent o ∧ R (items o).

(** The price stored in an item is the catalog's current price of its
    product (when the catalog still has the product). *)
Definition priceCurrent (ps : list Product) (item : OrderItem) : Prop :=
  ∀ product, findProduct (productId item) ps = Some product →
             price item = productPrice product.

Definition itemsSound (ps : list Product) (its : list OrderItem) : Prop :=
  Forall (fun item => itemConsistent item ∧ priceCurrent ps item) its.

(** Requests that do not write a price. *)
Definition keepsPrices (req : Request) : Prop :=
  match req with
  | UpdateProduct _ (Some _) => False
  | _ => True
  end.

(** Cart invariants: every stored line is positive; every stored line is at
    most [maxQuantity]. *)
Definition maxQuantity : Z := 10.

Definition cartPositive (cart : gmap Z (gmap string Z)) : Prop :=
  ∀ k sz q, cartLine cart k sz = Some q → 0 < q.

Definition cartBounded (cart : gmap Z (gmap string Z)) : Prop :=
  ∀ k sz q, cartLine cart k sz = Some q → 0 < q ≤ maxQuantity.

Definition cartsPositive (db : Db) : Prop :=
  Forall (fun u => cartPositive (cartData u)) (users db).

(* ===================================================================== *)
(** ** The specification's terms                                          *)
(* ===================================================================== *)

(** "The sum of checked-out item totals", by recursion on the items: an
    item counts with its [itemTotal] when its status is ['checkedout'] and
    not at all otherwise.  The ledger code computes its own sum
    ([checkedoutTotal]); the statements about [checkedoutRevenue] compare
    the two. *)
Fixpoint checkedOutItemTotals (its : list OrderItem) : Z :=
  match its with
  | [] => 0
  | item :: rest =>
      match item_status item with
      | checkedout => itemTotal item + checkedOutItemTotals rest
      | in_cart => checkedOutItemTotals rest
      end
  end.

(** "Later than" on group keys [year; month; day], [year; month] and
    [year]: the first component that differs is greater. *)
Inductive laterKey : list Z → list Z → Prop :=
| later_head x y a b : y < x → laterKey (x :: a) (y :: b)
| later_tail x a b : laterKey a b → laterKey (x :: a) (x :: b).

(** The number of rows a period is cut to: 30 days, 12 months, every
    year. *)
Definition rowLimit (period : Period) : option nat :=
  match period with
  | daily => Some 30%nat
  | monthly => Some 12%nat
  | yearly => None
  end.

(** A bucket whose [year], [month] and [day] are those of its [date], as
    [updateRevenue] creates them. *)
Definition wfBucket (r : Revenue) : Prop :=
  year r = d_year (date r) ∧ month r = d_month (date r) ∧ day r = d_day (date r).

(* ===================================================================== *)
(** ** Scenario data                                                      *)
(* ===================================================================== *)

Definition today : Date := mkDate 2025 3 14.

Definition P1 : Product :=
  {| p_oid := 501; p_id := 1; name := "P1"; new_price := 100;
     newprice := None; sizes := [] |}.

Definition P2 : Product :=
  {| p_oid := 502; p_id := 2; name := "P2"; new_price := 50;
     newprice := None; sizes := ["M"; "L"] |}.

Definition alice : User := {| u_id := 7; cartData := ∅ |}.

(** A shop with two products, one customer, no orders and no ledger. *)
Definition db0 : Db :=
  {| users := [alice]; products := [P1; P2]; orders := [];
     revenues := []; next_oid := 0 |}.

Definition addLine (itemId qty : Z) (sz : string) : Request :=
  AddToCart 7 {| b_itemId := itemId; b_quantity := qty; b_size := sz;
                 b_paymentMethod := "cash" |}.

(** Scenario A, then B: one unit of P1 in size M, then two more. *)
Definition dbA : Db := step today (addLine 1 1 "M") db0.
Definition dbB : Db := step today (addLine 1 2 "M") dbA.

(** The customer and the pending order in [dbB]. *)
Definition aliceB : User :=
  {| u_id := 7; cartData := {[ 1 := {[ "M" := 3 ]} ]} |}.

Definition itemB : OrderItem :=
  {| productId := 1; productName := "P1"; quantity := 3; price := 100;
     size := "M"; itemTotal := 300; item_status := in_cart |}.

Definition orderB : Order :=
  {| o_id := 0; orderId := 1; userId := 7; items := [itemB]; total := 300;
     status := pending; paymentMethod := "cash_on_delivery";
     paymentStatus := payment_pending; createdAt := today;
     cancellationReason := None |}.

(** The state Scenario D starts from: cart {P1:{M:2}, P2:{L:1}}. *)
Definition dbD : Db := run [(today, addLine 1 2 "M"); (today, addLine 2 1 "L")] db0.

(** [dbD] after the admin removed P2 from the catalog ([/removeproduct]
    deletes the product document and touches nothing else). *)
Definition dbGone : Db := setProducts dbD [P1].

(** Two orders were opened and cancelled, then the admin deleted the first:
    the collection holds order number 2 alone. *)
Definition dbRenumbered : Db :=
  run [(today, addLine 1 1 "M"); (today, ClearCart 7);
       (today, addLine 1 1 "M"); (today, ClearCart 7);
       (today, AdminDeleteOrder 0)] db0.

(* ===================================================================== *)
(** ** The admin dashboard: [/admin/metrics]                              *)
(* ===================================================================== *)

(** The requests a customer can send (all but the admin routes). *)
Definition customerRequest (req : Request) : bool :=
  match req with
  | AddToCart _ _ | UpdateCartQuantity _ _ _ _ | ClearCart _
  | Checkout _ _ _ _ | CreateOrder _ _ => true
  | AdminOrderStatus _ _ | AdminDeleteOrder _ | UpdateProduct _ _ => false
  end.

Record Metrics := mkMetrics {
  productsCount : nat;
  usersCount : nat;
  metricsDeliveredRevenue : Z;
  deliveredOrdersCount : nat
}.

(** [Order.find({ status: 'delivered' })]. *)
Definition deliveredOrders (os : list Order) : list Order :=
  List.filter (fun o => bool_decide (status o = delivered)) os.

(** [app.get('/admin/metrics')]: the revenue figure is summed over the
    delivered orders themselves, not read from the ledger. *)
Definition adminMetrics (db : Db) : Metrics :=
  {| productsCount := length (products db);
     usersCount := length (users db);
     metricsDeliveredRevenue :=
       fold_left (fun sum order => sum + total order) (deliveredOrders (orders db)) 0;
     deliveredOrdersCount := length (deliveredOrders (orders db)) |}.

(* ===================================================================== *)
(** ** Order identifiers: [generateOrderId]                               *)
(* ===================================================================== *)

(** [String(n)] for a non-negative integer: its decimal digits. *)
Definition String_of_nat (n : nat) : string :=
  DecimalString.NilEmpty.string_of_uint (Nat.to_uint n).

Fixpoint repeatChar (n : nat) (c : ascii) : string :=
  match n with
  | O => EmptyString
  | S n' => String c (repeatChar n' c)
  end.

(** [s.padStart(targetLength, c)] for a one-character pad string. *)
Definition padStart (targetLength : nat) (c : ascii) (s : string) : string :=
  repeatChar (targetLength - String.length s) c +:+ s.

(** The identifier written for the sequence number [n]. *)
Definition orderIdString (n : nat) : string :=
  "ORD" +:+ padStart 6 "0"%char (String_of_nat n).

(** [generateOrderId()] with [count] the result of [countDocuments()] (the
    timestamp fallback of a failing count is not modelled).  The same
    expression is inlined in [createOrUpdateOrder] and [/checkout]. *)
Definition generateOrderId (count : nat) : string :=
  orderIdString (count + 1).

(** Reads the sequence number back. *)
Definition orderIdNumber (s : string) : option nat :=
  match s with
  | String "O"%char (String "R"%char (String "D"%char digits)) =>
      Nat.of_uint <$> DecimalString.NilEmpty.uint_of_string digits
  | _ => None
  end.

(* ===================================================================== *)
(** ** Brute-force protection of [/login]                                 *)
(* ===================================================================== *)

(** The fields of a [Users] document that the login path reads and writes.
    [loginAttempts] has schema default 0, so an unset counter reads 0;
    [lockUntil] is a [Date] in milliseconds, absent until the first lock. *)
Record Account := mkAccount {
  a_email : string;
  a_password : string;
  isActive : bool;
  loginAttempts : Z;
  lockUntil : option Z
}.

(** [isLocked(user)] at [Date.now() = now]. *)
Definition isLocked (now : Z) (user : Account) : bool :=
  match lockUntil user with
  | Some t => bool_decide (t > now)
  | None => false
  end.

(** The body of [failedLogin] on the loaded document. *)
Definition recordFailure (now : Z) (user : Account) : Account :=
  let attempts := loginAttempts user + 1 in
  {| a_email := a_email user; a_password := a_password user;
     isActive := isActive user; loginAttempts := attempts;
     lockUntil := if decide (attempts >= 5 ∧ lockUntil user = None)
                  then Some (now + 15 * 60 * 1000)
                  else lockUntil user |}.

(** [failedLogin(email)]: [findOne({ email })], then [save] of that
    document. *)
Definition failedLogin (now : Z) (email : string) (us : list Account)
    : list Account :=
  match list_find (fun user => a_email user = email) us with
  | None => us
  | Some (i, user) => <[i := recordFailure now user]> us
  end.

(** [resetLoginAttempts(email)]: [$unset] of both fields on the first
    document with that e-mail. *)
Definition resetLoginAttempts (email : string) (us : list Account)
    : list Account :=
  match list_find (fun user => a_email user = email) us with
  | None => us
  | Some (i, user) =>
      <[i := {| a_email := a_email user; a_password := a_password user;
                isActive := isActive user; loginAttempts := 0;
                lockUntil := None |}]> us
  end.

Section Login.
(** [bcrypt.compare(password, hash)]. *)
Variable compare : string → string → bool.

(** [app.post('/login')] for the normalised e-mail, at server time [now]:
    the HTTP status and the collection afterwards.  The two [user.save()]
    calls of the success path write [lastLogin] and [refreshTokens] only
    (the document's modified paths) and are left out. *)
Definition login (email password : string) (now : Z) (us : list Account)
    : nat * list Account :=
  match list_find (fun user => a_email user = email ∧ isActive user = true) us with
  | None => (401%nat, failedLogin now email us)
  | Some (_, user) =>
      if isLocked now user then (403%nat, us)
      else if compare password (a_password user)
           then (200%nat, resetLoginAttempts email us)
           else (401%nat, failedLogin now email us)
  end.

(** A sequence of login requests for one e-mail: the statuses answered and
    the collection at the end. *)
Fixpoint loginRun (email : string) (attempts : list (Z * string))
    (us : list Account) : list nat * list Account :=
  match attempts with
  | [] => ([], us)
  | (now, password) :: rest =>
      let '(st, us1) := login email password now us in
      let '(sts, us2) := loginRun email rest us1 in
      (st :: sts, us2)
  end.
End Login.

(** One account, with [String.eqb] standing in for [bcrypt.compare]. *)
Definition bob : Account :=
  {| a_email := "bob@example.com"; a_password := "s3cret"; isActive := true;
     loginAttempts := 0; lockUntil := None |}.

(** The same account after five failures, the last at time 5000. *)
Definition bobLocked : Account :=
  {| a_email := "bob@example.com"; a_password := "s3cret"; isActive := true;
     loginAttempts := 5; lockUntil := Some 905000 |}.

(* ===================================================================== *)
(** ** Reading the cart: [/getcartdata]                                   *)
(* ===================================================================== *)

(** The inner loop of [/getcartdata]: the sizes with a positive quantity. *)
Definition cleanSizes (data : gmap string Z) : gmap string Z :=
  filter (fun entry : string * Z => entry.2 > 0) data.

(** The outer loop: a product is kept when a size is left.  (Every cart
    entry is an object of sizes here; the branch for a bare number applies
    to carts that no route of this server writes.) *)
Definition cleanCartData (cart : gmap Z (gmap string Z))
    : gmap Z (gmap string Z) :=
  omap (fun data => let cleanedSizes := cleanSizes data in
                    if decide (cleanedSizes = ∅) then None
                    else Some cleanedSizes)
       cart.

(** [Object.values(cart).reduce(... Object.values(sizes).reduce(...))]. *)
Definition totalItemsOf (cart : gmap Z (gmap string Z)) : Z :=
  map_fold (fun _ sizes_ total_ =>
              total_ + map_fold (fun _ qty sum => sum + qty) 0 sizes_)
           0 cart.

(** [app.get('/getcartdata')]: the response, the body's [cartData] and
    [totalItems], and the database.  The cleaned cart is built from the
    stored one in the same key order, so the two [JSON.stringify] results
    differ exactly when an entry was dropped. *)
Definition getcartdata (uid : nat) (db : Db)
    : Response * option (gmap Z (gmap string Z) * Z) * Db :=
  match findUserById uid (users db) with
  | None => (fail 404, None, db)
  | Some user =>
      let cleanedCartData := cleanCartData (cartData user) in
      let db1 :=
        if decide (cleanedCartData ≠ cartData user)
        then setUsers db (saveUser (setCartData user cleanedCartData) (users db))
        else db in
      (ok, Some (cleanedCartData, totalItemsOf cleanedCartData), db1)
  end.

(** A cart in the form the cart routes write: every line positive and no
    product without a size. *)
Definition cartClean (cart : gmap Z (gmap string Z)) : Prop :=
  cartPositive cart ∧ ∀ k, cart !! k ≠ Some ∅.

Definition cartsClean (db : Db) : Prop :=
  Forall (fun u => cartClean (cartData u)) (users db).

(** A cart with lines that no route of this server would leave behind. *)
Definition aliceStale : User :=
  {| u_id := 7;
     cartData := {[ 1 := {[ "M" := 0; "L" := 2 ]}; 2 := {[ "M" := 0 ]} ]} |}.

Definition dbStale : Db := setUsers db0 [aliceStale].

(* ===================================================================== *)
(** ** Cart totals: [/cartdetails] and the shop context                   *)
(* ===================================================================== *)

(** A row of [cartDetails] (the product is kept by its numeric id). *)
Record CartDetail := mkCartDetail {
  cd_productId : Z;
  cd_quantity : Z;
  cd_size : string;
  cd_itemTotal : Z
}.

(** [Math.round(x * 100) / 100], the rounding to cents that the cart
    totals go through, on a whole number [x]: [x * 100] is whole, so
    [Math.round] leaves it, and the division by 100 is exact. *)
Definition roundCents (x : Z) : Z := x * 100 / 100.

(** The [summary] of the response. *)
Record CartSummary := mkCartSummary {
  s_totalItems : Z;
  s_totalAmount : Z;
  s_itemsCount : nat
}.

(** The loops of [/cartdetails]: the rows in the order they are pushed (the
    response sorts them by product name afterwards), [totalAmount] and
    [totalItems]. *)
Definition cartdetailsLoop (ps : list Product) (cart : gmap Z (gmap string Z))
    : list CartDetail * Z * Z :=
  fold_left
    (fun (acc : list CartDetail * Z * Z) (entry : Z * gmap string Z) =>
       match findProduct entry.1 ps with
       | None => acc
       | Some product =>
           fold_left
             (fun (acc : list CartDetail * Z * Z) (line : string * Z) =>
                let '(cartDetails, totalAmount_, totalItems_) := acc in
                let qty := line.2 in
                if decide (qty > 0) then
                  let itemTotal_ := productPrice product * qty in
                  (cartDetails ++
                     [ {| cd_productId := p_id product; cd_quantity := qty;
                          cd_size := line.1; cd_itemTotal := itemTotal_ |} ],
                   totalAmount_ + itemTotal_, totalItems_ + qty)
                else acc)
             (map_to_list entry.2) acc
       end)
    (cartEntries cart) ([], 0, 0).

(** [app.get('/cartdetails')]: the response and its [summary]. *)
Definition cartdetails (uid : nat) (db : Db) : Response * option CartSummary :=
  match findUserById uid (users db) with
  | None => (fail 404, None)
  | Some user =>
      let '(cartDetails, totalAmount_, totalItems_) :=
        cartdetailsLoop (products db) (cartData user) in
      (ok, Some {| s_totalItems := totalItems_;
                   s_totalAmount := roundCents totalAmount_;
                   s_itemsCount := length cartDetails |})
  end.

(** [normalizeCartData(cartData, products)] of the shop context: an empty
    entry for every catalog product, then the positive lines of the cart. *)
Definition normalizeCartData (cartData_ : gmap Z (gmap string Z))
    (products_ : list Product) : gmap Z (gmap string Z) :=
  let normalized0 :=
    fold_left (fun normalized p => <[p_id p := ∅]> normalized) products_ ∅ in
  fold_left
    (fun normalized (entry : Z * gmap string Z) =>
       let cleanedValue :=
         filter (fun line : string * Z => line.2 > 0) entry.2 in
       if decide (cleanedValue = ∅) then normalized
       else <[entry.1 := cleanedValue]> normalized)
    (cartEntries cartData_) normalized0.

(** [getTotalCartAmount()] of the shop context: the sum of the loops,
    rounded to cents. *)
Definition getTotalCartAmount (all_product : list Product)
    (cartItems : gmap Z (gmap string Z)) : Z :=
  roundCents
    (fold_left
       (fun total_ (entry : Z * gmap string Z) =>
          fold_left
            (fun total_ (line : string * Z) =>
               let qty := line.2 in
               if decide (qty > 0) then
                 match findProduct entry.1 all_product with
                 | Some product => total_ + productPrice product * qty
                 | None => total_
                 end
               else total_)
            (map_to_list entry.2) total_)
       (cartEntries cartItems) 0).

(** [getTotalCartItems()] of the shop context. *)
Definition getTotalCartItems (cartItems : gmap Z (gmap string Z)) : Z :=
  fold_left
    (fun total_ (entry : Z * gmap string Z) =>
       fold_left (fun total_ (line : string * Z) => total_ + line.2)
         (map_to_list entry.2) total_)
    (cartEntries cartItems) 0.

(** Sums over lists, and the two sums the totals above compute: the value
    of the positive lines of catalog products, and the number of units. *)
Definition sumWith {A} (f : A → Z) (l : list A) : Z :=
  foldr (fun x acc => f x + acc) 0 l.

Definition lineAmount (ps : list Product) (k : Z) (q : Z) : Z :=
  if decide (q > 0) then
    match findProduct k ps with
    | Some product => productPrice product * q
    | None => 0
    end
  else 0.

Definition cartAmount (ps : list Product) (cart : gmap Z (gmap string Z)) : Z :=
  sumWith (fun entry : Z * gmap string Z =>
             sumWith (fun line : string * Z => lineAmount ps entry.1 line.2)
               (map_to_list entry.2))
    (map_to_list cart).

Definition cartUnits (cart : gmap Z (gmap string Z)) : Z :=
  sumWith (fun entry : Z * gmap string Z =>
             sumWith (fun line : string * Z => line.2) (map_to_list entry.2))
    (map_to_list cart).

(** The row [/cartdetails] shows for an order item. *)
Definition rowOfItem (item : OrderItem) : CartDetail :=
  {| cd_productId := productId item; cd_quantity := quantity item;
     cd_size := size item; cd_itemTotal := itemTotal item |}.

(** The day before [today]. *)
Definition yesterday : Date := mkDate 2025 3 13.

(** A pending order with one item checked out and one still in the cart. *)
Definition orderPaid : Order :=
  {| o_id := 3; orderId := 4; userId := 7;
     items := [ {| productId := 1; productName := "P1"; quantity := 2;
                   price := 100; size := "M"; itemTotal := 200;
                   item_status := checkedout |};
                {| productId := 2; productName := "P2"; quantity := 1;
                   price := 50; size := "L"; itemTotal := 50;
                   item_status := in_cart |} ];
     total := 250; status := pending; paymentMethod := "cash_on_delivery";
     paymentStatus := payment_pending; createdAt := today;
     cancellationReason := None |}.

(** The cart of Scenario D filled the day before. *)
Definition dbDYesterday : Db :=
  run [(yesterday, addLine 1 2 "M"); (yesterday, addLine 2 1 "L")] db0.

(** Scenario D after the admin raised the price of P1 from 100 to 120. *)
Definition dbDRepriced : Db := step today (UpdateProduct 501 (Some 120)) dbD.

(** A copy of the cart of Scenario B that has fallen behind: it shows one
    unit of the line while three are stored. *)
Definition staleCart : gmap Z (gmap string Z) := {[ 1 := {[ "M" := 1 ]} ]}.

(* ===================================================================== *)
(** ** Proof automation                                                   *)
(* ===================================================================== *)

(** Reads the saved document off the resulting collection. *)
Ltac save_step order :=
  match goal with
  | |- ordersStep _ ?db' =>
      let os := eval simpl in (orders db') in
      match os with
      | saveOrder ?o' _ => eapply (orders_save _ _ order o')
      end
  end.

(* ===================================================================== *)
(** * Properties                                                          *)
(* ===================================================================== *)

(** ** The revenue ledger *)

Section Ledger.
Implicit Types (r : Revenue) (revs : list Revenue) (o : Order) (d : Date).

Lemma findRevenue_date d revs r :
  findRevenue d revs = Some r → date r = d.
Proof.
  unfold findRevenue. intros H. apply find_some in H as [_ H].
  by apply bool_decide_eq_true in H.
Qed.

Lemma findRevenue_save_eq r revs :
  findRevenue (date r) (saveRevenue r revs) = Some r.
Proof.
  unfold findRevenue.
  induction revs as [|x rest IH]; simpl.
  - by rewrite bool_decide_eq_true_2.
  - case_bool_decide as Hx; simpl.
    + by rewrite bool_decide_eq_true_2.
    + by rewrite bool_decide_eq_false_2.
Qed.

Lemma findRevenue_save_ne r d revs :
  d ≠ date r → findRevenue d (saveRevenue r revs) = findRevenue d revs.
Proof.
  unfold findRevenue. intros Hd.
  induction revs as [|x rest IH]; simpl.
  - by rewrite bool_decide_eq_false_2.
  - case_bool_decide as Hx; simpl.
    + rewrite !bool_decide_eq_false_2; congruence.
    + by rewrite IH.
Qed.

Lemma date_addOrderAmounts o r : date (addOrderAmounts o r) = date r.
Proof. unfold addOrderAmounts. by repeat case_decide. Qed.

Lemma date_bucket d revs : date (bucket d revs) = d.
Proof.
  unfold bucket. destruct (findRevenue d revs) eqn:E; simpl; [|done].
  by apply findRevenue_date in E.
Qed.

Lemma date_applyAction action o r : date (applyAction action o r) = date r.
Proof.
  unfold applyAction. repeat case_decide; by rewrite ?date_addOrderAmounts.
Qed.

Lemma updateRevenue_unfold o action revs :
  updateRevenue o action revs =
  saveRevenue (applyAction action o (bucket (createdAt o) revs)) revs.
Proof. reflexivity. Qed.

Lemma find_updateRevenue_same o action revs :
  findRevenue (createdAt o) (updateRevenue o action revs)
  = Some (applyAction action o (bucket (createdAt o) revs)).
Proof.
  rewrite updateRevenue_unfold.
  set (r' := applyAction _ _ _).
  assert (date r' = createdAt o) as <-
    by (unfold r'; by rewrite date_applyAction, date_bucket).
  apply findRevenue_save_eq.
Qed.

Lemma bucket_updateRevenue_same o action revs :
  bucket (createdAt o) (updateRevenue o action revs)
  = applyAction action o (bucket (createdAt o) revs).
Proof. unfold bucket at 1. by rewrite find_updateRevenue_same. Qed.

Lemma find_updateRevenue_other o action revs d :
  d ≠ createdAt o →
  findRevenue d (updateRevenue o action revs) = findRevenue d revs.
Proof.
  intros Hd. rewrite updateRevenue_unfold.
  apply findRevenue_save_ne.
  by rewrite date_applyAction, date_bucket.
Qed.

Lemma bucket_updateRevenue_other o action revs d :
  d ≠ createdAt o →
  bucket d (updateRevenue o action revs) = bucket d revs.
Proof. intros Hd. unfold bucket. by rewrite find_updateRevenue_other. Qed.

(** A bucket that is not in the ledger yet is appended, an existing one is
    replaced where it stands. *)
Lemma saveRevenue_absent r revs :
  findRevenue (date r) revs = None → saveRevenue r revs = revs ++ [r].
Proof.
  unfold findRevenue.
  induction revs as [|x rest IH]; simpl; [done|].
  case_bool_decide; [done|]. intros Hrest. by rewrite IH.
Qed.

Lemma saveRevenue_same r revs :
  findRevenue (date r) revs = Some r → saveRevenue r revs = revs.
Proof.
  unfold findRevenue.
  induction revs as [|x rest IH]; simpl; [done|].
  case_bool_decide; [congruence|]. intros Hrest. by rewrite IH.
Qed.
End Ledger.

(** The sum the ledger code computes with [filter] and [reduce] is the sum
    of the totals of the checked-out items. *)
Lemma checkedoutTotal_items (o : Order) :
  checkedoutTotal o = checkedOutItemTotals (items o).
Proof.
  unfold checkedoutTotal, sum_itemTotal.
  assert (H : ∀ its a,
    fold_left (fun sum item => sum + itemTotal item)
      (List.filter (fun item => bool_decide (item_status item = checkedout)) its) a
    = a + checkedOutItemTotals its).
  { induction its as [|item rest IH]; intros a; simpl; [lia|].
    destruct (item_status item); simpl; rewrite IH; lia. }
  rewrite H. lia.
Qed.

(** C3.  [updateRevenue(order, 'update')] adds [order.total] to the counter
    selected by the order's status (and to [dailyRevenue] as well when the
    order is delivered), adds the sum of the totals of the order's
    checked-out items (and of no other item) to [checkedoutRevenue], leaves
    [ordersCount] and the buckets of all other days alone, and subtracts
    nothing: a second call for the same order adds the same amounts again,
    so the selected counter ends [2 * order.total] above its start. *)
Theorem updateRevenue_update_adds_again (o : Order) (revs : list Revenue) :
  let d := createdAt o in
  let before := bucket d revs in
  let once := bucket d (updateRevenue o "update" revs) in
  let twice :=
    bucket d (updateRevenue o "update" (updateRevenue o "update" revs)) in
  statusRevenue (status o) once = statusRevenue (status o) before + total o ∧
  deliveredRevenue once
    = deliveredRevenue before + (if decide (status o = delivered) then total o else 0) ∧
  dailyRevenue once
    = dailyRevenue before + (if decide (status o = delivered) then total o else 0) ∧
  cancelledRevenue once
    = cancelledRevenue before + (if decide (status o = cancelled) then total o else 0) ∧
  pendingRevenue once
    = pendingRevenue before
      + (if decide (status o = delivered ∨ status o = cancelled) then 0 else total o) ∧
  checkedoutRevenue once
    = checkedoutRevenue before + checkedOutItemTotals (items o) ∧
  ordersCount once = ordersCount before ∧
  statusRevenue (status o) twice
    = statusRevenue (status o) before + 2 * total o ∧
  checkedoutRevenue twice
    = checkedoutRevenue before + 2 * checkedOutItemTotals (items o) ∧
  (∀ d', d' ≠ d →
     bucket d' (updateRevenue o "update" revs) = bucket d' revs).
Proof.
  intros d before once twice. rewrite <- !checkedoutTotal_items.
  assert (Honce : once = addOrderAmounts o before)
    by (unfold once, d; by rewrite bucket_updateRevenue_same).
  assert (Htwice : twice = addOrderAmounts o (addOrderAmounts o before))
    by (unfold twice, d; by rewrite !bucket_updateRevenue_same).
  rewrite Honce, Htwice. clear.
  unfold addOrderAmounts.
  repeat split;
    try (destruct (status o); simpl; repeat case_decide; simpl;
         try lia; try congruence; naive_solver).
  intros d' Hd'. by apply bucket_updateRevenue_other.
Qed.

(** The pending order of Scenario B (total 300): one update adds 300 to the
    day's pending revenue, two add 600.  For a pending order of total 250
    with one item of 200 checked out and one of 50 still in the cart, one
    update adds 250 of pending and 200 of checked-out revenue, two add 500
    and 400. *)
Lemma updateRevenue_update_adds_again_witness :
  (pendingRevenue (bucket today (updateRevenue orderB "update" (revenues dbB)))
   = pendingRevenue (bucket today (revenues dbB)) + 300 ∧
   pendingRevenue
     (bucket today
        (updateRevenue orderB "update"
           (updateRevenue orderB "update" (revenues dbB))))
   = pendingRevenue (bucket today (revenues dbB)) + 2 * 300) ∧
  (pendingRevenue (bucket today (updateRevenue orderPaid "update" (revenues dbB)))
   = pendingRevenue (bucket today (revenues dbB)) + 250 ∧
   checkedoutRevenue (bucket today (updateRevenue orderPaid "update" (revenues dbB)))
   = checkedoutRevenue (bucket today (revenues dbB)) + 200 ∧
   checkedoutRevenue
     (bucket today
        (updateRevenue orderPaid "update"
           (updateRevenue orderPaid "update" (revenues dbB))))
   = checkedoutRevenue (bucket today (revenues dbB)) + 400).
Proof.
  split.
  - destruct (updateRevenue_update_adds_again orderB (revenues dbB))
      as (H1 & _ & _ & _ & _ & _ & _ & H2 & _).
    exact (conj H1 H2).
  - destruct (updateRevenue_update_adds_again orderPaid (revenues dbB))
      as (H1 & _ & _ & _ & _ & H6 & _ & _ & H9 & _).
    exact (conj H1 (conj H6 H9)).
Defined.

(** ** Lookups in the collections *)

Section Collections.
Implicit Types (u : User) (us : list User) (o : Order) (os : list Order).

Lemma findUserById_id uid us u : findUserById uid us = Some u → u_id u = uid.
Proof.
  unfold findUserById. intros H. apply find_some in H as [_ H].
  by apply bool_decide_eq_true in H.
Qed.

Lemma findUserById_In uid us u : findUserById uid us = Some u → In u us.
Proof. unfold findUserById. intros H. by apply find_some in H as [H _]. Qed.

Lemma findUserById_save uid us u u' :
  findUserById uid us = Some u → u_id u' = uid →
  findUserById uid (saveUser u' us) = Some u'.
Proof.
  unfold findUserById. intros Hfind Hid.
  induction us as [|x rest IH]; simpl in *; [done|].
  rewrite Hid. case_bool_decide as Hx; simpl.
  - by rewrite bool_decide_eq_true_2.
  - rewrite bool_decide_eq_false_2 by done. auto.
Qed.

Lemma findUserById_save_other uid us u' :
  u_id u' ≠ uid →
  findUserById uid (saveUser u' us) = findUserById uid us.
Proof.
  unfold findUserById. intros Hid.
  induction us as [|x rest IH]; simpl; [done|].
  case_bool_decide as Hx; simpl.
  - rewrite !bool_decide_eq_false_2; congruence.
  - by rewrite IH.
Qed.

Lemma findProduct_id pid ps p : findProduct pid ps = Some p → p_id p = pid.
Proof.
  unfold findProduct. intros H. apply find_some in H as [_ H].
  by apply bool_decide_eq_true in H.
Qed.

Lemma findOrderById_id oid os o : findOrderById oid os = Some o → o_id o = oid.
Proof.
  unfold findOrderById. intros H. apply find_some in H as [_ H].
  by apply bool_decide_eq_true in H.
Qed.

Lemma findOrderById_In oid os o : findOrderById oid os = Some o → In o os.
Proof. unfold findOrderById. intros H. by apply find_some in H as [H _]. Qed.

Lemma findPendingOrder_spec uid os o :
  findPendingOrder uid os = Some o →
  In o os ∧ userId o = uid ∧ status o = pending.
Proof.
  unfold findPendingOrder, pendingOf. intros H. apply find_some in H as [Hin H].
  apply andb_true_iff in H as [H1 H2].
  apply bool_decide_eq_true in H1, H2. done.
Qed.

Lemma findOrderById_save oid os o o' :
  findOrderById oid os = Some o → o_id o' = oid →
  findOrderById oid (saveOrder o' os) = Some o'.
Proof.
  unfold findOrderById. intros Hfind Hid.
  induction os as [|x rest IH]; simpl in *; [done|].
  rewrite Hid. case_bool_decide as Hx; simpl.
  - by rewrite bool_decide_eq_true_2.
  - rewrite bool_decide_eq_false_2 by done. auto.
Qed.

Lemma findOrderById_In_save os o o' :
  In o os → o_id o' = o_id o →
  findOrderById (o_id o) (saveOrder o' os) = Some o'.
Proof.
  unfold findOrderById. intros Hin Hid.
  induction os as [|x rest IH]; simpl in *; [done|].
  rewrite Hid. case_bool_decide as Hx; simpl.
  - by rewrite bool_decide_eq_true_2.
  - rewrite bool_decide_eq_false_2 by done.
    destruct Hin as [->|Hin]; [done|auto].
Qed.
End Collections.

(** C9.  The admin delete route calls [updateRevenue(order, 'remove')];
    ['remove'] is neither ['add'] nor ['update'], so every counter of every
    day keeps its value, and the ledger itself is either unchanged or has
    gained one all-zero bucket for the order's creation day.  The order is
    then deleted; what it contributed earlier stays in the ledger. *)
Theorem adminDeleteOrder_leaves_revenue (oid : nat) (db : Db) :
  let db' := (adminDeleteOrder oid db).2 in
  (∀ o revs, updateRevenue o "remove" revs
             = saveRevenue (bucket (createdAt o) revs) revs) ∧
  (∀ d, bucket d (revenues db') = bucket d (revenues db)) ∧
  (revenues db' = revenues db ∨
   ∃ o, findOrderById oid (orders db) = Some o ∧
        findRevenue (createdAt o) (revenues db) = None ∧
        revenues db' = revenues db ++ [newRevenue (createdAt o)]) ∧
  (∀ o, findOrderById oid (orders db) = Some o →
        (adminDeleteOrder oid db).1 = ok ∧
        revenues db' = updateRevenue o "remove" (revenues db) ∧
        orders db' = deleteOrder oid (orders db)).
Proof.
  intros db'. subst db'. unfold adminDeleteOrder.
  split; [done|].
  destruct (findOrderById oid (orders db)) as [o|] eqn:Ho; simpl.
  - split; [|split].
    + intros d. destruct (decide (d = createdAt o)) as [->|Hd].
      * by rewrite bucket_updateRevenue_same.
      * by apply bucket_updateRevenue_other.
    + rewrite updateRevenue_unfold.
      change (applyAction "remove" o ?r) with r.
      unfold bucket.
      destruct (findRevenue (createdAt o) (revenues db)) as [r|] eqn:Hr; simpl.
      * left. apply saveRevenue_same.
        by rewrite (findRevenue_date _ _ _ Hr).
      * right. exists o. repeat split; [done|].
        by apply saveRevenue_absent.
    + intros o' [= <-]. done.
  - split; [done|]. split; [by left|]. done.
Qed.

(** Deleting the order of Scenario B leaves the 400 of pending revenue that
    its two cart updates had booked. *)
Lemma adminDeleteOrder_leaves_revenue_witness :
  (adminDeleteOrder 0 dbB).1 = ok ∧
  orders (adminDeleteOrder 0 dbB).2 = [] ∧
  pendingRevenue (bucket today (revenues (adminDeleteOrder 0 dbB).2)) = 400.
Proof.
  destruct (adminDeleteOrder_leaves_revenue 0 dbB) as (_ & Hsame & _ & Hfound).
  destruct (Hfound orderB) as (Hok & _ & Horders).
  - vm_compute. reflexivity.
  - split; [exact Hok|]. split.
    + rewrite Horders. vm_compute. reflexivity.
    + rewrite (Hsame today). vm_compute. reflexivity.
Defined.

(** ** First addition to the cart *)

Lemma insertOrder_fresh (o : Order) (os : list Order) :
  paymentMethod o ∈ paymentMethods →
  orderId o ∉ List.map orderId os →
  insertOrder o os = Some (os ++ [o]).
Proof.
  intros Hpm Hid. unfold insertOrder.
  rewrite decide_True by done. by rewrite decide_False.
Qed.

(** C7.  [updateRevenue(order, 'add')] increments [ordersCount] of the
    creation-day bucket by one, adds [order.total] to the one counter that
    the order's status selects (with [dailyRevenue] following
    [deliveredRevenue]), and adds the sum of the totals of the order's
    checked-out items (and of no other item) to [checkedoutRevenue].  In particular, when a user without a pending order
    adds one unit of a product priced 100, the handler answers with success,
    appends a pending order with a single item of [itemTotal] 100 and
    [total] 100, and the bucket of the current day gains one order and 100
    of pending revenue, its other counters unchanged. *)
Theorem updateRevenue_add_first_addToCart :
  (∀ (o : Order) (revs : list Revenue),
     let before := bucket (createdAt o) revs in
     let after := bucket (createdAt o) (updateRevenue o "add" revs) in
     ordersCount after = ordersCount before + 1 ∧
     statusRevenue (status o) after = statusRevenue (status o) before + total o ∧
     deliveredRevenue after
       = deliveredRevenue before + (if decide (status o = delivered) then total o else 0) ∧
     dailyRevenue after
       = dailyRevenue before + (if decide (status o = delivered) then total o else 0) ∧
     cancelledRevenue after
       = cancelledRevenue before + (if decide (status o = cancelled) then total o else 0) ∧
     pendingRevenue after
       = pendingRevenue before
         + (if decide (status o = delivered ∨ status o = cancelled) then 0 else total o) ∧
     checkedoutRevenue after
       = checkedoutRevenue before + checkedOutItemTotals (items o) ∧
     (∀ d', d' ≠ createdAt o →
        bucket d' (updateRevenue o "add" revs) = bucket d' revs)) ∧
  (∀ (db : Db) (uid : nat) (user : User) (product : Product)
     (itemId : Z) (sz pm : string) (now : Date),
     findUserById uid (users db) = Some user →
     findProduct itemId (products db) = Some product →
     itemId ≠ 0 →
     productPrice product = 100 →
     sz ≠ "" → sz ≠ "default" → sz ∈ availableSizes product →
     pm ≠ "" → normalizePaymentMethod pm ∈ paymentMethods →
     findPendingOrder uid (orders db) = None →
     S (length (orders db)) ∉ List.map orderId (orders db) →
     let body := {| b_itemId := itemId; b_quantity := 1; b_size := sz;
                    b_paymentMethod := pm |} in
     let order :=
       {| o_id := next_oid db; orderId := S (length (orders db));
          userId := uid;
          items := [ {| productId := itemId; productName := name product;
                        quantity := 1; price := 100; size := sz;
                        itemTotal := 100; item_status := in_cart |} ];
          total := 100; status := pending;
          paymentMethod := normalizePaymentMethod pm;
          paymentStatus := payment_pending;
          createdAt := now; cancellationReason := None |} in
     let db' := (addtocart uid body now db).2 in
     let before := bucket now (revenues db) in
     let after := bucket now (revenues db') in
     (addtocart uid body now db).1 = ok ∧
     orders db' = orders db ++ [order] ∧
     ordersCount after = ordersCount before + 1 ∧
     pendingRevenue after = pendingRevenue before + 100 ∧
     deliveredRevenue after = deliveredRevenue before ∧
     dailyRevenue after = dailyRevenue before ∧
     cancelledRevenue after = cancelledRevenue before ∧
     checkedoutRevenue after = checkedoutRevenue before).
Proof.
  split.
  - intros o revs before after. rewrite <- checkedoutTotal_items.
    assert (Hafter : after = addOrderAmounts o (incrOrdersCount before))
      by (unfold after; by rewrite bucket_updateRevenue_same).
    rewrite Hafter. clear. unfold addOrderAmounts, incrOrdersCount.
    repeat split;
      try (destruct (status o); simpl; repeat case_decide; simpl;
           try lia; try congruence; naive_solver).
    intros d' Hd'. by apply bucket_updateRevenue_other.
  - intros db uid user product itemId sz pm now
      Huser Hprod Hid Hprice Hsz1 Hsz2 Hsz3 Hpm1 Hpm2 Hpending Hfresh
      body order db' before after.
    pose proof (findUserById_id _ _ _ Huser) as Huid.
    pose proof (findProduct_id _ _ _ Hprod) as Hpid.
    assert (Hrun : addtocart uid body now db
              = (ok,
                 setRevenues
                   {| users := saveUser
                                 (setCartData user
                                    (addtocartCart (cartData user) itemId sz 1))
                                 (users db);
                      products := products db;
                      orders := orders db ++ [order];
                      revenues := revenues db;
                      next_oid := S (next_oid db) |}
                   (updateRevenue order "add" (revenues db)))).
    { unfold addtocart, body; simpl.
      rewrite (decide_False (P := sz = "")) by done.
      rewrite (decide_False (P := pm = "")) by done.
      rewrite (decide_False (P := sz = "default")) by done.
      rewrite Hprod.
      rewrite (decide_False (P := itemId = 0)) by done.
      rewrite (decide_False (P := sz ∉ availableSizes product)) by auto.
      rewrite Huser.
      unfold createOrUpdateOrder; simpl. rewrite Huid, Hpending.
      unfold createOrder; simpl.
      unfold newCartItem. rewrite Hprice, Hpid. simpl.
      rewrite insertOrder_fresh by done. simpl. done. }
    subst db' after before. rewrite Hrun. simpl.
    split; [done|]. split; [done|].
    rewrite (bucket_updateRevenue_same order "add" (revenues db) : bucket now _ = _).
    unfold applyAction, addOrderAmounts, incrOrdersCount, checkedoutTotal,
      sum_itemTotal.
    simpl. repeat split; lia.
Qed.

(** The hypotheses of the scenario hold in the sample shop: Scenario A.
    And for a pending order of total 250 with one item of 200 checked out
    and one of 50 still in the cart, ['add'] counts one order, 250 of
    pending revenue and 200 of checked-out revenue. *)
Lemma updateRevenue_add_first_addToCart_witness :
  let body := {| b_itemId := 1; b_quantity := 1; b_size := "M";
                 b_paymentMethod := "cash" |} in
  ((addtocart 7 body today db0).1 = ok ∧
   ordersCount (bucket today (revenues (addtocart 7 body today db0).2))
     = ordersCount (bucket today (revenues db0)) + 1 ∧
   pendingRevenue (bucket today (revenues (addtocart 7 body today db0).2))
     = pendingRevenue (bucket today (revenues db0)) + 100) ∧
  (ordersCount (bucket today (updateRevenue orderPaid "add" (revenues dbB)))
     = ordersCount (bucket today (revenues dbB)) + 1 ∧
   pendingRevenue (bucket today (updateRevenue orderPaid "add" (revenues dbB)))
     = pendingRevenue (bucket today (revenues dbB)) + 250 ∧
   checkedoutRevenue (bucket today (updateRevenue orderPaid "add" (revenues dbB)))
     = checkedoutRevenue (bucket today (revenues dbB)) + 200).
Proof.
  intros body. split.
  - destruct (proj2 updateRevenue_add_first_addToCart
                db0 7%nat alice P1 1 "M" "cash" today)
      as (H1 & _ & H3 & H4 & _).
    + reflexivity.
    + reflexivity.
    + lia.
    + reflexivity.
    + discriminate.
    + discriminate.
    + apply (bool_decide_unpack _). vm_compute. exact I.
    + discriminate.
    + apply (bool_decide_unpack _). vm_compute. exact I.
    + reflexivity.
    + apply (bool_decide_unpack _). vm_compute. exact I.
    + exact (conj H1 (conj H3 H4)).
  - destruct (proj1 updateRevenue_add_first_addToCart orderPaid (revenues dbB))
      as (H1 & H2 & _ & _ & _ & _ & H7 & _).
    exact (conj H1 (conj H2 H7)).
Defined.

(** ** The revenue query *)

Section Query.
Variable period : Period.
Implicit Types (r : Revenue) (revs : list Revenue) (rows : list RevenueRow).

Lemma groupKey_overwrite g r :
  groupKey period (overwriteUnreported g r) = groupKey period r.
Proof. unfold overwriteUnreported. destruct (g r) as [[[? ?] ?] ?]. by destruct period. Qed.

Lemma groupAdd_overwrite g r rows :
  groupAdd period (overwriteUnreported g r) rows = groupAdd period r rows.
Proof.
  induction rows as [|row rest IH]; simpl.
  - unfold overwriteUnreported. destruct (g r) as [[[? ?] ?] ?]. by destruct period.
  - rewrite groupKey_overwrite, IH.
    unfold overwriteUnreported. by destruct (g r) as [[[? ?] ?] ?].
Qed.

Lemma groupStage_overwrite g revs :
  groupStage period (List.map (overwriteUnreported g) revs) = groupStage period revs.
Proof.
  unfold groupStage. generalize (@nil RevenueRow).
  induction revs as [|r rest IH]; intros rows; simpl; [done|].
  by rewrite groupAdd_overwrite, IH.
Qed.

Lemma matchStage_overwrite year_ month_ g r :
  matchStage year_ month_ (overwriteUnreported g r) = matchStage year_ month_ r.
Proof. unfold overwriteUnreported. by destruct (g r) as [[[? ?] ?] ?]. Qed.

Lemma filter_matchStage_overwrite year_ month_ g revs :
  List.filter (matchStage year_ month_) (List.map (overwriteUnreported g) revs)
  = List.map (overwriteUnreported g) (List.filter (matchStage year_ month_) revs).
Proof.
  induction revs as [|r rest IH]; simpl; [done|].
  rewrite matchStage_overwrite.
  destruct (matchStage year_ month_ r); simpl; by rewrite IH.
Qed.

(** The keys of the groups after one more document. *)
Lemma groupAdd_keys r rows :
  List.map row_id (groupAdd period r rows)
  = if decide (groupKey period r ∈ List.map row_id rows)
    then List.map row_id rows
    else List.map row_id rows ++ [groupKey period r].
Proof.
  induction rows as [|row rest IH]; simpl.
  - done.
  - destruct (decide (row_id row = groupKey period r)) as [Heq|Hne]; simpl.
    + rewrite decide_True; [done|]. rewrite Heq. apply elem_of_cons. by left.
    + rewrite IH. destruct (decide (groupKey period r ∈ List.map row_id rest)) as [Hin|Hnin].
      * rewrite decide_True; [done|]. apply elem_of_cons. by right.
      * rewrite decide_False; [done|].
        intros [?|?]%elem_of_cons; congruence.
Qed.

Lemma deliveredOf_snoc key revs r :
  deliveredOf period key (revs ++ [r])
  = deliveredOf period key revs
    + (if decide (groupKey period r = key) then deliveredRevenue r else 0).
Proof.
  unfold deliveredOf. induction revs as [|x rest IH]; simpl.
  - case_bool_decide; case_decide; simpl; try done; lia.
  - case_bool_decide; simpl; rewrite IH; lia.
Qed.

Lemma deliveredOf_absent key revs :
  (∀ r, In r revs → groupKey period r ≠ key) → deliveredOf period key revs = 0.
Proof.
  unfold deliveredOf. induction revs as [|x rest IH]; simpl; [done|].
  intros H. rewrite bool_decide_eq_false_2 by (apply H; by left).
  apply IH. intros r Hr. apply H. by right.
Qed.

Lemma groupAdd_revenue r rows row' :
  NoDup (List.map row_id rows) →
  In row' (groupAdd period r rows) →
  (row_id row' ≠ groupKey period r ∧ In row' rows) ∨
  (row_id row' = groupKey period r ∧
   ((∃ row, In row rows ∧ row_id row = row_id row' ∧
            row_revenue row' = row_revenue row + deliveredRevenue r) ∨
    ((groupKey period r ∉ List.map row_id rows) ∧
     row_revenue row' = deliveredRevenue r))).
Proof.
  induction rows as [|row rest IH]; simpl; intros Hnd Hin.
  - destruct Hin as [<-|[]]. right. split; [done|]. right.
    split; [apply not_elem_of_nil|done].
  - apply NoDup_cons in Hnd as [Hrow Hnd].
    destruct (decide (row_id row = groupKey period r)) as [Heq|Hne].
    + destruct Hin as [<-|Hin]; simpl.
      * right. split; [done|]. left. exists row. auto.
      * left. split; [|by right].
        intros Hk. apply Hrow. rewrite Heq, <- Hk.
        apply list_elem_of_In, in_map, Hin.
    + destruct Hin as [<-|Hin].
      * left. auto.
      * destruct (IH Hnd Hin) as [[? ?]|[Hk [(row0 & ? & ? & ?)|[Hnin ?]]]].
        -- left. auto.
        -- right. split; [done|]. left. exists row0. auto.
        -- right. split; [done|]. right. split; [|done].
           intros [?|?]%elem_of_cons; congruence.
Qed.

Lemma grouped_groupAdd seen r rows :
  grouped period seen rows →
  grouped period (seen ++ [r]) (groupAdd period r rows).
Proof.
  intros (Hnd & Hrev & Hkeys). split; [|split].
  - rewrite groupAdd_keys. case_decide as Hin; [done|].
    apply NoDup_app. split; [done|]. split.
    + intros k Hk [->|[]%elem_of_nil]%elem_of_cons. done.
    + apply NoDup_singleton.
  - intros row' Hin. rewrite deliveredOf_snoc.
    destruct (groupAdd_revenue _ _ _ Hnd Hin)
      as [[Hk Hin']|[Hk [(row & Hin' & Hid & Hsum)|[Hnin Hsum]]]].
    + rewrite decide_False by done. rewrite (Hrev _ Hin'). lia.
    + rewrite decide_True by done. rewrite Hsum, (Hrev _ Hin'), Hid. done.
    + rewrite decide_True by done. rewrite Hsum.
      rewrite deliveredOf_absent; [lia|].
      intros r0 Hr0 Hk0. apply Hnin. rewrite <- Hk, <- Hk0. by apply Hkeys.
  - intros r0 [Hr0| [<-|[]]]%in_app_iff; rewrite groupAdd_keys; case_decide as Hin.
    + by apply Hkeys.
    + apply elem_of_app. left. by apply Hkeys.
    + done.
    + apply elem_of_app. right. by apply list_elem_of_singleton.
Qed.

Lemma grouped_groupStage revs : grouped period revs (groupStage period revs).
Proof.
  unfold groupStage.
  assert (H : ∀ seen rows, grouped period seen rows →
            grouped period (seen ++ revs)
              (fold_left (fun rows r => groupAdd period r rows) revs rows)).
  { induction revs as [|r rest IH]; intros seen rows Hg; simpl.
    - by rewrite app_nil_r.
    - replace (seen ++ r :: rest) with ((seen ++ [r]) ++ rest)
        by (by rewrite <- app_assoc).
      apply IH. by apply grouped_groupAdd. }
  apply (H [] []). split; [constructor|]. split; [intros ? []|intros ? []].
Qed.

Lemma In_insertDesc row x rows :
  In row (insertDesc x rows) ↔ row = x ∨ In row rows.
Proof.
  induction rows as [|y rest IH]; simpl.
  - intuition congruence.
  - destruct (keyGt (sortKey x) (sortKey y)); simpl; [intuition congruence|].
    rewrite IH. intuition congruence.
Qed.

Lemma In_sortStage row rows : In row (sortStage rows) ↔ In row rows.
Proof.
  unfold sortStage. induction rows as [|x rest IH]; simpl; [done|].
  rewrite In_insertDesc, IH. intuition congruence.
Qed.

Lemma In_getRevenue year_ month_ revs row :
  In row (getRevenue period year_ month_ revs) →
  In row (groupStage period (List.filter (matchStage year_ month_) revs)).
Proof.
  unfold getRevenue. intros H. apply In_sortStage.
  destruct period; [| |done];
    apply list_elem_of_In; apply list_elem_of_In in H;
    by apply elem_of_take in H as (i & H & _); apply list_elem_of_lookup_2 in H.
Qed.
End Query.

(** ** Which groups the query reports *)

Lemma keyGt_later a b : keyGt a b = true → laterKey a b.
Proof.
  revert b. induction a as [|x a IH]; intros [|y b]; simpl; try done.
  rewrite orb_true_iff, andb_true_iff, Z.ltb_lt, Z.eqb_eq.
  intros [Hlt|[-> Hrest]].
  - by apply later_head.
  - apply later_tail. auto.
Qed.

Lemma keyGt_asym a b : keyGt a b = true → keyGt b a = false.
Proof.
  revert b. induction a as [|x a IH]; intros [|y b]; simpl; try done.
  rewrite orb_true_iff, andb_true_iff, Z.ltb_lt, Z.eqb_eq.
  rewrite orb_false_iff, andb_false_iff, Z.ltb_ge, Z.eqb_neq.
  intros [Hlt|[-> Hrest]]; (split; [lia|]).
  - left. lia.
  - right. auto.
Qed.

Lemma keyGt_below a b c :
  keyGt a b = true → keyGt c b = false → keyGt c a = false.
Proof.
  revert b c. induction a as [|x a IH]; intros [|y b] [|z c]; simpl; try done.
  rewrite orb_true_iff, andb_true_iff, Z.ltb_lt, Z.eqb_eq.
  rewrite !orb_false_iff, !andb_false_iff, !Z.ltb_ge, !Z.eqb_neq.
  intros [Hlt|[-> Hab]] [Hle [Hne|Hcb]]; (split; [lia|]).
  - left. lia.
  - left. lia.
  - by left.
  - right. eauto.
Qed.

Lemma keyGt_total a b :
  length a = length b → a ≠ b → keyGt b a = false → keyGt a b = true.
Proof.
  revert b. induction a as [|x a IH]; intros [|y b]; simpl; try done.
  intros [= Hlen] Hne.
  rewrite orb_true_iff, andb_true_iff, Z.ltb_lt, Z.eqb_eq.
  rewrite orb_false_iff, andb_false_iff, Z.ltb_ge, Z.eqb_neq.
  intros [Hle [Hyx|Hba]].
  - left. lia.
  - destruct (decide (x = y)) as [->|Hxy]; [|left; lia].
    right. split; [done|]. apply IH; [done| |done]. congruence.
Qed.

Lemma insertDesc_perm x rows : insertDesc x rows ≡ₚ x :: rows.
Proof.
  induction rows as [|y rest IH]; simpl; [done|].
  destruct (keyGt (sortKey x) (sortKey y)); [done|].
  rewrite IH. apply Permutation_swap.
Qed.

Lemma sortStage_perm rows : sortStage rows ≡ₚ rows.
Proof.
  unfold sortStage. induction rows as [|x rest IH]; simpl; [done|].
  by rewrite insertDesc_perm, IH.
Qed.

Lemma insertDesc_sorted x rows :
  StronglySorted (fun a b => keyGt (sortKey b) (sortKey a) = false) rows →
  StronglySorted (fun a b => keyGt (sortKey b) (sortKey a) = false)
    (insertDesc x rows).
Proof.
  induction 1 as [|y rest Hsorted IH Hall]; simpl.
  - repeat constructor.
  - destruct (keyGt (sortKey x) (sortKey y)) eqn:Hxy.
    + constructor; [by constructor|]. constructor; [by apply keyGt_asym|].
      eapply Forall_impl; [exact Hall|]. simpl. intros z Hz.
      by apply (keyGt_below _ (sortKey y)).
    + constructor; [done|].
      rewrite (insertDesc_perm x rest). by constructor.
Qed.

Lemma sortStage_sorted rows :
  StronglySorted (fun a b => keyGt (sortKey b) (sortKey a) = false)
    (sortStage rows).
Proof.
  unfold sortStage. induction rows as [|x rest IH]; simpl; [constructor|].
  by apply insertDesc_sorted.
Qed.

(** A row that the cut leaves out comes after every row that is kept. *)
Lemma take_sorted_cut {A} (R : A → A → Prop) (l : list A) (n : nat) (x : A) :
  StronglySorted R l → In x l → ¬ In x (take n l) →
  length (take n l) = n ∧ ∀ y, In y (take n l) → R y x.
Proof.
  intros Hsorted. revert n.
  induction Hsorted as [|y rest Hsorted IH Hall]; intros n Hin Hout; [done|].
  destruct n as [|n]; simpl in *; [done|].
  destruct Hin as [->|Hin]; [by destruct Hout; left|].
  destruct (IH n Hin) as [Hlen Hbefore]; [tauto|].
  split; [by rewrite Hlen|].
  intros z [<-|Hz]; [|auto].
  rewrite Forall_forall in Hall. by apply Hall, list_elem_of_In.
Qed.

Lemma groupAdd_origin period r rows row' :
  In row' (groupAdd period r rows) →
  (∃ row, In row rows ∧ row_id row' = row_id row ∧ row_date row' = row_date row) ∨
  (row_id row' = groupKey period r ∧
   row_date row' = match period with daily => Some (date r) | _ => None end).
Proof.
  induction rows as [|row rest IH]; simpl.
  - intros [<-|[]]. by right.
  - case_decide as Hk.
    + intros [Heq|Hin]; left.
      * exists row. rewrite <- Heq. simpl. auto.
      * exists row'. auto.
    + intros [Heq|Hin]; [left; exists row; rewrite Heq; auto|].
      destruct (IH Hin) as [(row0 & ? & ? & ?)|?]; [|by right].
      left. exists row0. auto.
Qed.

Lemma groupStage_origin period revs row :
  In row (groupStage period revs) →
  ∃ r, In r revs ∧ row_id row = groupKey period r ∧
       row_date row = match period with daily => Some (date r) | _ => None end.
Proof.
  unfold groupStage.
  assert (H : ∀ part rows,
    (∀ r, In r part → In r revs) →
    (∀ row, In row rows →
       ∃ r, In r revs ∧ row_id row = groupKey period r ∧
            row_date row = match period with daily => Some (date r) | _ => None end) →
    ∀ row, In row (fold_left (fun rows r => groupAdd period r rows) part rows) →
       ∃ r, In r revs ∧ row_id row = groupKey period r ∧
            row_date row = match period with daily => Some (date r) | _ => None end).
  { induction part as [|r part IH]; intros rows Hpart Hrows; simpl; [done|].
    apply IH; [intros r' Hr'; apply Hpart; by right|].
    intros row' Hin.
    destruct (groupAdd_origin _ _ _ _ Hin) as [(row0 & Hin0 & Hid & Hdate)|[Hid Hdate]].
    - destruct (Hrows row0 Hin0) as (r0 & ? & ? & ?).
      exists r0. rewrite Hid, Hdate. auto.
    - exists r. split; [apply Hpart; by left|done]. }
  apply (H revs []); [done|intros ? []].
Qed.

Lemma sortKey_groupStage period revs row :
  Forall wfBucket revs → In row (groupStage period revs) →
  sortKey row = row_id row.
Proof.
  intros Hwf Hin.
  destruct (groupStage_origin _ _ _ Hin) as (r & Hr & Hid & Hdate).
  rewrite Forall_forall in Hwf.
  destruct (Hwf r (proj2 (list_elem_of_In _ _) Hr)) as (Hy & Hm & Hd).
  unfold sortKey. rewrite Hdate, Hid.
  destruct period; simpl; [|done|done]. by rewrite Hy, Hm, Hd.
Qed.

Lemma length_groupKey period r r' :
  length (groupKey period r) = length (groupKey period r').
Proof. by destruct period. Qed.

(** The ledger only writes buckets whose [year], [month] and [day] are
    those of their [date]. *)
Lemma wfBucket_updateRevenue o action revs :
  Forall wfBucket revs → Forall wfBucket (updateRevenue o action revs).
Proof.
  intros Hwf. unfold updateRevenue.
  set (found := match findRevenue (createdAt o) revs with
                | Some r => r
                | None => newRevenue (createdAt o)
                end).
  assert (Hfound : wfBucket found).
  { unfold found. destruct (findRevenue _ _) as [r|] eqn:Hr; [|done].
    rewrite Forall_forall in Hwf. apply Hwf, list_elem_of_In.
    unfold findRevenue in Hr. by apply find_some in Hr as [? _]. }
  set (r' := if decide (action = "add") then _ else _).
  assert (Hr' : wfBucket r').
  { unfold r', addOrderAmounts, incrOrdersCount, wfBucket in *.
    repeat case_decide; simpl; done. }
  clearbody r'. clear Hfound found.
  induction Hwf as [|x rest Hx Hrest IH]; simpl; [by constructor|].
  case_bool_decide; constructor; auto.
Qed.

(** The rows of the query: their keys are distinct keys of matching
    buckets, and a matching bucket whose group has no row was cut off by
    the limit, behind rows of later groups only. *)
Lemma getRevenue_rows period year_ month_ revs :
  let matched := List.filter (matchStage year_ month_) revs in
  let rows := getRevenue period year_ month_ revs in
  NoDup (List.map row_id rows) ∧
  (∀ row, In row rows → ∃ r, In r matched ∧ row_id row = groupKey period r) ∧
  (Forall wfBucket revs →
   ∀ r, In r matched →
     (∃ row, In row rows ∧ row_id row = groupKey period r) ∨
     (∃ n, rowLimit period = Some n ∧ length rows = n ∧
           ∀ row, In row rows → laterKey (row_id row) (groupKey period r))).
Proof.
  intros matched rows.
  set (groups := groupStage period matched).
  set (sorted := sortStage groups).
  destruct (grouped_groupStage period matched) as (Hnd & _ & Hkeys).
  fold groups in Hnd, Hkeys.
  assert (Hperm : sorted ≡ₚ groups) by apply sortStage_perm.
  assert (Hnds : NoDup (List.map row_id sorted)).
  { change (NoDup (row_id <$> sorted)). by rewrite Hperm. }
  assert (Hin_sorted : ∀ row, In row sorted ↔ In row groups)
    by (intros; apply In_sortStage).
  assert (Hrows : ∃ cut, rows = cut ∧
            (cut = sorted ∧ rowLimit period = None ∨
             ∃ n, cut = take n sorted ∧ rowLimit period = Some n)).
  { exists rows. split; [done|]. unfold rows, getRevenue.
    fold matched groups sorted.
    destruct period; simpl; [right; by exists 30%nat|right; by exists 12%nat
                            |by left]. }
  destruct Hrows as (cut & -> & Hcut).
  assert (Hsub : ∀ row, In row cut → In row sorted).
  { destruct Hcut as [[-> _]|(n & -> & _)]; [done|].
    intros row Hrow%list_elem_of_In. apply list_elem_of_In.
    apply elem_of_take in Hrow as (i & Hi & _).
    by apply list_elem_of_lookup_2 in Hi. }
  split; [|split].
  - destruct Hcut as [[-> _]|(n & -> & _)]; [done|].
    change (NoDup (row_id <$> take n sorted)). rewrite fmap_take.
    apply (sublist_NoDup _ (row_id <$> sorted)); [done|apply sublist_take].
  - intros row Hrow. apply Hsub, Hin_sorted in Hrow.
    destruct (groupStage_origin _ _ _ Hrow) as (r & Hr & Hid & _). eauto.
  - intros Hwf r Hr.
    assert (Hwfm : Forall wfBucket matched).
    { apply Forall_forall. intros x Hx%list_elem_of_In.
      apply filter_In in Hx as [Hx _]. rewrite Forall_forall in Hwf.
      by apply Hwf, list_elem_of_In. }
    assert (Hrow : ∃ row, In row sorted ∧ row_id row = groupKey period r).
    { specialize (Hkeys r Hr).
      apply list_elem_of_In, in_map_iff in Hkeys as (row & Hid & Hin).
      exists row. split; [by apply Hin_sorted|done]. }
    destruct Hrow as (ρ & Hρ & Hid).
    destruct Hcut as [[-> _]|(n & -> & Hlimit)]; [left; eauto|].
    destruct (decide (row_id ρ ∈ row_id <$> take n sorted)) as [Hkept|Hnokey].
    { left. apply list_elem_of_fmap in Hkept as (row & Hrid & Hrow).
      exists row. split; [by apply list_elem_of_In|congruence]. }
    assert (Hcutoff : ¬ In ρ (take n sorted)).
    { intros Hkept. apply Hnokey, list_elem_of_fmap.
      exists ρ. split; [done|by apply list_elem_of_In]. }
    right. exists n. split; [done|].
    destruct (take_sorted_cut _ sorted n ρ (sortStage_sorted groups) Hρ Hcutoff)
      as [Hlen Hbefore].
    split; [done|]. intros row Hrow.
    specialize (Hbefore row Hrow). simpl in Hbefore.
    pose proof (Hsub row Hrow) as Hrs.
    rewrite (sortKey_groupStage period matched ρ) in Hbefore
      by (done || by apply Hin_sorted).
    rewrite (sortKey_groupStage period matched row) in Hbefore
      by (done || by apply Hin_sorted).
    rewrite <- Hid. apply keyGt_later, keyGt_total; [| |done].
    + apply Hin_sorted in Hrs, Hρ.
      destruct (groupStage_origin _ _ _ Hrs) as (r1 & _ & -> & _).
      destruct (groupStage_origin _ _ _ Hρ) as (r2 & _ & -> & _).
      apply length_groupKey.
    + intros Heq. apply Hcutoff.
      assert (row = ρ) as <-; [|done].
      clear -Hnds Hrs Hρ Heq.
      induction sorted as [|x rest IH]; simpl in *; [done|].
      apply NoDup_cons in Hnds as [Hx Hnds].
      destruct Hrs as [->|Hrs], Hρ as [->|Hρ]; try done.
      * exfalso. apply Hx. rewrite Heq. by apply list_elem_of_In, in_map.
      * exfalso. apply Hx. rewrite <- Heq. by apply list_elem_of_In, in_map.
      * by apply IH.
Qed.

(** C6.  Setting an order to ['delivered'] through the admin route succeeds,
    stores the order as delivered and paid, and raises [deliveredRevenue]
    and [dailyRevenue] of the bucket of the order's creation day by exactly
    [order.total]; the other counters of that bucket and all other buckets
    keep their values.  The revenue query is a function of the buckets'
    date fields, [deliveredRevenue] and [ordersCount] alone: overwriting
    [pendingRevenue], [cancelledRevenue], [checkedoutRevenue] and
    [dailyRevenue] of any bucket by any values does not change its result,
    and the revenue of every reported row is the sum of [deliveredRevenue]
    over the matched buckets of that row's group.  Which rows are
    reported: the rows have distinct keys, each the key of a matching
    bucket, and (for buckets whose [year], [month] and [day] are those of
    their [date], the only ones the ledger writes) the group of every
    matching bucket has a row carrying the sum of its [deliveredRevenue],
    unless the period's limit of 30 days or 12 months is reached and every
    reported row belongs to a later group. *)
Theorem delivered_revenue_is_reported_revenue :
  (∀ (db : Db) (oid : nat) (o : Order),
     findOrderById oid (orders db) = Some o →
     let db' := (adminOrderStatus oid "delivered" db).2 in
     let before := bucket (createdAt o) (revenues db) in
     let after := bucket (createdAt o) (revenues db') in
     (adminOrderStatus oid "delivered" db).1 = ok ∧
     findOrderById oid (orders db')
       = Some (setPaymentStatus (setStatus o delivered) paid) ∧
     deliveredRevenue after = deliveredRevenue before + total o ∧
     dailyRevenue after = dailyRevenue before + total o ∧
     pendingRevenue after = pendingRevenue before ∧
     cancelledRevenue after = cancelledRevenue before ∧
     ordersCount after = ordersCount before ∧
     (∀ d', d' ≠ createdAt o →
        bucket d' (revenues db') = bucket d' (revenues db))) ∧
  (∀ (period : Period) (year_ month_ : option Z)
     (g : Revenue → Z * Z * Z * Z) (revs : list Revenue),
     getRevenue period year_ month_ (List.map (overwriteUnreported g) revs)
     = getRevenue period year_ month_ revs) ∧
  (∀ (period : Period) (year_ month_ : option Z) (revs : list Revenue)
     (row : RevenueRow),
     In row (getRevenue period year_ month_ revs) →
     row_revenue row
     = deliveredOf period (row_id row)
         (List.filter (matchStage year_ month_) revs)) ∧
  (∀ (period : Period) (year_ month_ : option Z) (revs : list Revenue),
     let matched := List.filter (matchStage year_ month_) revs in
     let rows := getRevenue period year_ month_ revs in
     NoDup (List.map row_id rows) ∧
     (∀ row, In row rows → ∃ r, In r matched ∧ row_id row = groupKey period r) ∧
     (Forall wfBucket revs →
      ∀ r, In r matched →
        (∃ row, In row rows ∧ row_id row = groupKey period r ∧
                row_revenue row = deliveredOf period (groupKey period r) matched) ∨
        (∃ n, rowLimit period = Some n ∧ length rows = n ∧
              ∀ row, In row rows → laterKey (row_id row) (groupKey period r)))) ∧
  (∀ (o : Order) (action : string) (revs : list Revenue),
     Forall wfBucket revs → Forall wfBucket (updateRevenue o action revs)).
Proof.
  split; [|split; [|split; [|split]]]; cycle 3.
  { intros period year_ month_ revs matched rows.
    destruct (getRevenue_rows period year_ month_ revs) as (Hnd & Hfrom & Hall).
    split; [done|]. split; [done|]. intros Hwf r Hr.
    destruct (Hall Hwf r Hr) as [(row & Hrow & Hid)|Hcut]; [left|by right].
    exists row. split; [done|]. split; [done|]. rewrite <- Hid.
    apply In_getRevenue in Hrow.
    by apply (grouped_groupStage period) in Hrow. }
  { intros. by apply wfBucket_updateRevenue. }
  - intros db oid o Ho db' before after.
    subst db' before after. unfold adminOrderStatus. simpl. rewrite Ho. simpl.
    set (o' := setPaymentStatus (setStatus o delivered) paid).
    split; [done|].
    split; [apply (findOrderById_save _ _ o); [done|by apply findOrderById_id in Ho]|].
    rewrite (bucket_updateRevenue_same o' "update" (revenues db)
             : bucket (createdAt o) _ = _).
    unfold applyAction, addOrderAmounts. simpl.
    repeat split; try lia.
    intros d' Hd'. by apply (bucket_updateRevenue_other o').
  - intros period year_ month_ g revs. unfold getRevenue.
    by rewrite filter_matchStage_overwrite, groupStage_overwrite.
  - intros period year_ month_ revs row Hin.
    apply In_getRevenue in Hin.
    by apply (grouped_groupStage period) in Hin.
Qed.

(** In Scenario B's state the order of the sample customer exists and has
    total 300: delivering it adds 300 to both counters of its day, and the
    daily query then reports one row, for that day, with revenue 300 (the
    400 of pending revenue of the day are not in it). *)
Lemma delivered_revenue_is_reported_revenue_witness :
  (adminOrderStatus 0 "delivered" dbB).1 = ok ∧
  deliveredRevenue (bucket today (revenues (adminOrderStatus 0 "delivered" dbB).2))
    = deliveredRevenue (bucket today (revenues dbB)) + 300 ∧
  dailyRevenue (bucket today (revenues (adminOrderStatus 0 "delivered" dbB).2))
    = dailyRevenue (bucket today (revenues dbB)) + 300 ∧
  pendingRevenue (bucket today (revenues (adminOrderStatus 0 "delivered" dbB).2))
    = 400 ∧
  List.map (fun row => (row_id row, row_revenue row))
    (getRevenue daily None None
       (revenues (adminOrderStatus 0 "delivered" dbB).2))
  = [([2025; 3; 14], 300)].
Proof.
  assert (Ho : ∃ o, findOrderById 0 (orders dbB) = Some o ∧
                    createdAt o = today ∧ total o = 300).
  { eexists. split; [vm_compute; reflexivity|]. split; reflexivity. }
  destruct Ho as (o & Ho & Hd & Ht).
  destruct (proj1 delivered_revenue_is_reported_revenue dbB 0%nat o Ho)
    as (H1 & _ & H3 & H4 & _).
  rewrite Hd, Ht in H3, H4.
  split; [exact H1|]. split; [exact H3|]. split; [exact H4|].
  split; vm_compute; reflexivity.
Defined.

(** ** The cart store *)

Section Cart.
Implicit Types (cart : gmap Z (gmap string Z)) (szs : gmap string Z).

Lemma cartLine_empty k sz : cartLine ∅ k sz = None.
Proof. unfold cartLine. by rewrite lookup_empty. Qed.

(** Both cart updates end by storing the new size map of one product, or by
    deleting the product when that map is empty. *)
Lemma cartLine_store cart k szs k' sz' :
  cartLine (if decide (szs = ∅) then delete k cart else <[k := szs]> cart)
    k' sz'
  = if decide (k' = k) then szs !! sz' else cartLine cart k' sz'.
Proof.
  unfold cartLine.
  destruct (decide (k' = k)) as [->|Hk]; destruct (decide (szs = ∅)) as [->|Hs].
  - by rewrite lookup_delete_eq, lookup_empty.
  - by rewrite lookup_insert_eq.
  - by rewrite lookup_delete_ne.
  - by rewrite lookup_insert_ne.
Qed.

Lemma cartQuantity_sizes cart k sz :
  default 0 (default ∅ (cart !! k) !! sz) = cartQuantity cart k sz.
Proof.
  unfold cartQuantity, cartLine.
  destruct (cart !! k) as [szs|]; simpl; [done|by rewrite lookup_empty].
Qed.

Lemma cartLine_sizes cart k sz :
  default ∅ (cart !! k) !! sz = cartLine cart k sz.
Proof.
  unfold cartLine.
  destruct (cart !! k) as [szs|]; simpl; [done|by rewrite lookup_empty].
Qed.

(** The line that [/addtocart] touches ends at the old quantity plus the
    delta, and is absent when that sum is not positive. *)
Lemma addtocartCart_same cart k sz qty :
  cartLine (addtocartCart cart k sz qty) k sz
  = if decide (cartQuantity cart k sz + qty ≤ 0) then None
    else Some (cartQuantity cart k sz + qty).
Proof.
  unfold addtocartCart. rewrite cartLine_store, decide_True by done.
  rewrite cartQuantity_sizes.
  set (sizes0 := default ∅ (cart !! k)).
  assert (Hq : default 0
                 ((if decide (cartQuantity cart k sz = 0)
                   then <[sz:=0]> sizes0 else sizes0) !! sz)
               = cartQuantity cart k sz).
  { case_decide as H0.
    - by rewrite lookup_insert_eq.
    - apply cartQuantity_sizes. }
  rewrite Hq. destruct (decide (cartQuantity cart k sz + qty ≤ 0)).
  - by rewrite lookup_delete_eq.
  - by rewrite lookup_insert_eq.
Qed.

(** Every other line is left as it was. *)
Lemma addtocartCart_other cart k sz qty k' sz' :
  (k', sz') ≠ (k, sz) →
  cartLine (addtocartCart cart k sz qty) k' sz' = cartLine cart k' sz'.
Proof.
  intros Hne. unfold addtocartCart. rewrite cartLine_store.
  destruct (decide (k' = k)) as [->|Hk]; [|done].
  assert (Hsz : sz ≠ sz') by congruence.
  rewrite <- cartLine_sizes.
  set (sizes0 := default ∅ (cart !! k)).
  repeat case_decide;
    by rewrite ?lookup_delete_ne, ?lookup_insert_ne by done.
Qed.

Lemma updatecartquantityCart_same cart k sz newQuantity :
  cartLine (updatecartquantityCart cart k sz newQuantity) k sz
  = if decide (newQuantity ≤ 0) then None else Some newQuantity.
Proof.
  unfold updatecartquantityCart. case_decide.
  - rewrite cartLine_store, decide_True by done. by rewrite lookup_delete_eq.
  - unfold cartLine. rewrite lookup_insert_eq. simpl. by rewrite lookup_insert_eq.
Qed.

Lemma updatecartquantityCart_other cart k sz newQuantity k' sz' :
  (k', sz') ≠ (k, sz) →
  cartLine (updatecartquantityCart cart k sz newQuantity) k' sz'
  = cartLine cart k' sz'.
Proof.
  intros Hne. unfold updatecartquantityCart. case_decide.
  - rewrite cartLine_store.
    destruct (decide (k' = k)) as [->|Hk]; [|done].
    assert (Hsz : sz ≠ sz') by congruence.
    rewrite <- cartLine_sizes.
    by rewrite lookup_delete_ne, lookup_insert_ne by done.
  - unfold cartLine.
    destruct (decide (k' = k)) as [->|Hk].
    + assert (Hsz : sz ≠ sz') by congruence.
      rewrite lookup_insert_eq. simpl. rewrite lookup_insert_ne by done.
      apply cartLine_sizes.
    + by rewrite lookup_insert_ne.
Qed.

(** Positivity of all lines is kept by both updates, whatever the delta. *)
Lemma addtocartCart_positive cart k sz qty :
  cartPositive cart → cartPositive (addtocartCart cart k sz qty).
Proof.
  intros Hpos k' sz' q.
  destruct (decide ((k', sz') = (k, sz))) as [[= -> ->]|Hne].
  - rewrite addtocartCart_same. case_decide; [done|]. intros [= <-]. lia.
  - rewrite addtocartCart_other by done. apply Hpos.
Qed.

Lemma updatecartquantityCart_positive cart k sz newQuantity :
  cartPositive cart →
  cartPositive (updatecartquantityCart cart k sz newQuantity).
Proof.
  intros Hpos k' sz' q.
  destruct (decide ((k', sz') = (k, sz))) as [[= -> ->]|Hne].
  - rewrite updatecartquantityCart_same. case_decide; [done|]. intros [= <-]. lia.
  - rewrite updatecartquantityCart_other by done. apply Hpos.
Qed.

Lemma cartPositive_empty : cartPositive ∅.
Proof. intros k sz q. by rewrite cartLine_empty. Qed.
End Cart.

(** ** [recalculate] *)

Lemma o_id_recalculate o : o_id (recalculate o) = o_id o.
Proof. unfold recalculate. by case_decide. Qed.

Lemma userId_recalculate o : userId (recalculate o) = userId o.
Proof. unfold recalculate. by case_decide. Qed.

Lemma createdAt_recalculate o : createdAt (recalculate o) = createdAt o.
Proof. unfold recalculate. by case_decide. Qed.

Lemma paymentMethod_recalculate o : paymentMethod (recalculate o) = paymentMethod o.
Proof. unfold recalculate. by case_decide. Qed.

Lemma items_recalculate o : items (recalculate o) = items o.
Proof. unfold recalculate. by case_decide. Qed.

Lemma total_recalculate o : total (recalculate o) = sum_itemTotal (items o).
Proof. unfold recalculate. by case_decide. Qed.

Lemma status_recalculate o :
  status (recalculate o) = if decide (items o = []) then cancelled else status o.
Proof. unfold recalculate. simpl. by case_decide. Qed.


(** ** The reconciler leaves users and products alone *)

Lemma createOrUpdateOrder_frame user product qty sz pm action now db db' :
  createOrUpdateOrder user product qty sz pm action now db = Some db' →
  users db' = users db ∧ products db' = products db.
Proof.
  unfold createOrUpdateOrder, createOrder.
  destruct (findPendingOrder (u_id user) (orders db)) as [order|].
  - case_match; [done|]. by intros [= <-].
  - case_decide; [|by intros [= <-]].
    destruct (insertOrder _ _) as [os|]; simpl; [|done]. by intros [= <-].
Qed.

(** What [/addtocart] does with a request that passes its checks. *)
Lemma addtocart_accepted db uid user product body now :
  findUserById uid (users db) = Some user →
  findProduct (b_itemId body) (products db) = Some product →
  b_itemId body ≠ 0 → b_quantity body ≠ 0 →
  b_size body ≠ "" → b_size body ≠ "default" →
  b_size body ∈ availableSizes product →
  addtocart uid body now db
  = let user1 :=
      setCartData user
        (addtocartCart (cartData user) (b_itemId body) (b_size body)
           (b_quantity body)) in
    let db1 := setUsers db (saveUser user1 (users db)) in
    match createOrUpdateOrder user1 product (b_quantity body) (b_size body)
            (if decide (b_paymentMethod body = "") then "cash_on_delivery"
             else b_paymentMethod body)
            "add" now db1 with
    | None => (fail 500, db1)
    | Some db2 => (ok, db2)
    end.
Proof.
  intros Huser Hprod Hid Hqty Hsz1 Hsz2 Hsz3.
  unfold addtocart.
  rewrite (decide_False (P := b_size body = "")) by done.
  rewrite (decide_False (P := b_quantity body = 0)) by done.
  rewrite (decide_False (P := b_size body = "default")) by done.
  rewrite Hprod.
  rewrite (decide_False (P := b_itemId body = 0)) by done.
  rewrite (decide_False (P := b_size body ∉ availableSizes product)) by auto.
  by rewrite Huser.
Qed.

(** A request that passes the checks of [/addtocart] stores the updated
    cart, whether or not the order path succeeds afterwards. *)
Lemma addtocart_cart db uid user product body now :
  findUserById uid (users db) = Some user →
  findProduct (b_itemId body) (products db) = Some product →
  b_itemId body ≠ 0 → b_quantity body ≠ 0 →
  b_size body ≠ "" → b_size body ≠ "default" →
  b_size body ∈ availableSizes product →
  let user' :=
    setCartData user
      (addtocartCart (cartData user) (b_itemId body) (b_size body)
         (b_quantity body)) in
  users (addtocart uid body now db).2 = saveUser user' (users db) ∧
  findUserById uid (users (addtocart uid body now db).2) = Some user'.
Proof.
  intros Huser Hprod Hid Hqty Hsz1 Hsz2 Hsz3 user'.
  assert (Husers : users (addtocart uid body now db).2 = saveUser user' (users db)).
  { rewrite (addtocart_accepted db uid user product) by done.
    cbv zeta. fold user'.
    destruct (createOrUpdateOrder _ _ _ _ _ _ _ _) as [db2|] eqn:E; simpl; [|done].
    by apply createOrUpdateOrder_frame in E as [-> _]. }
  split; [done|]. rewrite Husers.
  apply (findUserById_save _ _ user); [done|].
  by apply findUserById_id in Huser.
Qed.

(** The route [/updatecartquantity] treats its [quantity] field as a delta:
    an accepted request stores the current quantity plus that field. *)
Lemma updatecartquantity_cart db uid user product itemId sz qty :
  findUserById uid (users db) = Some user →
  findProduct itemId (products db) = Some product →
  itemId ≠ 0 → 0 ≤ cartQuantity (cartData user) itemId sz + qty →
  findUserById uid (users (updatecartquantity uid itemId sz qty db).2)
  = Some (setCartData user
            (updatecartquantityCart (cartData user) itemId sz
               (cartQuantity (cartData user) itemId sz + qty))).
Proof.
  intros Huser Hprod Hid Hnonneg. unfold updatecartquantity.
  rewrite (decide_False (P := itemId = 0)) by done.
  rewrite Huser, Hprod.
  rewrite decide_False by lia.
  set (user1 := setCartData user _).
  assert (Hsaved : findUserById uid (saveUser user1 (users db)) = Some user1).
  { apply (findUserById_save _ _ user); [done|]. by apply findUserById_id in Huser. }
  simpl. destruct (findPendingOrder _ _) as [order|]; [|done].
  by destruct (setItemQuantity _ _ _ _ _).
Qed.

(** ** The client's set-quantity function *)


Lemma updateCartQuantity_stored db uid user product itemId sz newQuantity now body :
  findUserById uid (users db) = Some user →
  findProduct itemId (products db) = Some product →
  itemId ≠ 0 → sz ≠ "" → sz ≠ "default" → sz ∈ availableSizes product →
  updateCartQuantity true (products db) (cartData user) itemId sz newQuantity
  = Some body →
  ∃ user',
    findUserById uid (users (addtocart uid body now db).2) = Some user' ∧
    cartLine (cartData user') itemId sz
    = (if decide (newQuantity ≤ 0) then None else Some newQuantity) ∧
    ∀ k' sz', (k', sz') ≠ (itemId, sz) →
              cartLine (cartData user') k' sz' = cartLine (cartData user) k' sz'.
Proof.
  intros Huser Hprod Hid Hsz1 Hsz2 Hsz3 Hbody.
  unfold updateCartQuantity in Hbody. simpl in Hbody.
  rewrite Hprod, (findProduct_id _ _ _ Hprod) in Hbody.
  case_decide as Hne; [done|]. injection Hbody as <-.
  edestruct (addtocart_cart db uid user product
               {| b_itemId := itemId;
                  b_quantity := newQuantity - cartQuantity (cartData user) itemId sz;
                  b_size := sz; b_paymentMethod := "cash" |} now)
    as [_ Hfind]; simpl; try done; [lia|].
  eexists. split; [exact Hfind|]. simpl. split.
  - rewrite addtocartCart_same.
    replace (cartQuantity (cartData user) itemId sz +
             (newQuantity - cartQuantity (cartData user) itemId sz))
      with newQuantity by lia.
    done.
  - intros k' sz' Hother. by apply addtocartCart_other.
Qed.




(** ** Quantities stored in carts *)

Lemma Forall_saveUser (P : User → Prop) u' us :
  Forall P us → P u' → Forall P (saveUser u' us).
Proof.
  intros Hall Hu. induction Hall as [|x rest Hx Hrest IH]; simpl; [constructor|].
  case_bool_decide; constructor; auto.
Qed.

Lemma cartsPositive_user db uid user :
  cartsPositive db → findUserById uid (users db) = Some user →
  cartPositive (cartData user).
Proof.
  unfold cartsPositive. rewrite Forall_forall. intros Hall Hu.
  apply Hall, list_elem_of_In. by apply findUserById_In in Hu.
Qed.

Lemma cartsPositive_save db user cart :
  cartsPositive db → cartPositive cart →
  Forall (fun u => cartPositive (cartData u))
    (saveUser (setCartData user cart) (users db)).
Proof. intros Hall Hc. by apply Forall_saveUser. Qed.

Lemma clampQuantity_range n : 1 ≤ clampQuantity n ≤ 10.
Proof. unfold clampQuantity. repeat case_decide; lia. Qed.

Lemma cartsPositive_step now req db :
  cartsPositive db → cartsPositive (step now req db).
Proof.
  intros Hpos. unfold step, handle.
  destruct req as [uid body|uid itemId sz qty|uid|uid address phone pm|uid pm
                  |oid st|oid|oid np].
  - unfold addtocart.
    repeat (case_decide; [done|]).
    destruct (findProduct _ _) as [product|]; [|done].
    repeat (case_decide; [done|]).
    destruct (findUserById uid (users db)) as [user|] eqn:Hu; [|done].
    assert (Hsaved : ∀ sz', Forall (fun u => cartPositive (cartData u))
              (saveUser (setCartData user
                 (addtocartCart (cartData user) (b_itemId body) sz'
                    (b_quantity body))) (users db))).
    { intros sz'. apply cartsPositive_save; [done|].
      apply addtocartCart_positive. by eapply cartsPositive_user. }
    destruct (createOrUpdateOrder _ _ _ _ _ _ _ _) as [db2|] eqn:E; simpl;
      [|apply Hsaved].
    apply createOrUpdateOrder_frame in E as [Hus _].
    unfold cartsPositive. rewrite Hus. apply Hsaved.
  - unfold updatecartquantity.
    case_decide; [done|].
    destruct (findUserById uid (users db)) as [user|] eqn:Hu; [|done].
    destruct (findProduct _ _) as [product|]; [|done].
    case_decide; [done|].
    assert (Hsaved : Forall (fun u => cartPositive (cartData u))
              (saveUser (setCartData user
                 (updatecartquantityCart (cartData user) itemId sz
                    (cartQuantity (cartData user) itemId sz + qty))) (users db))).
    { apply cartsPositive_save; [done|].
      apply updatecartquantityCart_positive. by eapply cartsPositive_user. }
    simpl. destruct (findPendingOrder _ _) as [order|]; [|done].
    by destruct (setItemQuantity _ _ _ _ _).
  - unfold clearcart.
    destruct (findUserById uid (users db)) as [user|] eqn:Hu; [|done].
    simpl. destruct (findPendingOrder _ _) as [order|]; simpl;
      apply cartsPositive_save; auto using cartPositive_empty.
  - unfold checkout.
    repeat (case_decide; [done|]).
    destruct (findUserById uid (users db)) as [user|] eqn:Hu; [|done].
    case_decide; [done|].
    destruct (checkoutItems _ _) as [updatedItems totalAmount].
    assert (Hsaved : Forall (fun u => cartPositive (cartData u))
              (saveUser (setCartData user ∅) (users db)))
      by (apply cartsPositive_save; auto using cartPositive_empty).
    simpl. destruct (findPendingOrder _ _) as [order|]; [done|].
    unfold createOrder. simpl.
    destruct (insertOrder _ _) as [os|]; simpl; done.
  - unfold createorder.
    destruct (findPendingOrder _ _) as [order|]; [|done].
    case_decide; [done|]. simpl.
    destruct (findUserById uid _) as [user|] eqn:Hu; simpl; [|done].
    apply cartsPositive_save; auto using cartPositive_empty.
  - unfold adminOrderStatus.
    destruct (parseStatus st); [|done].
    by destruct (findOrderById _ _).
  - unfold adminDeleteOrder. by destruct (findOrderById _ _).
  - unfold updateproduct. by destruct (List.find _ _).
Qed.

(** C8, as the code has it, for requests whose quantities are integers.
    Every request keeps all stored cart lines positive: [/addtocart] leaves
    the touched line at the old quantity plus the delta and
    [/updatecartquantity] likewise, and either deletes the line when the
    result is not positive; neither compares the result with a maximum.
    The bound of 10 is the clamp of the cart page, and it bounds what is
    stored only while the page's copy of the cart is the stored cart: then
    a quantity set through [handleUpdateQuantity] is stored as a value
    between 1 and 10.  With a copy that has fallen behind it does not: the
    page that shows 1 unit of a line of which 3 are stored, asked for 9,
    sends +8 and 11 are stored. *)
Theorem cart_lines_positive_and_page_clamped :
  (∀ (now : Date) (req : Request) (db : Db),
     cartsPositive db → cartsPositive (step now req db)) ∧
  (∀ (cart : gmap Z (gmap string Z)) (k : Z) (sz : string) (qty : Z),
     cartLine (addtocartCart cart k sz qty) k sz
     = if decide (cartQuantity cart k sz + qty ≤ 0) then None
       else Some (cartQuantity cart k sz + qty)) ∧
  (∀ (cart : gmap Z (gmap string Z)) (k : Z) (sz : string) (newQuantity : Z),
     cartLine (updatecartquantityCart cart k sz newQuantity) k sz
     = if decide (newQuantity ≤ 0) then None else Some newQuantity) ∧
  (∀ (db : Db) (uid : nat) (user : User) (product : Product) (itemId : Z)
     (sz : string) (newQuantity : Z) (now : Date) (body : AddToCartBody),
     findUserById uid (users db) = Some user →
     findProduct itemId (products db) = Some product →
     itemId ≠ 0 → sz ≠ "" → sz ≠ "default" → sz ∈ availableSizes product →
     handleUpdateQuantity true (products db) (cartData user) itemId sz newQuantity
     = Some body →
     ∃ user' q,
       findUserById uid (users (addtocart uid body now db).2) = Some user' ∧
       cartLine (cartData user') itemId sz = Some q ∧
       q = clampQuantity newQuantity ∧ 1 ≤ q ≤ maxQuantity) ∧
  (cartData <$> findUserById 7 (users dbB) = Some {[ 1 := {[ "M" := 3 ]} ]} ∧
   ∃ body user',
     handleUpdateQuantity true (products dbB) staleCart 1 "M" 9 = Some body ∧
     b_quantity body = 8 ∧
     findUserById 7 (users (addtocart 7 body today dbB).2) = Some user' ∧
     cartLine (cartData user') 1 "M" = Some 11).
Proof.
  split; [|split; [|split; [|split]]]; cycle 4.
  { split; [vm_compute; reflexivity|].
    eexists _, _. split; [vm_compute; reflexivity|].
    split; [reflexivity|]. split; [vm_compute; reflexivity|].
    vm_compute. reflexivity. }
  - intros. by apply cartsPositive_step.
  - intros. apply addtocartCart_same.
  - intros. apply updatecartquantityCart_same.
  - intros db uid user product itemId sz newQuantity now body
      Huser Hprod Hid Hsz1 Hsz2 Hsz3 Hbody.
    unfold handleUpdateQuantity in Hbody.
    case_decide as Hne; [done|].
    destruct (updateCartQuantity_stored _ _ _ _ _ _ _ now _
                Huser Hprod Hid Hsz1 Hsz2 Hsz3 Hbody)
      as (user' & Hfind & Hline & _).
    pose proof (clampQuantity_range newQuantity) as Hrange.
    exists user', (clampQuantity newQuantity).
    split; [done|]. split; [|split; [done|unfold maxQuantity; lia]].
    rewrite Hline. rewrite decide_False; [done|lia].
Qed.

(** The cart page raising the sample customer's line from 3 to a requested
    12 stores 10. *)
Lemma cart_lines_positive_and_page_clamped_witness :
  ∃ body user' q,
    handleUpdateQuantity true (products dbB) (cartData aliceB) 1 "M" 12 = Some body ∧
    findUserById 7 (users (addtocart 7 body today dbB).2) = Some user' ∧
    cartLine (cartData user') 1 "M" = Some q ∧ q = 10.
Proof.
  eexists.
  destruct (proj1 (proj2 (proj2 (proj2 cart_lines_positive_and_page_clamped)))
              dbB 7%nat aliceB P1 1 "M" 12 today
              {| b_itemId := 1; b_quantity := 7; b_size := "M";
                 b_paymentMethod := "cash" |})
    as (user' & q & H1 & H2 & H3 & _).
  - vm_compute. reflexivity.
  - reflexivity.
  - lia.
  - discriminate.
  - discriminate.
  - apply (bool_decide_unpack _). vm_compute. exact I.
  - vm_compute. reflexivity.
  - exists user', q. split; [vm_compute; reflexivity|].
    split; [exact H1|]. split; [exact H2|]. rewrite H3. reflexivity.
Defined.

(** C8 as stated fails: the server stores what the additions sum to.
    Eleven single-unit additions of the same line, which is what eleven
    clicks on the product page send, leave a stored quantity of 11. *)
Lemma cart_quantity_exceeds_maximum :
  cartBounded (cartData alice) ∧
  ∃ user',
    findUserById 7
      (users (run (replicate 11 (today, addLine 1 1 "M")) db0)) = Some user' ∧
    cartLine (cartData user') 1 "M" = Some 11 ∧
    ¬ cartBounded (cartData user').
Proof.
  split.
  - intros k sz q. unfold alice. simpl. by rewrite cartLine_empty.
  - eexists. split; [vm_compute; reflexivity|].
    split.
    + vm_compute. reflexivity.
    + intros Hb. specialize (Hb 1 "M" 11). unfold maxQuantity in Hb.
      assert (0 < 11 ≤ 10) as [_ Hle]; [|lia].
      apply Hb. vm_compute. reflexivity.
Qed.

(** ** The single pending order *)

Section Pending.
Implicit Types (o : Order) (os : list Order) (P : Order → bool).

Lemma ids_saveOrder o' os : List.map o_id (saveOrder o' os) = List.map o_id os.
Proof.
  induction os as [|x rest IH]; simpl; [done|].
  case_bool_decide as Hx; simpl; [by rewrite Hx|by rewrite IH].
Qed.

Lemma In_saveOrder o' os x : In x (saveOrder o' os) → x = o' ∨ In x os.
Proof.
  induction os as [|y rest IH]; simpl; [done|].
  case_bool_decide; simpl; intuition.
Qed.

Lemma In_deleteOrder oid os x : In x (deleteOrder oid os) → In x os.
Proof.
  induction os as [|y rest IH]; simpl; [done|].
  case_bool_decide; simpl; intuition.
Qed.

Lemma NoDup_ids_deleteOrder oid os :
  NoDup (List.map o_id os) → NoDup (List.map o_id (deleteOrder oid os)).
Proof.
  induction os as [|y rest IH]; simpl; [done|].
  intros [Hy Hrest]%NoDup_cons.
  case_bool_decide; simpl; [done|].
  apply NoDup_cons. split; [|auto].
  intros Hin. apply Hy.
  apply list_elem_of_In, in_map_iff in Hin as (z & Hz & Hin).
  apply list_elem_of_In, in_map_iff. exists z. split; [done|].
  by eapply In_deleteOrder.
Qed.

Lemma filter_saveOrder P o o' os :
  NoDup (List.map o_id os) → In o os → o_id o' = o_id o →
  (length (List.filter P (saveOrder o' os)) + (if P o then 1 else 0)
   = length (List.filter P os) + (if P o' then 1 else 0))%nat.
Proof.
  intros Hnd Hin Hid.
  induction os as [|x rest IH]; simpl in *; [done|].
  apply NoDup_cons in Hnd as [Hx Hrest].
  case_bool_decide as Hxo; simpl.
  - assert (x = o) as ->.
    { destruct Hin as [|Hin]; [done|]. exfalso. apply Hx.
      rewrite Hxo, Hid. apply list_elem_of_In, in_map, Hin. }
    destruct (P o), (P o'); simpl; lia.
  - destruct Hin as [->|Hin]; [congruence|].
    specialize (IH Hrest Hin).
    destruct (P x); simpl; lia.
Qed.

Lemma filter_deleteOrder_le P oid os :
  (length (List.filter P (deleteOrder oid os)) ≤ length (List.filter P os))%nat.
Proof.
  induction os as [|x rest IH]; simpl; [done|].
  case_bool_decide; simpl; destruct (P x); simpl; lia.
Qed.

Lemma pendingOrders_none uid os :
  findPendingOrder uid os = None → pendingOrders uid os = [].
Proof.
  unfold findPendingOrder, pendingOrders. intros Hnone.
  induction os as [|x rest IH]; simpl in *; [done|].
  destruct (pendingOf uid x); [done|auto].
Qed.

Lemma pendingOrders_app uid os1 os2 :
  pendingOrders uid (os1 ++ os2) = pendingOrders uid os1 ++ pendingOrders uid os2.
Proof. unfold pendingOrders. apply List.filter_app. Qed.

Lemma pendingOf_user uid o : pendingOf uid o = true → userId o = uid.
Proof.
  unfold pendingOf. intros [H _]%andb_true_iff. by apply bool_decide_eq_true in H.
Qed.

Lemma pendingOf_status uid o : pendingOf uid o = true → status o = pending.
Proof.
  unfold pendingOf. intros [_ H]%andb_true_iff. by apply bool_decide_eq_true in H.
Qed.

Lemma pendingOf_intro o : status o = pending → pendingOf (userId o) o = true.
Proof. intros H. unfold pendingOf. by rewrite !bool_decide_eq_true_2. Qed.

(** Every kind of change to the order collection keeps [_id]s unique and
    at most one pending order per user. *)
Lemma ordersStep_invariant db db' :
  wfOrders db → singlePending db → ordersStep db db' →
  wfOrders db' ∧ singlePending db'.
Proof.
  intros [Hnd Hlt] Hsingle Hstep. unfold wfOrders, singlePending in *.
  destruct Hstep as [Hos Hn|o o' Hin Hid Huser Hcase Hos Hn|o Hnone Hid Hos Hn
                    |oid Hos Hn]; rewrite Hos, Hn.
  - done.
  - split; [split|].
    + by rewrite ids_saveOrder.
    + apply Forall_forall. intros x [->|Hx]%list_elem_of_In%In_saveOrder.
      * rewrite Hid. rewrite Forall_forall in Hlt.
        by apply Hlt, list_elem_of_In.
      * rewrite Forall_forall in Hlt. by apply Hlt, list_elem_of_In.
    + intros uid. specialize (Hsingle uid).
      pose proof (filter_saveOrder (pendingOf uid) o o' (orders db) Hnd Hin Hid) as Hcount.
      unfold pendingOrders in *.
      destruct (pendingOf uid o') eqn:Ho'; [|lia].
      destruct (pendingOf uid o) eqn:Ho; [lia|].
      pose proof (pendingOf_user _ _ Ho') as Hu.
      pose proof (pendingOf_status _ _ Ho') as Hs.
      destruct Hcase as [Hp|[Hp|Hp]].
      * assert (pendingOf uid o = true)
          by (rewrite <- Hu, Huser; by apply pendingOf_intro).
        congruence.
      * done.
      * rewrite <- Huser, Hu in Hp. apply pendingOrders_none in Hp.
        unfold pendingOrders in Hp. rewrite Hp in Hcount. simpl in *. lia.
  - split; [split|].
    + rewrite map_app. simpl. apply NoDup_app. split; [done|]. split.
      * intros k Hk [->|[]%elem_of_nil]%elem_of_cons.
        apply list_elem_of_In, in_map_iff in Hk as (x & Hx & Hin).
        rewrite Forall_forall in Hlt. apply list_elem_of_In, Hlt in Hin. lia.
      * apply NoDup_singleton.
    + apply Forall_app. split.
      * eapply Forall_impl; [done|]. simpl. lia.
      * apply Forall_singleton. lia.
    + intros uid. rewrite pendingOrders_app, length_app.
      specialize (Hsingle uid). simpl.
      destruct (pendingOf uid o) eqn:Ho; simpl; [|lia].
      apply pendingOf_user in Ho. rewrite Ho in Hnone.
      apply pendingOrders_none in Hnone. rewrite Hnone. simpl. lia.
  - split; [split|].
    + by apply NoDup_ids_deleteOrder.
    + apply Forall_forall. intros x Hx%list_elem_of_In%In_deleteOrder.
      rewrite Forall_forall in Hlt. by apply Hlt, list_elem_of_In.
    + intros uid. specialize (Hsingle uid). unfold pendingOrders in *.
      pose proof (filter_deleteOrder_le (pendingOf uid) oid (orders db)). lia.
Qed.
End Pending.

(** ** Every handler changes the order collection in one of the four ways *)

Lemma createOrUpdateOrder_ordersStep user product qty sz pm action now db db' :
  createOrUpdateOrder user product qty sz pm action now db = Some db' →
  ordersStep db db'.
Proof.
  unfold createOrUpdateOrder, createOrder.
  destruct (findPendingOrder (u_id user) (orders db)) as [order|] eqn:Hfind.
  - apply findPendingOrder_spec in Hfind as (Hin & Hu & Hst).
    case_match; [done|]. intros [= <-].
    save_step order; simpl; try done.
    + rewrite o_id_recalculate. by destruct (bool_decide _).
    + rewrite userId_recalculate. by destruct (bool_decide _).
    + by left.
  - case_decide; [|intros [= <-]; by apply orders_same].
    unfold insertOrder. simpl.
    repeat case_decide; simpl; try done.
    intros [= <-]. eapply orders_create; only 3: (simpl; reflexivity); simpl; try done.
Qed.

Lemma handle_ordersStep now req db :
  admissible db req → ordersStep db (step now req db).
Proof.
  intros Hadm. unfold step, handle.
  destruct req as [uid body|uid itemId sz qty|uid|uid address phone pm|uid pm
                  |oid st|oid|oid np].
  - unfold addtocart.
    repeat (case_decide; [by apply orders_same|]).
    destruct (findProduct _ _) as [product|]; [|by apply orders_same].
    repeat (case_decide; [by apply orders_same|]).
    destruct (findUserById uid (users db)) as [user|]; [|by apply orders_same].
    destruct (createOrUpdateOrder _ _ _ _ _ _ _ _) as [db2|] eqn:E; simpl;
      [|by apply orders_same].
    apply createOrUpdateOrder_ordersStep in E.
    destruct E as [?|o o' ?|o ?|oid ?];
      [eapply orders_same|eapply (orders_save _ _ o o')|eapply (orders_create _ _ o)
      |eapply (orders_delete _ _ oid)]; eauto.
  - unfold updatecartquantity.
    case_decide; [by apply orders_same|].
    destruct (findUserById uid (users db)) as [user|]; [|by apply orders_same].
    destruct (findProduct _ _) as [product|]; [|by apply orders_same].
    case_decide; [by apply orders_same|]. simpl.
    destruct (findPendingOrder _ _) as [order|] eqn:Hfind; [|by apply orders_same].
    apply findPendingOrder_spec in Hfind as (Hin & Hu & Hst).
    destruct (setItemQuantity _ _ _ _ _) as [its|]; [|by apply orders_same].
    save_step order; simpl; try done.
    + by rewrite o_id_recalculate.
    + by rewrite userId_recalculate.
    + by left.
  - unfold clearcart.
    destruct (findUserById uid (users db)) as [user|]; [|by apply orders_same].
    simpl.
    destruct (findPendingOrder _ _) as [order|] eqn:Hfind; [|by apply orders_same].
    apply findPendingOrder_spec in Hfind as (Hin & Hu & Hst).
    save_step order; simpl; try done. by left.
  - unfold checkout.
    repeat (case_decide; [by apply orders_same|]).
    destruct (findUserById uid (users db)) as [user|]; [|by apply orders_same].
    case_decide; [by apply orders_same|].
    destruct (checkoutItems _ _) as [updatedItems totalAmount]. simpl.
    destruct (findPendingOrder _ _) as [order|] eqn:Hfind.
    + apply findPendingOrder_spec in Hfind as (Hin & Hu & Hst).
      save_step order; simpl; try done. by left.
    + unfold createOrder, insertOrder. simpl.
      repeat case_decide; simpl; try by apply orders_same.
      eapply orders_create; only 3: (simpl; reflexivity); simpl; try done.
  - unfold createorder.
    destruct (findPendingOrder _ _) as [order|] eqn:Hfind; [|by apply orders_same].
    apply findPendingOrder_spec in Hfind as (Hin & Hu & Hst).
    case_decide; [by apply orders_same|].
    destruct (findUserById uid _) as [user|]; simpl;
      (save_step order; simpl; try done; by left).
  - unfold adminOrderStatus.
    destruct (parseStatus st) as [s|] eqn:Hparse; [|by apply orders_same].
    destruct (findOrderById oid (orders db)) as [order|] eqn:Hfind;
      [|by apply orders_same].
    pose proof (findOrderById_In _ _ _ Hfind) as Hin.
    save_step order; simpl; try done.
    + by repeat case_decide.
    + by repeat case_decide.
    + destruct (decide (s = pending)) as [->|Hs].
      * assert (st = "pending") as ->.
        { unfold parseStatus in Hparse. repeat case_decide; congruence. }
        simpl in Hadm. destruct (Hadm eq_refl order Hfind); auto.
      * right. left. by repeat case_decide.
  - unfold adminDeleteOrder.
    destruct (findOrderById oid (orders db)) as [order|]; [|by apply orders_same].
    by eapply orders_delete.
  - unfold updateproduct.
    destruct (List.find _ _); by apply orders_same.
Qed.

Lemma step_invariant now req db :
  wfOrders db → singlePending db → admissible db req →
  wfOrders (step now req db) ∧ singlePending (step now req db).
Proof.
  intros Hwf Hsingle Hadm.
  eapply ordersStep_invariant; [done|done|]. by apply handle_ordersStep.
Qed.

Lemma run_invariant reqs db :
  wfOrders db → singlePending db → admissibleRun db reqs →
  wfOrders (run reqs db) ∧ singlePending (run reqs db).
Proof.
  intros Hwf Hsingle Hrun. revert Hwf Hsingle.
  induction Hrun as [db|db now req reqs Hadm Hrun IH]; intros Hwf Hsingle.
  - done.
  - simpl. destruct (step_invariant now req db Hwf Hsingle Hadm) as [Hwf' Hs'].
    by apply IH.
Qed.

Lemma length_saveOrder o' os : length (saveOrder o' os) = length os.
Proof.
  induction os as [|x rest IH]; simpl; [done|].
  case_bool_decide; simpl; by rewrite ?IH.
Qed.

Lemma length_deleteOrder oid os : (length (deleteOrder oid os) ≤ length os)%nat.
Proof.
  induction os as [|x rest IH]; simpl; [done|].
  case_bool_decide; simpl; lia.
Qed.

(** C1, as the code has it.  Starting from a collection with unique [_id]s
    and at most one pending order per user, every sequence of requests keeps
    at most one pending order per user, provided no status request turns a
    non-pending order of a user who has a pending order back to
    ['pending'].  A request only ever adds an order by appending one for a
    user for whom the query for a pending order found none. *)
Theorem single_pending_order_preserved :
  (∀ (reqs : list (Date * Request)) (db : Db),
     wfOrders db → singlePending db → admissibleRun db reqs →
     singlePending (run reqs db)) ∧
  (∀ (now : Date) (req : Request) (db : Db),
     admissible db req →
     (length (orders db) < length (orders (step now req db)))%nat →
     ∃ o, orders (step now req db) = orders db ++ [o] ∧
          findPendingOrder (userId o) (orders db) = None).
Proof.
  split.
  - intros reqs db Hwf Hsingle Hrun.
    by apply (run_invariant reqs db Hwf Hsingle Hrun).
  - intros now req db Hadm Hlen.
    destruct (handle_ordersStep now _ _ Hadm)
      as [Hos _|o o' _ _ _ _ Hos _|o Hnone _ Hos _|oid Hos _].
    + rewrite Hos in Hlen. lia.
    + rewrite Hos, length_saveOrder in Hlen. lia.
    + by exists o.
    + rewrite Hos in Hlen. pose proof (length_deleteOrder oid (orders db)). lia.
Qed.

(** The sample customer adds, clears the cart, adds again and checks out,
    and an admin marks the first order delivered: all admissible. *)
Lemma single_pending_order_preserved_witness :
  singlePending
    (run [(today, addLine 1 1 "M"); (today, ClearCart 7); (today, addLine 2 1 "L");
          (today, Checkout 7 "street" "0100" "cash_on_delivery");
          (today, AdminOrderStatus 0 "delivered")] db0).
Proof.
  apply (proj1 single_pending_order_preserved).
  - split; simpl; constructor.
  - intros uid. simpl. lia.
  - repeat match goal with
           | |- admissibleRun _ (_ :: _) =>
               apply admissible_cons;
               [simpl; try done; intros Heq; discriminate Heq|]
           | |- admissibleRun _ [] => apply admissible_nil
           end.
Defined.

(** C1 as stated fails: the status route accepts ['pending'] as a target.
    The customer adds an item, clears the cart (the order is cancelled) and
    adds again (a second order, pending); the admin then sets the cancelled
    order back to pending, and the customer has two pending orders. *)
Lemma two_pending_orders_after_status_reset :
  singlePending db0 ∧
  length (pendingOrders 7
            (orders (run [(today, addLine 1 1 "M"); (today, ClearCart 7);
                          (today, addLine 1 1 "M");
                          (today, AdminOrderStatus 0 "pending")] db0))) = 2%nat ∧
  ¬ singlePending
      (run [(today, addLine 1 1 "M"); (today, ClearCart 7); (today, addLine 1 1 "M");
            (today, AdminOrderStatus 0 "pending")] db0).
Proof.
  assert (Hlen : length (pendingOrders 7
            (orders (run [(today, addLine 1 1 "M"); (today, ClearCart 7);
                          (today, addLine 1 1 "M");
                          (today, AdminOrderStatus 0 "pending")] db0))) = 2%nat)
    by (vm_compute; reflexivity).
  split; [intros uid; simpl; lia|]. split; [exact Hlen|].
  intros Hsingle. specialize (Hsingle 7%nat). rewrite Hlen in Hsingle. lia.
Qed.

(** ** Checkout *)

Section Checkout.
Implicit Types (its : list OrderItem) (ps : list Product).

Lemma sum_itemTotal_from its (a : Z) :
  fold_left (fun sum item => sum + itemTotal item) its a = a + sum_itemTotal its.
Proof.
  unfold sum_itemTotal. revert a.
  induction its as [|x rest IH]; intros a; simpl; [lia|].
  rewrite IH, (IH (0 + itemTotal x)). lia.
Qed.

Lemma sum_itemTotal_cons x its :
  sum_itemTotal (x :: its) = itemTotal x + sum_itemTotal its.
Proof. unfold sum_itemTotal at 1. simpl. by rewrite sum_itemTotal_from. Qed.

Lemma sum_itemTotal_app its1 its2 :
  sum_itemTotal (its1 ++ its2) = sum_itemTotal its1 + sum_itemTotal its2.
Proof.
  induction its1 as [|x rest IH]; simpl; [done|].
  rewrite !sum_itemTotal_cons, IH. lia.
Qed.

(** The loops compute the comprehension and its sum. *)
Lemma checkoutSizes_eq product pid its tot entries :
  checkoutSizes product pid (its, tot) entries
  = (its ++ sizeItems product pid entries,
     tot + sum_itemTotal (sizeItems product pid entries)).
Proof.
  unfold checkoutSizes. revert its tot.
  induction entries as [|[sz qty] rest IH]; intros its tot; simpl.
  - by rewrite app_nil_r, Z.add_0_r.
  - case_decide; simpl.
    + rewrite IH, <- app_assoc. simpl. f_equal.
      rewrite sum_itemTotal_cons. simpl. lia.
    + by rewrite IH.
Qed.

Lemma checkoutItems_eq ps (cart : gmap Z (gmap string Z)) :
  checkoutItems ps cart
  = (cartItemsOf ps (cartEntries cart),
     sum_itemTotal (cartItemsOf ps (cartEntries cart))).
Proof.
  unfold checkoutItems.
  assert (H : ∀ entries its tot,
            fold_left
              (fun (acc : list OrderItem * Z) (entry : Z * gmap string Z) =>
                 let '(productId_, sizes_) := entry in
                 match findProduct productId_ ps with
                 | None => acc
                 | Some product =>
                     checkoutSizes product productId_ acc (map_to_list sizes_)
                 end) entries (its, tot)
            = (its ++ cartItemsOf ps entries,
               tot + sum_itemTotal (cartItemsOf ps entries))).
  { induction entries as [|[pid szs] rest IH]; intros its tot; simpl.
    - by rewrite app_nil_r, Z.add_0_r.
    - destruct (findProduct pid ps) as [product|]; simpl.
      + rewrite checkoutSizes_eq, IH, <- app_assoc, sum_itemTotal_app.
        f_equal. lia.
      + apply IH. }
  rewrite H. simpl. done.
Qed.

(** Which items the comprehension contains. *)
Lemma In_sizeItems product pid entries item :
  In item (sizeItems product pid entries) ↔
  ∃ sz qty, In (sz, qty) entries ∧ qty > 0 ∧
            item = checkedoutItem product pid (sz, qty).
Proof.
  unfold sizeItems. rewrite in_flat_map. split.
  - intros ([sz qty] & Hin & Hitem). simpl in Hitem.
    case_decide; [|done]. destruct Hitem as [<-|[]]. by exists sz, qty.
  - intros (sz & qty & Hin & Hpos & ->). exists (sz, qty). split; [done|].
    simpl. rewrite decide_True by done. by left.
Qed.

Lemma In_cartEntries (cart : gmap Z (gmap string Z)) pid szs :
  In (pid, szs) (cartEntries cart) ↔ cart !! pid = Some szs.
Proof.
  unfold cartEntries. rewrite <- list_elem_of_In.
  rewrite merge_sort_Permutation. apply elem_of_map_to_list.
Qed.

Lemma In_cartItemsOf ps (cart : gmap Z (gmap string Z)) item :
  In item (cartItemsOf ps (cartEntries cart)) ↔
  ∃ pid sz qty product,
    cartLine cart pid sz = Some qty ∧ qty > 0 ∧
    findProduct pid ps = Some product ∧
    item = checkedoutItem product pid (sz, qty).
Proof.
  unfold cartItemsOf. rewrite in_flat_map. split.
  - intros ([pid szs] & Hin & Hitem). simpl in Hitem.
    apply In_cartEntries in Hin.
    destruct (findProduct pid ps) as [product|] eqn:Hp; [|done].
    apply In_sizeItems in Hitem as (sz & qty & Hq & Hpos & ->).
    exists pid, sz, qty, product. repeat split; try done.
    unfold cartLine. rewrite Hin. simpl.
    by apply elem_of_map_to_list, list_elem_of_In.
  - intros (pid & sz & qty & product & Hline & Hpos & Hp & ->).
    unfold cartLine in Hline.
    destruct (cart !! pid) as [szs|] eqn:Hc; simpl in Hline; [|done].
    exists (pid, szs). split; [by apply In_cartEntries|].
    simpl. rewrite Hp. apply In_sizeItems. exists sz, qty.
    repeat split; try done.
    by apply list_elem_of_In, elem_of_map_to_list.
Qed.

(** All pushed items are checked out and consistent. *)
Lemma cartItemsOf_checkedout ps entries :
  Forall (fun item => item_status item = checkedout ∧ itemConsistent item)
    (cartItemsOf ps entries).
Proof.
  apply Forall_forall. intros item Hin%list_elem_of_In.
  unfold cartItemsOf in Hin. apply in_flat_map in Hin as ([pid szs] & _ & Hin).
  simpl in Hin. destruct (findProduct pid ps) as [product|]; [|done].
  apply In_sizeItems in Hin as (sz & qty & _ & _ & ->). done.
Qed.

Lemma checkedoutTotal_all o :
  Forall (fun item => item_status item = checkedout) (items o) →
  checkedoutTotal o = sum_itemTotal (items o).
Proof.
  unfold checkedoutTotal. intros Hall. f_equal.
  induction Hall as [|x rest Hx Hrest IH]; simpl; [done|].
  rewrite bool_decide_eq_true_2 by done. by rewrite IH.
Qed.

Lemma findPendingOrder_save uid os o o' :
  findPendingOrder uid os = Some o → o_id o' = o_id o →
  pendingOf uid o' = true →
  findPendingOrder uid (saveOrder o' os) = Some o'.
Proof.
  unfold findPendingOrder. intros Hfind Hid Ho'.
  induction os as [|x rest IH]; simpl in *; [done|].
  destruct (pendingOf uid x) eqn:Hx.
  - injection Hfind as ->. rewrite bool_decide_eq_true_2 by done.
    simpl. by rewrite Ho'.
  - case_bool_decide; simpl.
    + by rewrite Ho'.
    + rewrite Hx. auto.
Qed.

Lemma findPendingOrder_append uid os o :
  findPendingOrder uid os = None → pendingOf uid o = true →
  findPendingOrder uid (os ++ [o]) = Some o.
Proof.
  unfold findPendingOrder. intros Hnone Ho.
  induction os as [|x rest IH]; simpl in *; [by rewrite Ho|].
  destruct (pendingOf uid x); [done|auto].
Qed.
End Checkout.

(** What [/checkout] does with a request that passes its checks, when the
    order can be written (a pending order exists, or the next order number
    is unused). *)
Lemma checkout_accepted db uid user address phone pm now :
  address ≠ "" → phone ≠ "" → pm ∈ paymentMethods →
  findUserById uid (users db) = Some user →
  cartData user ≠ ∅ →
  is_Some (findPendingOrder uid (orders db)) ∨
    S (length (orders db)) ∉ List.map orderId (orders db) →
  let r := checkout uid address phone pm now db in
  let its := cartItemsOf (products db) (cartEntries (cartData user)) in
  r.1 = ok ∧
  findUserById uid (users r.2) = Some (setCartData user ∅) ∧
  ∃ o', findPendingOrder uid (orders r.2) = Some o' ∧
        items o' = its ∧ total o' = sum_itemTotal its ∧
        match findPendingOrder uid (orders db) with
        | Some o =>
            o_id o' = o_id o ∧ createdAt o' = createdAt o ∧
            revenues r.2 = updateRevenue o' "update" (revenues db)
        | None =>
            createdAt o' = now ∧
            revenues r.2 = updateRevenue o' "add" (revenues db)
        end.
Proof.
  intros Haddr Hphone Hpm Huser Hcart Hwritable r its. subst r.
  pose proof (findUserById_id _ _ _ Huser) as Huid.
  assert (Hpm' : pm ≠ "").
  { intros ->. apply list_elem_of_In in Hpm. simpl in Hpm.
    intuition discriminate. }
  assert (Hsaved : findUserById uid (saveUser (setCartData user ∅) (users db))
                   = Some (setCartData user ∅))
    by (by apply (findUserById_save _ _ user)).
  unfold checkout.
  rewrite (decide_False (P := address = "" ∨ phone = "" ∨ pm = "")) by tauto.
  rewrite (decide_False (P := pm ∉ paymentMethods)) by auto.
  rewrite Huser.
  rewrite (decide_False (P := cartData user = ∅)) by done.
  rewrite checkoutItems_eq. fold its. simpl. rewrite Huid.
  destruct (findPendingOrder uid (orders db)) as [order|] eqn:Hfind.
  - apply findPendingOrder_spec in Hfind as Hspec.
    destruct Hspec as (Hin & Hu & Hst). simpl.
    split; [done|]. split; [done|].
    eexists. split.
    { apply (findPendingOrder_save _ _ order); [done|done|].
      unfold pendingOf. simpl. by rewrite !bool_decide_eq_true_2. }
    simpl. done.
  - destruct Hwritable as [[? [=]]|Hfresh].
    unfold createOrder. simpl.
    rewrite insertOrder_fresh by done. simpl.
    split; [done|]. split; [done|].
    eexists. split.
    { apply findPendingOrder_append; [done|].
      unfold pendingOf. simpl. by rewrite !bool_decide_eq_true_2. }
    simpl. done.
Qed.

(** C5, as the code has it.  A checkout that passes the handler's checks
    (address, phone, a payment method of the enum, a known user, a
    non-empty cart) and can write its order answers with success, empties
    the user's cart, and leaves a pending order whose items are exactly
    these: for every cart line with a positive quantity whose product is in
    the catalog, one item with status ['checkedout'], the current product
    price and [itemTotal = price * quantity].  The order's total is set to
    the sum of the item totals, whatever it was before.  The order is the
    user's pending order when there is one and a new order otherwise, and
    [checkedoutRevenue] grows by that sum in the bucket of the order's
    creation day: the day the pending order was opened, the current day
    only for a new order.  In Scenario D (cart [{P1:{M:2}, P2:{L:1}}]
    mirrored by a pending order opened the same day, prices unchanged)
    both items end checked out, the total stays 250 and the day's
    [checkedoutRevenue] grows by 200 + 50. *)
Theorem checkout_builds_checkedout_items :
  (∀ (db : Db) (uid : nat) (user : User) (address phone pm : string)
     (now : Date),
     address ≠ "" → phone ≠ "" → pm ∈ paymentMethods →
     findUserById uid (users db) = Some user →
     cartData user ≠ ∅ →
     is_Some (findPendingOrder uid (orders db)) ∨
       S (length (orders db)) ∉ List.map orderId (orders db) →
     let r := checkout uid address phone pm now db in
     r.1 = ok ∧
     findUserById uid (users r.2) = Some (setCartData user ∅) ∧
     ∃ o',
       findPendingOrder uid (orders r.2) = Some o' ∧
       (∀ pid sz qty product,
          cartLine (cartData user) pid sz = Some qty → qty > 0 →
          findProduct pid (products db) = Some product →
          In {| productId := pid; productName := name product;
                quantity := qty; price := productPrice product; size := sz;
                itemTotal := productPrice product * qty;
                item_status := checkedout |} (items o')) ∧
       (∀ item, In item (items o') →
          item_status item = checkedout ∧
          itemTotal item = price item * quantity item ∧
          ∃ product,
            findProduct (productId item) (products db) = Some product ∧
            price item = productPrice product ∧
            cartLine (cartData user) (productId item) (size item)
            = Some (quantity item)) ∧
       total o' = sum_itemTotal (items o') ∧
       checkedoutRevenue (bucket (createdAt o') (revenues r.2))
       = checkedoutRevenue (bucket (createdAt o') (revenues db))
         + sum_itemTotal (items o') ∧
       createdAt o'
       = match findPendingOrder uid (orders db) with
         | Some o => createdAt o
         | None => now
         end ∧
       (∀ d', d' ≠ createdAt o' →
          bucket d' (revenues r.2) = bucket d' (revenues db))) ∧
  (let r := checkout 7 "street" "0100" "cash_on_delivery" today dbD in
   cartData <$> findUserById 7 (users dbD)
   = Some {[ 1 := {[ "M" := 2 ]}; 2 := {[ "L" := 1 ]} ]} ∧
   total <$> findPendingOrder 7 (orders dbD) = Some 250 ∧
   r.1 = ok ∧
   cartData <$> findUserById 7 (users r.2) = Some ∅ ∧
   List.map (fun o => (List.map item_status (items o),
                       List.map itemTotal (items o), total o)) (orders r.2)
   = [([checkedout; checkedout], [200; 50], 250)] ∧
   checkedoutRevenue (bucket today (revenues r.2))
   = checkedoutRevenue (bucket today (revenues dbD)) + (200 + 50)).
Proof.
  split.
  - intros db uid user address phone pm now
      Haddr Hphone Hpm Huser Hcart Hwritable r.
    destruct (checkout_accepted db uid user address phone pm now
                Haddr Hphone Hpm Huser Hcart Hwritable)
      as (Hok & Hu & o' & Hfind & Hitems & Htotal & Hrev).
    fold r in Hok, Hu, Hfind, Hrev.
    split; [done|]. split; [done|]. exists o'. split; [done|].
    assert (Hall : Forall (fun item => item_status item = checkedout) (items o')).
    { rewrite Hitems. eapply Forall_impl; [apply cartItemsOf_checkedout|].
      by intros item [? _]. }
    split; [|split; [|split; [|split; [|split]]]]; cycle 4.
    { destruct (findPendingOrder uid (orders db)) as [o|].
      - by destruct Hrev as (_ & ? & _).
      - by destruct Hrev as (? & _). }
    { intros d' Hd'.
      destruct (findPendingOrder uid (orders db)) as [o|].
      - destruct Hrev as (_ & _ & ->). by apply bucket_updateRevenue_other.
      - destruct Hrev as (_ & ->). by apply bucket_updateRevenue_other. }
    + intros pid sz qty product Hline Hpos Hp.
      rewrite Hitems. apply In_cartItemsOf.
      by exists pid, sz, qty, product.
    + intros item Hin. rewrite Hitems in Hin.
      apply In_cartItemsOf in Hin
        as (pid & sz & qty & product & Hline & _ & Hp & ->).
      split; [done|]. split; [done|]. by exists product.
    + by rewrite Hitems.
    + assert (Hb : ∀ action, action = "add" ∨ action = "update" →
                checkedoutRevenue
                  (bucket (createdAt o') (updateRevenue o' action (revenues db)))
                = checkedoutRevenue (bucket (createdAt o') (revenues db))
                  + sum_itemTotal (items o')).
      { intros action Hact. rewrite bucket_updateRevenue_same.
        rewrite <- (checkedoutTotal_all o' Hall).
        unfold applyAction, addOrderAmounts.
        destruct Hact as [-> | ->]; simpl; by repeat case_decide. }
      destruct (findPendingOrder uid (orders db)) as [o|].
      * destruct Hrev as (_ & _ & ->). apply Hb. by right.
      * destruct Hrev as (_ & ->). apply Hb. by left.
  - vm_compute. repeat split; reflexivity.
Qed.

(** Scenario D's state meets the hypotheses of the general statement. *)
Lemma checkout_builds_checkedout_items_witness :
  (checkout 7 "street" "0100" "cash_on_delivery" today dbD).1 = ok ∧
  ∃ o',
    findPendingOrder 7
      (orders (checkout 7 "street" "0100" "cash_on_delivery" today dbD).2)
    = Some o' ∧
    total o' = sum_itemTotal (items o').
Proof.
  destruct (proj1 checkout_builds_checkedout_items dbD 7%nat
              {| u_id := 7;
                 cartData := {[ 1 := {[ "M" := 2 ]}; 2 := {[ "L" := 1 ]} ]} |}
              "street" "0100" "cash_on_delivery" today)
    as (Hok & _ & o' & Hfind & _ & _ & Htotal & _).
  - discriminate.
  - discriminate.
  - apply (bool_decide_unpack _). vm_compute. exact I.
  - vm_compute. reflexivity.
  - apply (bool_decide_unpack _). vm_compute. exact I.
  - left. vm_compute. eexists. reflexivity.
  - split; [exact Hok|]. exists o'. split; [exact Hfind|exact Htotal].
Defined.

(** C5 as stated fails in two places.  A pending order that was opened the
    day before is checked out today: today's [checkedoutRevenue] does not
    move, the 250 go to the bucket of the day before.  And after the price
    of P1 was raised from 100 to 120, checking out the same cart changes
    the order's total from 250 to 290. *)
Lemma checkout_credits_creation_day_and_reprices :
  (cartData <$> findUserById 7 (users dbDYesterday)
   = Some {[ 1 := {[ "M" := 2 ]}; 2 := {[ "L" := 1 ]} ]} ∧
   (checkout 7 "street" "0100" "cash_on_delivery" today dbDYesterday).1 = ok ∧
   checkedoutRevenue
     (bucket today
        (revenues (checkout 7 "street" "0100" "cash_on_delivery" today
                     dbDYesterday).2))
   = checkedoutRevenue (bucket today (revenues dbDYesterday)) ∧
   checkedoutRevenue
     (bucket yesterday
        (revenues (checkout 7 "street" "0100" "cash_on_delivery" today
                     dbDYesterday).2))
   = checkedoutRevenue (bucket yesterday (revenues dbDYesterday)) + 250) ∧
  (cartData <$> findUserById 7 (users dbDRepriced)
   = Some {[ 1 := {[ "M" := 2 ]}; 2 := {[ "L" := 1 ]} ]} ∧
   total <$> findPendingOrder 7 (orders dbDRepriced) = Some 250 ∧
   (checkout 7 "street" "0100" "cash_on_delivery" today dbDRepriced).1 = ok ∧
   total <$> findPendingOrder 7
               (orders (checkout 7 "street" "0100" "cash_on_delivery" today
                          dbDRepriced).2)
   = Some 290).
Proof. vm_compute. repeat split; reflexivity. Qed.

(** C10.  When the cart holds an entry whose product id has no product in
    the catalog, a checkout that passes the handler's checks still answers
    with success: the loop skips the entry, the cart is emptied all the
    same, and the order that is written has no item for that product.  If
    no cart product is in the catalog at all, the order is written with no
    items and a total of 0. *)
Theorem checkout_skips_unknown_products :
  ∀ (db : Db) (uid : nat) (user : User) (address phone pm : string)
    (now : Date) (pid : Z) (szs : gmap string Z),
    address ≠ "" → phone ≠ "" → pm ∈ paymentMethods →
    findUserById uid (users db) = Some user →
    is_Some (findPendingOrder uid (orders db)) ∨
      S (length (orders db)) ∉ List.map orderId (orders db) →
    cartData user !! pid = Some szs →
    findProduct pid (products db) = None →
    let r := checkout uid address phone pm now db in
    success r.1 = true ∧ http_status r.1 = 200%nat ∧
    findUserById uid (users r.2) = Some (setCartData user ∅) ∧
    ∃ o',
      findPendingOrder uid (orders r.2) = Some o' ∧
      (∀ item, In item (items o') → productId item ≠ pid) ∧
      total o' = sum_itemTotal (items o') ∧
      ((∀ k szs', cartData user !! k = Some szs' →
                  findProduct k (products db) = None) →
       items o' = [] ∧ total o' = 0).
Proof.
  intros db uid user address phone pm now pid szs
    Haddr Hphone Hpm Huser Hwritable Hentry Hmissing r.
  assert (Hcart : cartData user ≠ ∅).
  { intros Hempty. by rewrite Hempty, lookup_empty in Hentry. }
  destruct (checkout_accepted db uid user address phone pm now
              Haddr Hphone Hpm Huser Hcart Hwritable)
    as (Hok & Hu & o' & Hfind & Hitems & Htotal & _).
  fold r in Hok, Hu, Hfind.
  rewrite Hok. split; [done|]. split; [done|]. split; [done|].
  exists o'. split; [done|]. split; [|split].
  - intros item Hin Hpid. rewrite Hitems in Hin.
    apply In_cartItemsOf in Hin as (k & sz & qty & product & _ & _ & Hp & ->).
    simpl in Hpid. congruence.
  - by rewrite Hitems.
  - intros Hnone.
    assert (Hnil : cartItemsOf (products db) (cartEntries (cartData user)) = []).
    { destruct (cartItemsOf _ _) as [|item rest] eqn:E; [done|].
      assert (Hin : In item (cartItemsOf (products db) (cartEntries (cartData user))))
        by (rewrite E; by left).
      apply In_cartItemsOf in Hin as (k & sz & qty & product & Hline & _ & Hp & _).
      unfold cartLine in Hline.
      destruct (cartData user !! k) as [szs'|] eqn:Hk; [|done].
      by rewrite (Hnone k szs' Hk) in Hp. }
    rewrite Htotal, Hitems, Hnil. done.
Qed.

(** After P2 left the catalog, the sample customer's checkout succeeds and
    the order has no item for product 2. *)
Lemma checkout_skips_unknown_products_witness :
  success (checkout 7 "street" "0100" "cash_on_delivery" today dbGone).1 = true ∧
  ∃ o',
    findPendingOrder 7
      (orders (checkout 7 "street" "0100" "cash_on_delivery" today dbGone).2)
    = Some o' ∧
    ∀ item, In item (items o') → productId item ≠ 2.
Proof.
  destruct (checkout_skips_unknown_products dbGone 7%nat
              {| u_id := 7;
                 cartData := {[ 1 := {[ "M" := 2 ]}; 2 := {[ "L" := 1 ]} ]} |}
              "street" "0100" "cash_on_delivery" today 2 {[ "L" := 1 ]})
    as (Hok & _ & _ & o' & Hfind & Hitems & _).
  - discriminate.
  - discriminate.
  - apply (bool_decide_unpack _). vm_compute. exact I.
  - vm_compute. reflexivity.
  - left. vm_compute. eexists. reflexivity.
  - vm_compute. reflexivity.
  - vm_compute. reflexivity.
  - split; [exact Hok|]. exists o'. split; [exact Hfind|exact Hitems].
Defined.

(** ** Totals of orders and of their items *)

Lemma Forall_saveOrder (Q : Order → Prop) o' os :
  Forall Q os → Q o' → Forall Q (saveOrder o' os).
Proof.
  intros Hall Ho. induction Hall as [|x rest Hx Hrest IH]; simpl; [constructor|].
  case_bool_decide; constructor; auto.
Qed.

Lemma Forall_deleteOrder (Q : Order → Prop) oid os :
  Forall Q os → Forall Q (deleteOrder oid os).
Proof.
  intros Hall. induction Hall as [|x rest Hx Hrest IH]; simpl; [constructor|].
  case_bool_decide; [done|]. constructor; auto.
Qed.

Lemma saveProduct_same p ps :
  List.find (fun x => bool_decide (p_oid x = p_oid p)) ps = Some p →
  saveProduct p ps = ps.
Proof.
  induction ps as [|x rest IH]; simpl; [done|].
  case_bool_decide; [congruence|]. intros Hrest. by rewrite IH.
Qed.

Section OrderSoundness.
(** [R] is a property of item lists that the three ways of rebuilding an
    item list establish or keep, for the catalog [ps]. *)
Variable ps : list Product.
Variable R : list OrderItem → Prop.
Hypothesis R_new : ∀ product qty sz,
  findProduct (p_id product) ps = Some product → R [newCartItem product qty sz].
Hypothesis R_merge : ∀ product qty sz action its,
  findProduct (p_id product) ps = Some product →
  R its → R (mergeItem product qty sz action its).
Hypothesis R_set : ∀ product sz newQuantity its its',
  findProduct (p_id product) ps = Some product →
  R its → setItemQuantity product (p_id product) sz newQuantity its = Some its' →
  R its'.
Hypothesis R_checkout : ∀ entries, R (cartItemsOf ps entries).

Lemma orderSound_recalculate o its :
  R its → orderSound R (recalculate (setItems o its)).
Proof.
  intros HR. split.
  - unfold totalConsistent. by rewrite total_recalculate, items_recalculate.
  - by rewrite items_recalculate.
Qed.

Lemma orderSound_fields o o' :
  items o' = items o → total o' = total o → orderSound R o → orderSound R o'.
Proof.
  intros Hi Ht [Htot HR]. split.
  - unfold totalConsistent in *. by rewrite Hi, Ht.
  - by rewrite Hi.
Qed.

Lemma orderSound_find_pending uid os o :
  Forall (orderSound R) os → findPendingOrder uid os = Some o → orderSound R o.
Proof.
  rewrite Forall_forall. intros Hall (Hin & _)%findPendingOrder_spec.
  by apply Hall, list_elem_of_In.
Qed.

Lemma createOrUpdateOrder_sound user product qty sz pm now db db' :
  products db = ps →
  findProduct (p_id product) ps = Some product →
  Forall (orderSound R) (orders db) →
  createOrUpdateOrder user product qty sz pm "add" now db = Some db' →
  Forall (orderSound R) (orders db') ∧ products db' = ps.
Proof.
  intros Hps Hp Hall. unfold createOrUpdateOrder, createOrder.
  destruct (findPendingOrder (u_id user) (orders db)) as [order|] eqn:Hfind.
  - pose proof (orderSound_find_pending _ _ _ Hall Hfind) as [_ HR].
    case_match; [done|]. intros [= <-]. simpl. split; [|done].
    apply Forall_saveOrder; [done|].
    destruct (bool_decide _); simpl.
    + apply (orderSound_recalculate
               (setPaymentMethod order (normalizePaymentMethod pm))).
      by apply R_merge.
    + apply (orderSound_recalculate order). by apply R_merge.
  - case_decide as Hadd; [|by intros [= <-]].
    unfold insertOrder. simpl.
    repeat case_decide; simpl; try done.
    intros [= <-]. simpl. split; [|done].
    apply Forall_app. split; [done|]. apply Forall_singleton.
    split; simpl.
    + unfold totalConsistent, sum_itemTotal. simpl. lia.
    + by apply R_new.
Qed.

(** Every request that writes no price keeps all orders sound. *)
Lemma orderSound_step now req db :
  products db = ps → keepsPrices req →
  Forall (orderSound R) (orders db) →
  Forall (orderSound R) (orders (step now req db)) ∧
  products (step now req db) = ps.
Proof.
  intros Hps Hkeep Hall. unfold step, handle.
  destruct req as [uid body|uid itemId sz qty|uid|uid address phone pm|uid pm
                  |oid st|oid|oid np].
  - unfold addtocart.
    repeat (case_decide; [done|]).
    destruct (findProduct _ _) as [product|] eqn:Hp; [|done].
    repeat (case_decide; [done|]).
    destruct (findUserById uid (users db)) as [user|]; [|done].
    destruct (createOrUpdateOrder _ _ _ _ _ _ _ _) as [db2|] eqn:E; simpl; [|done].
    apply createOrUpdateOrder_sound in E; try done.
    rewrite (findProduct_id _ _ _ Hp). by rewrite <- Hps.
  - unfold updatecartquantity.
    case_decide; [done|].
    destruct (findUserById uid (users db)) as [user|]; [|done].
    destruct (findProduct _ _) as [product|] eqn:Hp; [|done].
    case_decide; [done|]. simpl.
    destruct (findPendingOrder _ _) as [order|] eqn:Hfind; [|done].
    pose proof (orderSound_find_pending _ _ _ Hall Hfind) as [_ HR].
    destruct (setItemQuantity _ _ _ _ _) as [its|] eqn:Hset; [|done].
    simpl. split; [|done].
    apply Forall_saveOrder; [done|]. apply orderSound_recalculate.
    pose proof (findProduct_id _ _ _ Hp) as Hid. rewrite <- Hid in Hset, Hp.
    rewrite Hps in Hp. by eapply R_set.
  - unfold clearcart.
    destruct (findUserById uid (users db)) as [user|]; [|done].
    simpl. destruct (findPendingOrder _ _) as [order|] eqn:Hfind; [|done].
    simpl. split; [|done].
    apply Forall_saveOrder; [done|].
    eapply (orderSound_fields order); [done|done|].
    by eapply orderSound_find_pending.
  - unfold checkout.
    repeat (case_decide; [done|]).
    destruct (findUserById uid (users db)) as [user|]; [|done].
    case_decide; [done|].
    rewrite checkoutItems_eq. simpl.
    assert (Hnew : ∀ o : Order,
              orderSound R
                (setTotal (setItems o (cartItemsOf (products db) (cartEntries (cartData user))))
                   (sum_itemTotal (cartItemsOf (products db) (cartEntries (cartData user)))))).
    { intros o. split; simpl; [done|]. rewrite Hps. apply R_checkout. }
    destruct (findPendingOrder _ _) as [order|] eqn:Hfind.
    + simpl. split; [|done]. apply Forall_saveOrder; [done|].
      eapply (orderSound_fields (setTotal (setItems order _) _)); [done|done|].
      apply Hnew.
    + unfold createOrder, insertOrder. simpl.
      repeat case_decide; simpl; try done.
      split; [|done]. apply Forall_app. split; [done|]. apply Forall_singleton.
      split; simpl; [done|]. rewrite Hps. apply R_checkout.
  - unfold createorder.
    destruct (findPendingOrder _ _) as [order|] eqn:Hfind; [|done].
    case_decide; [done|].
    assert (Hsaved : Forall (orderSound R)
              (saveOrder
                 (setStatus
                    (setPaymentMethod order
                       (if decide (pm = "") then paymentMethod order else pm))
                    processing) (orders db))).
    { apply Forall_saveOrder; [done|].
      eapply (orderSound_fields order); [done|done|].
      by eapply orderSound_find_pending. }
    destruct (findUserById uid _) as [user|]; simpl; done.
  - unfold adminOrderStatus.
    destruct (parseStatus st) as [s|]; [|done].
    destruct (findOrderById oid (orders db)) as [order|] eqn:Hfind; [|done].
    simpl. split; [|done]. apply Forall_saveOrder; [done|].
    eapply (orderSound_fields order).
    + by repeat case_decide.
    + by repeat case_decide.
    + rewrite Forall_forall in Hall.
      by apply Hall, list_elem_of_In, (findOrderById_In oid).
  - unfold adminDeleteOrder.
    destruct (findOrderById oid (orders db)) as [order|]; [|done].
    simpl. split; [|done]. by apply Forall_deleteOrder.
  - unfold updateproduct.
    destruct (List.find _ _) as [product|] eqn:Hfind; [|done].
    destruct np as [n|]; [done|]. simpl. split; [done|].
    rewrite saveProduct_same; [done|].
    assert (Hoid : p_oid product = oid).
    { apply find_some in Hfind as [_ H]. by apply bool_decide_eq_true in H. }
    by rewrite Hoid.
Qed.
End OrderSoundness.

(** The order total equals the sum of the item totals after every request,
    price updates included. *)
Lemma totalConsistent_step now req db :
  Forall totalConsistent (orders db) →
  Forall totalConsistent (orders (step now req db)).
Proof.
  intros Hall.
  assert (Hcases : keepsPrices req ∨ ∃ oid n, req = UpdateProduct oid (Some n)).
  { destruct req as [| | | | | | |oid [n|]]; simpl; eauto. }
  destruct Hcases as [Hkeep|(oid & n & ->)].
  - assert (Hsound : Forall (orderSound (fun _ => True)) (orders db))
      by (eapply Forall_impl; [done|]; by intros o Ho; split).
    destruct (orderSound_step (products db) (fun _ => True)
                ltac:(done) ltac:(done) ltac:(done) ltac:(done)
                now req db eq_refl Hkeep Hsound) as [Hres _].
    eapply Forall_impl; [done|]. by intros o [Ho _].
  - unfold step, handle, updateproduct.
    by destruct (List.find _ _).
Qed.

(** The item lists that the handlers build are sound for the catalog they
    read, as long as the items they start from are. *)
Section ItemsSound.
Variable ps : list Product.

Lemma itemsSound_new product qty sz :
  findProduct (p_id product) ps = Some product →
  itemsSound ps [newCartItem product qty sz].
Proof.
  intros Hp. apply Forall_singleton. split.
  - unfold itemConsistent. simpl. lia.
  - intros product' Hp'. simpl in *. congruence.
Qed.

Lemma itemsSound_merge product qty sz action its :
  findProduct (p_id product) ps = Some product →
  itemsSound ps its → itemsSound ps (mergeItem product qty sz action its).
Proof.
  intros Hp Hall. unfold mergeItem.
  destruct (list_find _ its) as [[i item]|] eqn:Hfind.
  - apply list_find_Some in Hfind as (Hi & [Hpid Hsz] & _).
    pose proof (Forall_lookup_1 _ _ _ _ Hall Hi) as [Hcons Hprice].
    assert (Hcur : price item = productPrice product)
      by (apply Hprice; by rewrite Hpid).
    case_decide as Hadd.
    + apply Forall_insert; [done|]. split.
      * unfold itemConsistent in *. simpl. rewrite Hcons, Hcur.
        destruct Hadd as [_ Hpos]. rewrite Z.abs_eq by lia. lia.
      * intros product' Hp'. simpl in *. by apply Hprice.
    + case_decide; [|done]. case_decide.
      * by apply Forall_delete.
      * apply Forall_insert; [done|]. split; [done|].
        intros product' Hp'. simpl in *. by apply Hprice.
  - case_decide; [|done].
    apply Forall_app. split; [done|]. by apply itemsSound_new.
Qed.

Lemma productPriceOpt_Some product p :
  productPriceOpt product = Some p → productPrice product = p.
Proof.
  unfold productPriceOpt, productPrice. case_decide; [|congruence].
  by intros ->.
Qed.

Lemma itemsSound_set product sz newQuantity its its' :
  findProduct (p_id product) ps = Some product →
  itemsSound ps its →
  setItemQuantity product (p_id product) sz newQuantity its = Some its' →
  itemsSound ps its'.
Proof.
  intros Hp Hall. unfold setItemQuantity.
  destruct (list_find _ its) as [[i item]|] eqn:Hfind.
  - apply list_find_Some in Hfind as (Hi & [Hpid Hsz] & _).
    pose proof (Forall_lookup_1 _ _ _ _ Hall Hi) as [Hcons Hprice].
    assert (Hcur : price item = productPrice product)
      by (apply Hprice; by rewrite Hpid).
    case_decide.
    + intros [= <-]. by apply Forall_delete.
    + destruct (productPriceOpt product) as [p|] eqn:Hopt; simpl; [|done].
      apply productPriceOpt_Some in Hopt.
      intros [= <-]. apply Forall_insert; [done|]. split.
      * unfold itemConsistent. simpl. by rewrite Hcur, Hopt.
      * intros product' Hp'. simpl in *. by apply Hprice.
  - case_decide; [|by intros [= <-]].
    destruct (productPriceOpt product) as [p|] eqn:Hopt; simpl; [|done].
    apply productPriceOpt_Some in Hopt.
    intros [= <-]. apply Forall_app. split; [done|]. apply Forall_singleton.
    split; [done|].
    intros product' Hp'. simpl in *. congruence.
Qed.

Lemma itemsSound_checkout entries : itemsSound ps (cartItemsOf ps entries).
Proof.
  apply Forall_forall. intros item Hin%list_elem_of_In.
  unfold cartItemsOf in Hin. apply in_flat_map in Hin as ([pid szs] & _ & Hin).
  simpl in Hin. destruct (findProduct pid ps) as [product|] eqn:Hp; [|done].
  apply In_sizeItems in Hin as (sz & qty & _ & _ & ->).
  split; [done|]. intros product' Hp'. simpl in *. congruence.
Qed.
End ItemsSound.

(** While no request writes a price, every order keeps [total = sum of
    itemTotal] and every item keeps [itemTotal = price * quantity] (and the
    price of the catalog): this is the part of C2 that the code has. *)
Lemma orders_consistent_while_prices_fixed reqs db :
  Forall keepsPrices (List.map snd reqs) →
  Forall (orderSound (itemsSound (products db))) (orders db) →
  Forall orderConsistent (orders (run reqs db)).
Proof.
  intros Hkeep Hall.
  assert (H : Forall (orderSound (itemsSound (products db))) (orders (run reqs db))).
  { remember (products db) as ps eqn:Hps. symmetry in Hps.
    revert db Hps Hall.
    induction reqs as [|[now req] rest IH]; intros db Hps Hall; simpl; [done|].
    apply Forall_cons in Hkeep as [Hreq Hrest].
    destruct (orderSound_step ps (itemsSound ps)
                (itemsSound_new ps) (itemsSound_merge ps) (itemsSound_set ps)
                (itemsSound_checkout ps) now req db Hps Hreq Hall)
      as [Hall' Hps'].
    by apply IH. }
  eapply Forall_impl; [exact H|].
  intros o [Htot Hits]. split; [done|].
  eapply Forall_impl; [exact Hits|]. by intros item [? _].
Qed.

(** C2 at a failing input.  The customer adds one unit of P1 at price 100,
    the admin changes the price of P1 to 120 ([/updateproduct]), and the
    customer adds a second unit.  The merge keeps the item's stored price
    100, makes the quantity 2 and adds [120 * 1] to [itemTotal]: the item has
    [itemTotal = 220] where [price * quantity = 200].  The same happens on
    the [/updatecartquantity] path ([itemTotal = 240]).  The order total
    still equals the sum of the item totals.  Removing one unit afterwards
    takes the branch for negative deltas, which recomputes [itemTotal] as
    [price * quantity] from the stored price. *)
Theorem item_total_drifts_after_price_change :
  (∃ o item,
     orders (run [(today, addLine 1 1 "M"); (today, UpdateProduct 501 (Some 120));
                  (today, addLine 1 1 "M")] db0) = [o] ∧
     items o = [item] ∧
     price item = 100 ∧ quantity item = 2 ∧ itemTotal item = 220 ∧
     ¬ itemConsistent item ∧ totalConsistent o) ∧
  (∃ o item,
     orders (run [(today, addLine 1 1 "M"); (today, UpdateProduct 501 (Some 120));
                  (today, UpdateCartQuantity 7 1 "M" 1)] db0) = [o] ∧
     items o = [item] ∧
     price item = 100 ∧ quantity item = 2 ∧ itemTotal item = 240 ∧
     ¬ itemConsistent item ∧ totalConsistent o) ∧
  (∃ o item,
     orders (run [(today, addLine 1 1 "M"); (today, UpdateProduct 501 (Some 120));
                  (today, addLine 1 1 "M"); (today, addLine 1 (-1) "M")] db0) = [o] ∧
     items o = [item] ∧
     price item = 100 ∧ quantity item = 1 ∧ itemTotal item = 100 ∧
     itemConsistent item).
Proof.
  split; [|split].
  - eexists _, _. split; [vm_compute; reflexivity|].
    split; [reflexivity|]. repeat split; try reflexivity.
    unfold itemConsistent. simpl. lia.
  - eexists _, _. split; [vm_compute; reflexivity|].
    split; [reflexivity|]. repeat split; try reflexivity.
    unfold itemConsistent. simpl. lia.
  - eexists _, _. split; [vm_compute; reflexivity|].
    split; [reflexivity|]. repeat split; reflexivity.
Qed.

(* ===================================================================== *)
(** * Further properties of the modelled code                             *)
(* ===================================================================== *)

(** ** What a failed request leaves behind *)

(** X1.  A request that is answered with status 400 or 404 has written
    nothing: the database is the one before the request.  A request that is
    answered with status 500 has written no order, no revenue bucket and no
    product; what it can have written is the user's cart ([/addtocart] and
    [/updatecartquantity] save the cart before they touch the order, and
    [/checkout] empties it before it writes the order). *)
Theorem rejected_request_writes_nothing (now : Date) (req : Request) (db : Db) :
  let r := handle now req db in
  (http_status r.1 = 400%nat ∨ http_status r.1 = 404%nat → r.2 = db) ∧
  (http_status r.1 = 500%nat →
     orders r.2 = orders db ∧ revenues r.2 = revenues db ∧
     products r.2 = products db ∧ next_oid r.2 = next_oid db).
Proof.
  intros r. subst r.
  set (Good := fun r : Response * Db =>
         (http_status r.1 = 400%nat ∨ http_status r.1 = 404%nat → r.2 = db) ∧
         (http_status r.1 = 500%nat →
            orders r.2 = orders db ∧ revenues r.2 = revenues db ∧
            products r.2 = products db ∧ next_oid r.2 = next_oid db)).
  change (Good (handle now req db)).
  assert (Hrej : ∀ code, (code = 400 ∨ code = 404)%nat → Good (fail code, db))
    by (intros code _; split; done).
  assert (Hok : ∀ db', Good (ok, db')).
  { intros db'. split; simpl; [intros [?|?]; discriminate|discriminate]. }
  assert (Hcart : ∀ us, Good (fail 500, setUsers db us)).
  { intros us. split; simpl; [intros [?|?]; discriminate|done]. }
  assert (Hsame : Good (fail 500, db)) by (split; done).
  clearbody Good.
  unfold handle.
  destruct req as [uid body|uid itemId sz qty|uid|uid address phone pm|uid pm
                  |oid st|oid|oid np];
    [unfold addtocart|unfold updatecartquantity|unfold clearcart|unfold checkout
    |unfold createorder|unfold adminOrderStatus|unfold adminDeleteOrder
    |unfold updateproduct];
    repeat first
      [ apply Hok | apply Hcart | apply Hsame
      | (apply Hrej; solve [auto])
      | case_decide | case_match ].
Qed.

(** ** Closing the pending order *)

Lemma find_filter_nil {A} (P : A → bool) (l : list A) :
  List.filter P l = [] → List.find P l = None.
Proof.
  induction l as [|x rest IH]; simpl; [done|].
  destruct (P x); [done|auto].
Qed.

(** Saving the user's only pending order in a state that is not pending
    leaves the user without a pending order. *)
Lemma findPendingOrder_closed uid os o o' :
  NoDup (List.map o_id os) →
  (length (pendingOrders uid os) ≤ 1)%nat →
  findPendingOrder uid os = Some o →
  o_id o' = o_id o → status o' ≠ pending →
  findPendingOrder uid (saveOrder o' os) = None.
Proof.
  intros Hnd Hone Hfind Hid Hst.
  pose proof (findPendingOrder_spec _ _ _ Hfind) as (Hin & Hu & Hp).
  pose proof (filter_saveOrder (pendingOf uid) o o' os Hnd Hin Hid) as Hcount.
  assert (Ho : pendingOf uid o = true) by (rewrite <- Hu; by apply pendingOf_intro).
  assert (Ho' : pendingOf uid o' = false).
  { destruct (pendingOf uid o') eqn:E; [|done].
    by apply pendingOf_status in E. }
  rewrite Ho, Ho' in Hcount. unfold pendingOrders in Hone.
  apply find_filter_nil.
  destruct (List.filter (pendingOf uid) (saveOrder o' os)); [done|].
  simpl in Hcount. lia.
Qed.

(** X2.  [/clearcart] for a user with a pending order empties the cart and
    cancels that order with the reason ["Cart cleared by user"], keeping its
    items and total; the user then has no pending order, so the next
    addition opens a new one.  In the ledger the order's total is added to
    [cancelledRevenue] of its creation day, and what the order had added to
    [pendingRevenue] stays there.  Without a pending order only the cart is
    emptied. *)
Theorem clearcart_cancels_pending_order :
  (∀ (db : Db) (uid : nat) (user : User) (o : Order),
     findUserById uid (users db) = Some user →
     findPendingOrder uid (orders db) = Some o →
     wfOrders db → singlePending db →
     let r := clearcart uid db in
     let before := bucket (createdAt o) (revenues db) in
     let after := bucket (createdAt o) (revenues r.2) in
     r.1 = ok ∧
     findUserById uid (users r.2) = Some (setCartData user ∅) ∧
     findOrderById (o_id o) (orders r.2)
     = Some {| o_id := o_id o; orderId := orderId o; userId := userId o;
               items := items o; total := total o; status := cancelled;
               paymentMethod := paymentMethod o;
               paymentStatus := paymentStatus o; createdAt := createdAt o;
               cancellationReason := Some "Cart cleared by user" |} ∧
     findPendingOrder uid (orders r.2) = None ∧
     cancelledRevenue after = cancelledRevenue before + total o ∧
     pendingRevenue after = pendingRevenue before ∧
     deliveredRevenue after = deliveredRevenue before ∧
     ordersCount after = ordersCount before) ∧
  (∀ (db : Db) (uid : nat) (user : User),
     findUserById uid (users db) = Some user →
     findPendingOrder uid (orders db) = None →
     clearcart uid db
     = (ok, setUsers db (saveUser (setCartData user ∅) (users db)))).
Proof.
  split.
  - intros db uid user o Huser Hfind [Hnd _] Hsingle r before after.
    subst r before after.
    pose proof (findUserById_id _ _ _ Huser) as Huid.
    pose proof (findPendingOrder_spec _ _ _ Hfind) as (Hin & _ & _).
    unfold clearcart. rewrite Huser, Huid, Hfind. simpl.
    set (o' := setCancellationReason (setStatus o cancelled) "Cart cleared by user").
    split; [done|].
    split; [by apply (findUserById_save _ _ user)|].
    split; [by apply findOrderById_In_save|].
    split; [by apply (findPendingOrder_closed _ _ o)|].
    rewrite (bucket_updateRevenue_same o' "update" (revenues db)
             : bucket (createdAt o) _ = _).
    unfold applyAction, addOrderAmounts. simpl. repeat split; lia.
  - intros db uid user Huser Hfind.
    pose proof (findUserById_id _ _ _ Huser) as Huid.
    unfold clearcart. by rewrite Huser, Huid, Hfind.
Qed.

(** Scenario B's state: one order, well formed. *)
Lemma orders_dbB : orders dbB = [orderB].
Proof. vm_compute. reflexivity. Qed.

Lemma wfOrders_dbB : wfOrders dbB.
Proof.
  unfold wfOrders. rewrite orders_dbB. split.
  - simpl. apply NoDup_singleton.
  - apply Forall_singleton. vm_compute. lia.
Qed.

Lemma singlePending_dbB : singlePending dbB.
Proof.
  intros uid. rewrite orders_dbB. unfold pendingOrders. simpl.
  destruct (pendingOf uid orderB); simpl; lia.
Qed.

(** The sample customer clears the cart of Scenario B. *)
Lemma clearcart_cancels_pending_order_witness :
  (clearcart 7 dbB).1 = ok ∧
  findPendingOrder 7 (orders (clearcart 7 dbB).2) = None ∧
  cancelledRevenue (bucket today (revenues (clearcart 7 dbB).2))
  = cancelledRevenue (bucket today (revenues dbB)) + 300.
Proof.
  destruct (proj1 clearcart_cancels_pending_order dbB 7%nat aliceB orderB)
    as (H1 & _ & _ & H4 & H5 & _).
  - vm_compute. reflexivity.
  - vm_compute. reflexivity.
  - exact wfOrders_dbB.
  - exact singlePending_dbB.
  - exact (conj H1 (conj H4 H5)).
Defined.

(** X3.  [/createorder] for a user with a pending order (and a payment
    method that is absent or in the enum) moves that order to
    ['processing'], empties the user's cart, and leaves the user without a
    pending order.  The ledger call is an ['update'] of an order that is
    neither delivered nor cancelled, so the order's total is added to
    [pendingRevenue] of its creation day once more. *)
Theorem createorder_confirms_pending_order :
  ∀ (db : Db) (uid : nat) (o : Order) (pm : string),
    findPendingOrder uid (orders db) = Some o →
    pm = "" ∨ pm ∈ paymentMethods →
    wfOrders db → singlePending db →
    let r := createorder uid pm db in
    let before := bucket (createdAt o) (revenues db) in
    let after := bucket (createdAt o) (revenues r.2) in
    r.1 = ok ∧
    findOrderById (o_id o) (orders r.2)
    = Some {| o_id := o_id o; orderId := orderId o; userId := userId o;
              items := items o; total := total o; status := processing;
              paymentMethod := if decide (pm = "") then paymentMethod o else pm;
              paymentStatus := paymentStatus o; createdAt := createdAt o;
              cancellationReason := cancellationReason o |} ∧
    findPendingOrder uid (orders r.2) = None ∧
    (∀ user, findUserById uid (users db) = Some user →
             findUserById uid (users r.2) = Some (setCartData user ∅)) ∧
    pendingRevenue after = pendingRevenue before + total o ∧
    ordersCount after = ordersCount before ∧
    deliveredRevenue after = deliveredRevenue before ∧
    cancelledRevenue after = cancelledRevenue before.
Proof.
  intros db uid o pm Hfind Hpm [Hnd _] Hsingle r before after.
  subst r before after.
  pose proof (findPendingOrder_spec _ _ _ Hfind) as (Hin & _ & _).
  unfold createorder. rewrite Hfind.
  set (pm' := if decide (pm = "") then paymentMethod o else pm).
  rewrite (decide_False (P := pm' ≠ paymentMethod o ∧ pm' ∉ paymentMethods)).
  2:{ intros [Hne Hnot]. unfold pm' in *. case_decide; [done|].
      destruct Hpm; done. }
  set (o' := setStatus (setPaymentMethod o pm') processing).
  assert (Hledger :
    ∀ db2, revenues db2 = revenues db →
      let after := bucket (createdAt o)
                     (revenues (setRevenues db2 (updateRevenue o' "update" (revenues db2)))) in
      pendingRevenue after = pendingRevenue (bucket (createdAt o) (revenues db)) + total o ∧
      ordersCount after = ordersCount (bucket (createdAt o) (revenues db)) ∧
      deliveredRevenue after = deliveredRevenue (bucket (createdAt o) (revenues db)) ∧
      cancelledRevenue after = cancelledRevenue (bucket (createdAt o) (revenues db))).
  { intros db2 Hrev. simpl. rewrite Hrev.
    rewrite (bucket_updateRevenue_same o' "update" (revenues db)
             : bucket (createdAt o) _ = _).
    unfold applyAction, addOrderAmounts. simpl. repeat split; lia. }
  assert (Hclosed : findPendingOrder uid (saveOrder o' (orders db)) = None)
    by (by apply (findPendingOrder_closed _ _ o)).
  assert (Hsaved : findOrderById (o_id o) (saveOrder o' (orders db)) = Some o')
    by (by apply findOrderById_In_save).
  simpl.
  destruct (findUserById uid (users db)) as [user|] eqn:Huser; simpl.
  - split; [done|]. split; [done|]. split; [done|]. split.
    + intros user' [= <-]. apply (findUserById_save _ _ user); [done|].
      by apply findUserById_id in Huser.
    + by apply Hledger.
  - split; [done|]. split; [done|]. split; [done|]. split; [done|].
    by apply Hledger.
Qed.

(** The sample customer confirms the order of Scenario B. *)
Lemma createorder_confirms_pending_order_witness :
  (createorder 7 "" dbB).1 = ok ∧
  findPendingOrder 7 (orders (createorder 7 "" dbB).2) = None ∧
  pendingRevenue (bucket today (revenues (createorder 7 "" dbB).2))
  = pendingRevenue (bucket today (revenues dbB)) + 300.
Proof.
  destruct (createorder_confirms_pending_order dbB 7%nat orderB "")
    as (H1 & _ & H3 & _ & H5 & _).
  - vm_compute. reflexivity.
  - by left.
  - exact wfOrders_dbB.
  - exact singlePending_dbB.
  - exact (conj H1 (conj H3 H5)).
Defined.

(** ** Order numbers after a deletion *)

Lemma In_deleteOrder_other oid os o x :
  findOrderById oid os = Some o → In x os → x ≠ o → In x (deleteOrder oid os).
Proof.
  unfold findOrderById. intros Hfind Hin Hne.
  induction os as [|y rest IH]; simpl in *; [done|].
  case_bool_decide as Hy.
  - injection Hfind as ->. destruct Hin as [->|Hin]; [done|done].
  - destruct Hin as [->|Hin]; [by left|]. right. auto.
Qed.

Lemma length_deleteOrder_found oid os o :
  findOrderById oid os = Some o → S (length (deleteOrder oid os)) = length os.
Proof.
  unfold findOrderById. intros Hfind.
  induction os as [|y rest IH]; simpl in *; [done|].
  case_bool_decide as Hy; [done|]. simpl. by rewrite IH.
Qed.

(** X4.  Order numbers are [count + 1] under a unique index.  When the
    orders are numbered 1..n and the admin deletes one that is not number n,
    the next number [count + 1] is taken.  From then on a customer without
    a pending order cannot get one: [/addtocart] with a positive quantity
    answers 500 with the cart line stored and no order or revenue written,
    and [/checkout] answers 500 with the cart emptied and no order
    written. *)
Theorem order_number_taken_after_delete :
  (∀ (db : Db) (oid : nat) (o : Order),
     findOrderById oid (orders db) = Some o →
     List.map orderId (orders db) = seq 1 (length (orders db)) →
     (orderId o < length (orders db))%nat →
     let db1 := (adminDeleteOrder oid db).2 in
     S (length (orders db1)) ∈ List.map orderId (orders db1)) ∧
  (∀ (db : Db) (uid : nat) (user : User) (product : Product)
     (body : AddToCartBody) (now : Date),
     findUserById uid (users db) = Some user →
     findProduct (b_itemId body) (products db) = Some product →
     b_itemId body ≠ 0 → b_quantity body > 0 →
     b_size body ≠ "" → b_size body ≠ "default" →
     b_size body ∈ availableSizes product →
     normalizePaymentMethod
       (if decide (b_paymentMethod body = "") then "cash_on_delivery"
        else b_paymentMethod body) ∈ paymentMethods →
     findPendingOrder uid (orders db) = None →
     S (length (orders db)) ∈ List.map orderId (orders db) →
     addtocart uid body now db
     = (fail 500,
        setUsers db
          (saveUser
             (setCartData user
                (addtocartCart (cartData user) (b_itemId body) (b_size body)
                   (b_quantity body)))
             (users db)))) ∧
  (∀ (db : Db) (uid : nat) (user : User) (address phone pm : string)
     (now : Date),
     address ≠ "" → phone ≠ "" → pm ∈ paymentMethods →
     findUserById uid (users db) = Some user →
     cartData user ≠ ∅ →
     findPendingOrder uid (orders db) = None →
     S (length (orders db)) ∈ List.map orderId (orders db) →
     checkout uid address phone pm now db
     = (fail 500, setUsers db (saveUser (setCartData user ∅) (users db)))).
Proof.
  split; [|split].
  - intros db oid o Hfind Hseq Hlt db1. subst db1.
    unfold adminDeleteOrder. rewrite Hfind. simpl.
    rewrite (length_deleteOrder_found _ _ _ Hfind).
    assert (Hn : In (length (orders db)) (List.map orderId (orders db))).
    { rewrite Hseq. apply in_seq. apply findOrderById_In in Hfind.
      destruct (orders db); simpl in *; [done|lia]. }
    apply in_map_iff in Hn as (x & Hx & Hin).
    apply list_elem_of_In, in_map_iff. exists x. split; [done|].
    apply (In_deleteOrder_other _ _ o); [done|done|].
    intros ->. lia.
  - intros db uid user product body now
      Huser Hprod Hid Hqty Hsz1 Hsz2 Hsz3 Hpm Hnone Htaken.
    rewrite (addtocart_accepted db uid user product) by (try done; lia).
    cbv zeta. unfold createOrUpdateOrder. simpl.
    rewrite (findUserById_id _ _ _ Huser), Hnone.
    rewrite decide_True by (split; [done|lia]).
    unfold createOrder, insertOrder. simpl.
    repeat case_decide; done.
  - intros db uid user address phone pm now
      Haddr Hphone Hpm Huser Hcart Hnone Htaken.
    assert (Hpm' : pm ≠ "").
    { intros ->. apply list_elem_of_In in Hpm. simpl in Hpm.
      intuition discriminate. }
    unfold checkout.
    rewrite (decide_False (P := address = "" ∨ phone = "" ∨ pm = "")) by tauto.
    rewrite (decide_False (P := pm ∉ paymentMethods)) by auto.
    rewrite Huser.
    rewrite (decide_False (P := cartData user = ∅)) by done.
    destruct (checkoutItems _ _) as [updatedItems totalAmount]. simpl.
    rewrite (findUserById_id _ _ _ Huser), Hnone.
    unfold createOrder, insertOrder. simpl.
    repeat case_decide; done.
Qed.

(** After the first of two cancelled orders was deleted, the sample
    customer's next addition fails and only the cart is written. *)
Lemma order_number_taken_after_delete_witness :
  addtocart 7 {| b_itemId := 1; b_quantity := 1; b_size := "M";
                 b_paymentMethod := "cash" |} today dbRenumbered
  = (fail 500,
     setUsers dbRenumbered
       (saveUser (setCartData alice (addtocartCart (cartData alice) 1 "M" 1))
          (users dbRenumbered))).
Proof.
  apply (proj1 (proj2 order_number_taken_after_delete)
           dbRenumbered 7%nat alice P1
           {| b_itemId := 1; b_quantity := 1; b_size := "M";
              b_paymentMethod := "cash" |} today).
  - vm_compute. reflexivity.
  - reflexivity.
  - simpl. lia.
  - simpl. lia.
  - discriminate.
  - discriminate.
  - apply (bool_decide_unpack _). vm_compute. exact I.
  - apply (bool_decide_unpack _). vm_compute. exact I.
  - vm_compute. reflexivity.
  - apply (bool_decide_unpack _). vm_compute. exact I.
Defined.

(** ** The quantity route and the pending order *)

Lemma list_find_insert_same {A} (P : A → Prop) `{∀ x, Decision (P x)}
    (l : list A) i x y :
  list_find P l = Some (i, x) → P y →
  list_find P (<[i:=y]> l) = Some (i, y).
Proof.
  intros Hfind Hy. apply list_find_Some in Hfind as (Hl & _ & Hlt).
  apply list_find_Some. split; [|split; [done|]].
  - apply list_lookup_insert_eq. by eapply lookup_lt_Some.
  - intros j z Hj Hji. rewrite list_lookup_insert_ne in Hj by lia. eauto.
Qed.

Lemma list_find_snoc {A} (P : A → Prop) `{∀ x, Decision (P x)}
    (l : list A) y :
  list_find P l = None → P y →
  list_find P (l ++ [y]) = Some (length l, y).
Proof.
  intros Hnone Hy. apply list_find_None in Hnone.
  apply list_find_Some. split; [|split; [done|]].
  - rewrite lookup_app_r by lia. by rewrite Nat.sub_diag.
  - intros j z Hj Hlt. rewrite lookup_app_l in Hj by done.
    eapply Forall_lookup_1 in Hnone; eauto.
Qed.

(** X5.  [/updatecartquantity] takes a delta but writes absolute values.
    With [newQuantity = currentQuantity + quantity] positive and the price
    defined, the cart line and the first order item of that product and size
    both end at [newQuantity], the item's total is the product's price now
    times [newQuantity], the order stays pending and its total is the sum of
    its items.  With [newQuantity = 0] the cart line is removed and the
    order loses that item (an order left without items is stored
    cancelled). *)
Theorem updatecartquantity_writes_absolute_quantity :
  ∀ (db : Db) (uid : nat) (user : User) (product : Product) (o : Order)
    (itemId : Z) (sz : string) (qty : Z),
    itemId ≠ 0 →
    findUserById uid (users db) = Some user →
    findProduct itemId (products db) = Some product →
    findPendingOrder uid (orders db) = Some o →
    let newQuantity := cartQuantity (cartData user) itemId sz + qty in
    let r := updatecartquantity uid itemId sz qty db in
    let matches := fun item : OrderItem => productId item = itemId ∧ size item = sz in
    (∀ p, newQuantity > 0 → productPriceOpt product = Some p →
       r.1 = ok ∧
       (∃ user', findUserById uid (users r.2) = Some user' ∧
                 cartLine (cartData user') itemId sz = Some newQuantity) ∧
       ∃ o' i item,
         findOrderById (o_id o) (orders r.2) = Some o' ∧
         status o' = pending ∧
         total o' = sum_itemTotal (items o') ∧
         list_find matches (items o') = Some (i, item) ∧
         quantity item = newQuantity ∧
         itemTotal item = p * newQuantity) ∧
    (newQuantity = 0 →
       r.1 = ok ∧
       (∃ user', findUserById uid (users r.2) = Some user' ∧
                 cartLine (cartData user') itemId sz = None) ∧
       ∃ o',
         findOrderById (o_id o) (orders r.2) = Some o' ∧
         items o' = match list_find matches (items o) with
                    | Some (i, _) => delete i (items o)
                    | None => items o
                    end ∧
         total o' = sum_itemTotal (items o') ∧
         status o' = (if decide (items o' = []) then cancelled else pending)).
Proof.
  intros db uid user product o itemId sz qty Hid Huser Hprod Hfind
    newQuantity r matches.
  pose proof (findPendingOrder_spec _ _ _ Hfind) as (Hin & Huid & Hst).
  pose proof (findUserById_id _ _ _ Huser) as Hu.
  assert (Hcart : 0 ≤ newQuantity →
    findUserById uid (users r.2)
    = Some (setCartData user
              (updatecartquantityCart (cartData user) itemId sz newQuantity)))
    by (intros; by apply (updatecartquantity_cart db uid user product)).
  assert (Hrun : ∀ its, 0 ≤ newQuantity →
    setItemQuantity product itemId sz newQuantity (items o) = Some its →
    r.1 = ok ∧
    findOrderById (o_id o) (orders r.2) = Some (recalculate (setItems o its))).
  { intros its Hge Hset. subst r. unfold updatecartquantity.
    rewrite (decide_False (P := itemId = 0)) by done.
    rewrite Huser, Hprod. fold newQuantity.
    rewrite (decide_False (P := newQuantity < 0)) by lia.
    cbv zeta. simpl. rewrite Hu, Hfind, Hset. simpl. split; [done|].
    apply findOrderById_In_save; [done|]. by rewrite o_id_recalculate. }
  split.
  - intros p Hpos Hp.
    assert (∃ its i item,
      setItemQuantity product itemId sz newQuantity (items o) = Some its ∧
      list_find matches its = Some (i, item) ∧
      quantity item = newQuantity ∧ itemTotal item = p * newQuantity)
      as (its & i & item & Hset & Hfound & Hq & Ht).
    { unfold setItemQuantity. fold matches.
      destruct (list_find matches (items o)) as [[i item]|] eqn:Hlf.
      - rewrite decide_False by lia. rewrite Hp. simpl.
        eexists _, i, _. split; [done|]. split.
        { apply (list_find_insert_same matches _ _ item); [done|].
          apply list_find_Some in Hlf as (_ & Hm & _). exact Hm. }
        split; reflexivity.
      - rewrite decide_True by lia. rewrite Hp. simpl.
        eexists _, _, _. split; [done|]. split.
        { by apply list_find_snoc. }
        split; reflexivity. }
    destruct (Hrun its) as [Hok Hstored]; [lia|done|].
    split; [done|]. split.
    + eexists. split; [apply Hcart; lia|]. simpl.
      rewrite updatecartquantityCart_same. by rewrite decide_False by lia.
    + exists (recalculate (setItems o its)), i, item.
      rewrite status_recalculate, total_recalculate, items_recalculate. simpl.
      split; [done|]. split.
      { rewrite decide_False; [done|]. intros ->. done. }
      done.
  - intros Hzero.
    set (its := match list_find matches (items o) with
                | Some (i, _) => delete i (items o)
                | None => items o
                end).
    assert (Hset : setItemQuantity product itemId sz newQuantity (items o) = Some its).
    { unfold setItemQuantity, its. fold matches.
      destruct (list_find matches (items o)) as [[i item]|].
      - by rewrite decide_True by lia.
      - by rewrite decide_False by lia. }
    destruct (Hrun its) as [Hok Hstored]; [lia|done|].
    split; [done|]. split.
    + eexists. split; [apply Hcart; lia|]. simpl.
      rewrite updatecartquantityCart_same. by rewrite decide_True by lia.
    + exists (recalculate (setItems o its)).
      rewrite status_recalculate, total_recalculate, items_recalculate. simpl.
      by rewrite Hst.
Qed.

(** The sample customer raises the line of Scenario B by two through the
    quantity route. *)
Lemma updatecartquantity_writes_absolute_quantity_witness :
  (updatecartquantity 7 1 "M" 2 dbB).1 = ok.
Proof.
  destruct (updatecartquantity_writes_absolute_quantity dbB 7%nat aliceB P1 orderB
              1 "M" 2) as [Hpos _].
  - lia.
  - vm_compute. reflexivity.
  - reflexivity.
  - vm_compute. reflexivity.
  - destruct (Hpos 100) as [Hok _].
    + vm_compute. reflexivity.
    + reflexivity.
    + exact Hok.
Defined.

(** ** Adding to an order that was checked out *)

Lemma checkout_products uid address phone pm now db :
  products (checkout uid address phone pm now db).2 = products db.
Proof.
  unfold checkout, createOrder.
  repeat first [case_decide | case_match]; simpl in *; try done;
    simplify_option_eq; done.
Qed.

(** [/addtocart] with a positive quantity for a line that the user's pending
    order already has. *)
Lemma addtocart_merges_into_item db uid user product o i item body now :
  findUserById uid (users db) = Some user →
  findProduct (b_itemId body) (products db) = Some product →
  findPendingOrder uid (orders db) = Some o →
  list_find (fun it => productId it = b_itemId body ∧ size it = b_size body)
    (items o) = Some (i, item) →
  b_itemId body ≠ 0 → b_quantity body > 0 →
  b_size body ≠ "" → b_size body ≠ "default" →
  b_size body ∈ availableSizes product →
  normalizePaymentMethod
    (if decide (b_paymentMethod body = "") then "cash_on_delivery"
     else b_paymentMethod body) ∈ paymentMethods →
  let r := addtocart uid body now db in
  r.1 = ok ∧
  findUserById uid (users r.2)
  = Some (setCartData user
            (addtocartCart (cartData user) (b_itemId body) (b_size body)
               (b_quantity body))) ∧
  ∃ o', findPendingOrder uid (orders r.2) = Some o' ∧
        o_id o' = o_id o ∧
        items o'
        = <[i := {| productId := productId item; productName := productName item;
                    quantity := quantity item + b_quantity body;
                    price := price item; size := size item;
                    itemTotal := itemTotal item
                                 + productPrice product * Z.abs (b_quantity body);
                    item_status := item_status item |}]> (items o).
Proof.
  intros Huser Hprod Hfind Hlf Hid Hqty Hsz1 Hsz2 Hsz3 Hpm r.
  pose proof (findPendingOrder_spec _ _ _ Hfind) as (Hin & Huid & Hst).
  pose proof (findUserById_id _ _ _ Huser) as Hu.
  pose proof (findProduct_id _ _ _ Hprod) as Hp.
  destruct (addtocart_cart db uid user product body now) as [_ Hcart];
    try done; [lia|].
  subst r. split; [|split; [exact Hcart|]]; clear Hcart.
  all: rewrite (addtocart_accepted db uid user product) by (try done; lia).
  all: cbv zeta; unfold createOrUpdateOrder; simpl.
  all: rewrite Hu, Hfind.
  all: unfold mergeItem; rewrite Hp, Hlf.
  all: rewrite (decide_True (P := "add" = "add" ∧ b_quantity body > 0))
         by (split; [done|lia]).
  all: set (its := <[i := _]> (items o)).
  all: assert (Hne : its ≠ []) by
         (intros Hnil; apply list_find_Some in Hlf as (Hl & _);
          apply lookup_lt_Some in Hl;
          apply (f_equal length) in Hnil; unfold its in Hnil;
          rewrite length_insert in Hnil; simpl in Hnil; lia).
  all: set (pm' := normalizePaymentMethod _) in *.
  all: set (modified := bool_decide _).
  all: set (o2 := if modified then _ else _).
  all: assert (Hitems : items o2 = its) by (unfold o2; by destruct modified).
  all: assert (Hok : (modified && bool_decide (paymentMethod (recalculate o2) ∉ paymentMethods))
                     = false) by
         (destruct modified eqn:Hm; [|done]; simpl;
          apply bool_decide_eq_false_2; intros Hnot; apply Hnot;
          rewrite paymentMethod_recalculate; unfold o2; simpl; exact Hpm).
  all: rewrite Hok; simpl.
  - done.
  - exists (recalculate o2).
    rewrite o_id_recalculate, items_recalculate.
    assert (Hid2 : o_id o2 = o_id o) by (unfold o2; by destruct modified).
    split; [|by rewrite Hid2, Hitems].
    apply (findPendingOrder_save _ _ o); [done|by rewrite o_id_recalculate|].
    unfold pendingOf.
    rewrite userId_recalculate, status_recalculate.
    rewrite decide_False by (by rewrite Hitems).
    assert (userId o2 = uid ∧ status o2 = pending) as [-> ->]
      by (unfold o2; by destruct modified).
    by rewrite !bool_decide_eq_true_2.
Qed.

(** X6.  [/checkout] leaves the order pending, so it is still the order that
    [/addtocart] reconciles.  After a checkout, adding [q > 0] units of a
    line that was checked out with quantity [qty] stores a cart with that
    one line at [q], while the order gets no new item: its ['checkedout']
    item for the line grows to [qty + q]. *)
Theorem addtocart_after_checkout_grows_checkedout_item :
  ∀ (db : Db) (uid : nat) (user : User) (product : Product)
    (address phone pm : string) (body : AddToCartBody) (qty : Z)
    (now now' : Date),
    address ≠ "" → phone ≠ "" → pm ∈ paymentMethods →
    findUserById uid (users db) = Some user →
    is_Some (findPendingOrder uid (orders db)) ∨
      S (length (orders db)) ∉ List.map orderId (orders db) →
    findProduct (b_itemId body) (products db) = Some product →
    cartLine (cartData user) (b_itemId body) (b_size body) = Some qty →
    qty > 0 →
    b_itemId body ≠ 0 → b_quantity body > 0 →
    b_size body ≠ "" → b_size body ≠ "default" →
    b_size body ∈ availableSizes product →
    normalizePaymentMethod
      (if decide (b_paymentMethod body = "") then "cash_on_delivery"
       else b_paymentMethod body) ∈ paymentMethods →
    let db1 := (checkout uid address phone pm now db).2 in
    let r := addtocart uid body now' db1 in
    r.1 = ok ∧
    (∃ user', findUserById uid (users r.2) = Some user' ∧
              ∀ k sz, cartLine (cartData user') k sz
                      = if decide ((k, sz) = (b_itemId body, b_size body))
                        then Some (b_quantity body) else None) ∧
    ∃ o' i item,
      findPendingOrder uid (orders r.2) = Some o' ∧
      length (items o')
      = length (cartItemsOf (products db) (cartEntries (cartData user))) ∧
      list_find (fun it => productId it = b_itemId body ∧ size it = b_size body)
        (items o') = Some (i, item) ∧
      item_status item = checkedout ∧
      quantity item = qty + b_quantity body.
Proof.
  intros db uid user product address phone pm body qty now now'
    Haddr Hphone Hpm Huser Hcan Hprod Hline Hqty Hid Hq Hsz1 Hsz2 Hsz3 Hpm'
    db1 r.
  assert (Hcart : cartData user ≠ ∅).
  { intros Hempty. rewrite Hempty in Hline. by rewrite cartLine_empty in Hline. }
  destruct (checkout_accepted db uid user address phone pm now)
    as (_ & Huser1 & o1 & Hfind1 & Hitems1 & _); try done.
  fold db1 in Huser1, Hfind1.
  set (matches := fun it : OrderItem =>
                    productId it = b_itemId body ∧ size it = b_size body).
  set (its := cartItemsOf (products db) (cartEntries (cartData user))) in *.
  assert (Hmem : In (checkedoutItem product (b_itemId body) (b_size body, qty)) its).
  { apply In_cartItemsOf. by exists (b_itemId body), (b_size body), qty, product. }
  destruct (list_find_elem_of matches its _ ltac:(by apply list_elem_of_In)
              ltac:(done)) as [[i item] Hlf].
  assert (Hitem : item_status item = checkedout ∧ quantity item = qty).
  { apply list_find_Some in Hlf as (Hl & [Hm1 Hm2] & _).
    apply list_elem_of_lookup_2, list_elem_of_In, In_cartItemsOf in Hl
      as (pid0 & sz0 & qty0 & product0 & Hl0 & _ & _ & ->).
    simpl in Hm1, Hm2. subst pid0 sz0. split; [done|]. simpl. congruence. }
  destruct (addtocart_merges_into_item db1 uid (setCartData user ∅) product o1
              i item body now') as (Hok & Hu2 & o2 & Hfind2 & _ & Hitems2);
    try done.
  { unfold db1. by rewrite checkout_products. }
  { by rewrite Hitems1. }
  fold r in Hok, Hu2, Hfind2.
  split; [done|]. split.
  - eexists. split; [exact Hu2|]. intros k sz. simpl.
    destruct (decide ((k, sz) = (b_itemId body, b_size body))) as [Hk|Hk].
    + injection Hk as -> ->.
      rewrite addtocartCart_same. unfold cartQuantity.
      rewrite cartLine_empty. simpl. by rewrite decide_False by lia.
    + rewrite addtocartCart_other by done. apply cartLine_empty.
  - eexists o2, i, _. split; [done|]. rewrite Hitems2, Hitems1. split.
    { by rewrite length_insert. }
    split.
    { apply (list_find_insert_same matches _ _ item); [done|].
      apply list_find_Some in Hlf as (_ & Hm & _). exact Hm. }
    simpl. destruct Hitem as [-> ->]. done.
Qed.

(** The sample customer checks out the three units of Scenario B and then
    adds one more of the same line. *)
Lemma addtocart_after_checkout_grows_checkedout_item_witness :
  (addtocart 7 {| b_itemId := 1; b_quantity := 1; b_size := "M";
                  b_paymentMethod := "" |} today
     (checkout 7 "12 Nile St" "0100" "cash_on_delivery" today dbB).2).1 = ok.
Proof.
  destruct (addtocart_after_checkout_grows_checkedout_item dbB 7%nat aliceB P1
              "12 Nile St" "0100" "cash_on_delivery"
              {| b_itemId := 1; b_quantity := 1; b_size := "M";
                 b_paymentMethod := "" |} 3 today today) as [Hok _].
  - discriminate.
  - discriminate.
  - apply (bool_decide_unpack _). vm_compute. exact I.
  - vm_compute. reflexivity.
  - left. vm_compute. eexists. reflexivity.
  - reflexivity.
  - vm_compute. reflexivity.
  - lia.
  - simpl. lia.
  - simpl. lia.
  - discriminate.
  - discriminate.
  - apply (bool_decide_unpack _). vm_compute. exact I.
  - apply (bool_decide_unpack _). vm_compute. exact I.
  - exact Hok.
Defined.

(** ** Customer requests and closed orders *)

Lemma length_saveUser u' us : length (saveUser u' us) = length us.
Proof.
  induction us as [|x rest IH]; simpl; [done|].
  case_bool_decide; simpl; [done|by rewrite IH].
Qed.

Lemma In_saveOrder_other o' os x :
  In x os → o_id x ≠ o_id o' → In x (saveOrder o' os).
Proof.
  intros Hin Hne. induction os as [|y rest IH]; simpl in *; [done|].
  case_bool_decide as Hy.
  - destruct Hin as [->|Hin]; [done|by right].
  - destruct Hin as [->|Hin]; [by left|right; auto].
Qed.

Lemma NoDup_ids_eq os x y :
  NoDup (List.map o_id os) → In x os → In y os → o_id x = o_id y → x = y.
Proof.
  induction os as [|z rest IH]; simpl; [done|].
  intros [Hz Hnd]%NoDup_cons [->|Hx] [->|Hy] Heq; try done.
  - exfalso. apply Hz. rewrite Heq. by apply list_elem_of_In, in_map.
  - exfalso. apply Hz. rewrite <- Heq. by apply list_elem_of_In, in_map.
  - by apply IH.
Qed.

Lemma filter_saveOrder_neither (P : Order → bool) o o' os :
  NoDup (List.map o_id os) → In o os → o_id o' = o_id o →
  P o = false → P o' = false →
  List.filter P (saveOrder o' os) = List.filter P os.
Proof.
  intros Hnd Hin Hid Ho Ho'. induction os as [|x rest IH]; simpl in *; [done|].
  apply NoDup_cons in Hnd as [Hx Hnd].
  case_bool_decide as Hxid; simpl.
  - assert (x = o) as ->.
    { destruct Hin as [->|Hin]; [done|]. exfalso. apply Hx.
      rewrite Hxid, Hid. by apply list_elem_of_In, in_map. }
    by rewrite Ho, Ho'.
  - destruct Hin as [->|Hin]; [congruence|]. by rewrite IH.
Qed.

(** What a customer request does to the three collections it can reach. *)
Lemma createOrUpdateOrder_customer user product qty sz pm action now db db' :
  createOrUpdateOrder user product qty sz pm action now db = Some db' →
  orders db' = orders db ∨
  (∃ o o', In o (orders db) ∧ status o = pending ∧ o_id o' = o_id o ∧
           status o' ≠ delivered ∧ orders db' = saveOrder o' (orders db)) ∨
  (∃ o, status o = pending ∧ orders db' = orders db ++ [o]).
Proof.
  unfold createOrUpdateOrder, createOrder.
  destruct (findPendingOrder (u_id user) (orders db)) as [order|] eqn:Hfind.
  - apply findPendingOrder_spec in Hfind as (Hin & Hu & Hst).
    case_match; [done|]. intros [= <-]. right. left.
    eexists order, _. split; [done|]. split; [done|]. split; [|split];
      [| |simpl; reflexivity].
    + rewrite o_id_recalculate. by destruct (bool_decide _).
    + rewrite status_recalculate.
      destruct (decide (items _ = [])); [done|].
      destruct (bool_decide _); simpl; by rewrite Hst.
  - case_decide; [|intros [= <-]; by left].
    unfold insertOrder. simpl.
    repeat case_decide; simpl; try done.
    intros [= <-]. right. right. eexists. split; [|simpl; reflexivity]. done.
Qed.

Lemma customer_orders now req db :
  customerRequest req = true →
  orders (step now req db) = orders db ∨
  (∃ o o', In o (orders db) ∧ status o = pending ∧ o_id o' = o_id o ∧
           status o' ≠ delivered ∧
           orders (step now req db) = saveOrder o' (orders db)) ∨
  (∃ o, status o = pending ∧ orders (step now req db) = orders db ++ [o]).
Proof.
  intros Hreq. unfold step, handle.
  destruct req as [uid body|uid itemId sz qty|uid|uid address phone pm|uid pm
                  |oid st|oid|oid np]; try done.
  - unfold addtocart.
    repeat (case_decide; [by left|]).
    destruct (findProduct _ _) as [product|]; [|by left].
    repeat (case_decide; [by left|]).
    destruct (findUserById uid (users db)) as [user|]; [|by left].
    destruct (createOrUpdateOrder _ _ _ _ _ _ _ _) as [db2|] eqn:E; simpl;
      [|by left].
    by apply createOrUpdateOrder_customer in E.
  - unfold updatecartquantity.
    case_decide; [by left|].
    destruct (findUserById uid (users db)) as [user|]; [|by left].
    destruct (findProduct _ _) as [product|]; [|by left].
    case_decide; [by left|]. simpl.
    destruct (findPendingOrder _ _) as [order|] eqn:Hfind; [|by left].
    apply findPendingOrder_spec in Hfind as (Hin & Hu & Hst).
    destruct (setItemQuantity _ _ _ _ _) as [its|]; [|by left].
    right. left. eexists order, _.
    split; [done|]. split; [done|]. split; [|split]; [| |simpl; reflexivity].
    + by rewrite o_id_recalculate.
    + rewrite status_recalculate.
      destruct (decide (items _ = [])); [done|]. simpl. by rewrite Hst.
  - unfold clearcart.
    destruct (findUserById uid (users db)) as [user|]; [|by left].
    simpl.
    destruct (findPendingOrder _ _) as [order|] eqn:Hfind; [|by left].
    apply findPendingOrder_spec in Hfind as (Hin & Hu & Hst).
    right. left. eexists order, _.
    split; [done|]. split; [done|]. split; [|split]; [| |simpl; reflexivity];
      done.
  - unfold checkout.
    repeat (case_decide; [by left|]).
    destruct (findUserById uid (users db)) as [user|]; [|by left].
    case_decide; [by left|].
    destruct (checkoutItems _ _) as [updatedItems totalAmount]. simpl.
    destruct (findPendingOrder _ _) as [order|] eqn:Hfind.
    + apply findPendingOrder_spec in Hfind as (Hin & Hu & Hst).
      right. left. eexists order, _.
      split; [done|]. split; [done|]. split; [|split]; [| |simpl; reflexivity];
        simpl; [done|by rewrite Hst].
    + unfold createOrder, insertOrder. simpl.
      repeat case_decide; simpl; try by left.
      right. right. eexists. split; [|simpl; reflexivity]. done.
  - unfold createorder.
    destruct (findPendingOrder _ _) as [order|] eqn:Hfind; [|by left].
    apply findPendingOrder_spec in Hfind as (Hin & Hu & Hst).
    case_decide; [by left|].
    destruct (findUserById uid _) as [user|]; simpl;
      (right; left; eexists order, _;
       split; [done|]; split; [done|]; split; [|split];
       [| |simpl; reflexivity]; done).
Qed.

Lemma customer_catalog_and_accounts now req db :
  customerRequest req = true →
  products (step now req db) = products db ∧
  length (users (step now req db)) = length (users db).
Proof.
  intros Hreq. unfold step, handle.
  destruct req as [uid body|uid itemId sz qty|uid|uid address phone pm|uid pm
                  |oid st|oid|oid np]; try done.
  - unfold addtocart.
    repeat (case_decide; [done|]).
    destruct (findProduct _ _) as [product|]; [|done].
    repeat (case_decide; [done|]).
    destruct (findUserById uid (users db)) as [user|]; [|done].
    destruct (createOrUpdateOrder _ _ _ _ _ _ _ _) as [db2|] eqn:E; simpl.
    + apply createOrUpdateOrder_frame in E as [-> ->]. simpl.
      by rewrite length_saveUser.
    + by rewrite length_saveUser.
  - unfold updatecartquantity.
    repeat first [case_decide | case_match]; simpl;
      rewrite ?length_saveUser; done.
  - unfold clearcart.
    repeat first [case_decide | case_match]; simpl;
      rewrite ?length_saveUser; done.
  - unfold checkout, createOrder.
    repeat first [case_decide | case_match]; simpl in *;
      simplify_option_eq; rewrite ?length_saveUser; done.
  - unfold createorder.
    repeat first [case_decide | case_match]; simpl;
      rewrite ?length_saveUser; done.
Qed.

(** X7.  Customers can only reach their pending order.  Whatever request a
    customer sends, every order that is not pending stays in the collection
    as it is, and the figures of [/admin/metrics] (product and user counts,
    number and summed total of the delivered orders) are unchanged. *)
Theorem customer_requests_leave_closed_orders :
  ∀ (now : Date) (req : Request) (db : Db),
    NoDup (List.map o_id (orders db)) →
    customerRequest req = true →
    (∀ o, In o (orders db) → status o ≠ pending →
          In o (orders (step now req db))) ∧
    adminMetrics (step now req db) = adminMetrics db.
Proof.
  intros now req db Hnd Hreq.
  destruct (customer_catalog_and_accounts now req db Hreq) as [Hps Hus].
  assert (Hdel : deliveredOrders (orders (step now req db))
                 = deliveredOrders (orders db) ∧
                 ∀ o, In o (orders db) → status o ≠ pending →
                      In o (orders (step now req db))).
  { destruct (customer_orders now req db Hreq)
      as [->|[(o & o' & Hin & Hst & Hid & Hst' & ->)|(o & Hst & ->)]].
    - done.
    - split.
      + apply (filter_saveOrder_neither _ o); try done.
        * apply bool_decide_eq_false_2. by rewrite Hst.
        * by apply bool_decide_eq_false_2.
      + intros x Hx Hclosed. apply In_saveOrder_other; [done|].
        rewrite Hid. intros Heq.
        apply (NoDup_ids_eq _ _ _ Hnd Hx Hin) in Heq. congruence.
    - split.
      + unfold deliveredOrders. rewrite List.filter_app. simpl.
        rewrite bool_decide_eq_false_2 by (by rewrite Hst).
        by rewrite app_nil_r.
      + intros x Hx _. apply in_or_app. by left. }
  destruct Hdel as [Hdel Hkeep]. split; [done|].
  unfold adminMetrics. by rewrite Hps, Hus, Hdel.
Qed.

(** Clearing the cart of Scenario B changes no dashboard figure. *)
Lemma customer_requests_leave_closed_orders_witness :
  adminMetrics (step today (ClearCart 7) dbB) = adminMetrics dbB.
Proof.
  apply (customer_requests_leave_closed_orders today (ClearCart 7) dbB).
  - exact (proj1 wfOrders_dbB).
  - reflexivity.
Defined.

(** ** Order identifiers *)

Lemma uint_of_string_padding k s :
  Nat.of_uint <$> DecimalString.NilEmpty.uint_of_string (repeatChar k "0"%char +:+ s)
  = Nat.of_uint <$> DecimalString.NilEmpty.uint_of_string s.
Proof.
  induction k as [|k IH]; [done|].
  change (repeatChar (S k) "0"%char +:+ s)
    with (String "0"%char (repeatChar k "0"%char +:+ s)).
  cbn [DecimalString.NilEmpty.uint_of_string].
  destruct (DecimalString.NilEmpty.uint_of_string (repeatChar k "0"%char +:+ s))
    as [d|] eqn:Hd;
    destruct (DecimalString.NilEmpty.uint_of_string s) as [d'|] eqn:Hd';
    simpl in *; done.
Qed.

(** X8.  Order identifiers can be read back: the number of
    ["ORD" + String(n).padStart(6, '0')] is [n], also beyond six digits, so
    two counts give the same identifier only when they are equal and the
    unique index on [orderId] is an index on [count + 1]. *)
Theorem generateOrderId_injective :
  (∀ count, orderIdNumber (generateOrderId count) = Some (S count)) ∧
  (∀ count count', generateOrderId count = generateOrderId count' ↔ count = count') ∧
  (∀ count, (9 ≤ String.length (generateOrderId count))%nat).
Proof.
  assert (Hread : ∀ count, orderIdNumber (generateOrderId count) = Some (S count)).
  { intros count. unfold generateOrderId, orderIdString, padStart.
    set (digits := repeatChar _ _ +:+ _).
    change (Nat.of_uint <$> DecimalString.NilEmpty.uint_of_string digits
            = Some (S count)).
    subst digits. rewrite uint_of_string_padding.
    unfold String_of_nat. rewrite DecimalString.NilEmpty.usu. simpl.
    rewrite DecimalNat.Unsigned.of_to. f_equal. lia. }
  split; [done|]. split.
  - intros count count'. split; [|by intros ->].
    intros Heq. pose proof (Hread count) as H1. rewrite Heq, Hread in H1.
    by injection H1.
  - intros count. unfold generateOrderId, orderIdString, padStart.
    set (s := String_of_nat (count + 1)).
    change (9 ≤ S (S (S (String.length
                           (repeatChar (6 - String.length s) "0"%char +:+ s)))))%nat.
    assert (Hlen : ∀ k, String.length (repeatChar k "0"%char +:+ s)
                        = (k + String.length s)%nat).
    { induction k as [|k IH]; simpl; [done|by rewrite IH]. }
    rewrite Hlen. lia.
Qed.

(** ** Brute-force protection *)

Lemma login_found compare us email i u now pw :
  list_find (fun user => a_email user = email) us = Some (i, u) →
  isActive u = true →
  login compare email pw now us
  = if isLocked now u then (403%nat, us)
    else if compare pw (a_password u)
         then (200%nat, <[i := {| a_email := a_email u; a_password := a_password u;
                                  isActive := isActive u; loginAttempts := 0;
                                  lockUntil := None |}]> us)
         else (401%nat, <[i := recordFailure now u]> us).
Proof.
  intros Hfind Hactive. unfold login, failedLogin, resetLoginAttempts.
  assert (list_find (fun user => a_email user = email ∧ isActive user = true) us
          = Some (i, u)) as ->.
  { apply list_find_Some in Hfind as (Hl & He & Hlt).
    apply list_find_Some. split; [done|]. split; [done|].
    intros j y Hj Hji [Hy _]. by eapply Hlt. }
  by rewrite Hfind.
Qed.

(** Wrong passwords against an account that is not locked and stays below
    the threshold: each is answered 401 and counted. *)
Lemma loginRun_counts_failures compare email i attempts :
  ∀ us u,
    list_find (fun user => a_email user = email) us = Some (i, u) →
    isActive u = true → lockUntil u = None →
    loginAttempts u + Z.of_nat (length attempts) < 5 →
    Forall (fun a => compare a.2 (a_password u) = false) attempts →
    ∃ us' u',
      loginRun compare email attempts us
      = (replicate (length attempts) 401%nat, us') ∧
      list_find (fun user => a_email user = email) us' = Some (i, u') ∧
      a_password u' = a_password u ∧ isActive u' = true ∧
      lockUntil u' = None ∧
      loginAttempts u' = loginAttempts u + Z.of_nat (length attempts).
Proof.
  induction attempts as [|[now pw] rest IH]; intros us u Hfind Hactive Hlock Hlt Hwrong.
  - exists us, u. simpl. repeat split; try done. lia.
  - apply Forall_cons in Hwrong as [Hpw Hwrong]. simpl in Hpw.
    simpl length in Hlt.
    destruct (IH (<[i := recordFailure now u]> us) (recordFailure now u))
      as (us' & u' & Hrun & Hfind' & Hpw' & Hact' & Hlock' & Hcount).
    + apply (list_find_insert_same _ _ _ u); [done|].
      simpl. by apply list_find_Some in Hfind as (_ & He & _).
    + done.
    + simpl. rewrite decide_False; [done|]. intros [? _]. lia.
    + simpl. lia.
    + done.
    + exists us', u'. simpl loginRun.
      rewrite (login_found compare us email i u) by done.
      unfold isLocked. rewrite Hlock, Hpw, Hrun. simpl in *.
      repeat split; try done. lia.
Qed.

(** X9.  The account is locked by the failure that brings the counter to
    five: wrong passwords are answered 401 until then, the lock lasts 15
    minutes from that failure, until it ends every login is refused with
    403 without a write, the right password included, and from its end on
    the right password is accepted and clears counter and lock. *)
Theorem fifth_failed_login_locks_the_account :
  ∀ (compare : string → string → bool) (us : list Account) (email : string)
    (i : nat) (u : Account) (attempts : list (Z * string)) (t5 : Z)
    (pw5 : string),
    list_find (fun user => a_email user = email) us = Some (i, u) →
    isActive u = true → lockUntil u = None →
    loginAttempts u + Z.of_nat (length attempts) = 4 →
    Forall (fun a => compare a.2 (a_password u) = false)
      (attempts ++ [(t5, pw5)]) →
    let r := loginRun compare email (attempts ++ [(t5, pw5)]) us in
    r.1 = replicate (S (length attempts)) 401%nat ∧
    ∃ u',
      list_find (fun user => a_email user = email) r.2 = Some (i, u') ∧
      loginAttempts u' = 5 ∧
      lockUntil u' = Some (t5 + 900000) ∧
      (∀ t pw, t < t5 + 900000 → login compare email pw t r.2 = (403%nat, r.2)) ∧
      (∀ t pw, t5 + 900000 ≤ t → compare pw (a_password u) = true →
         ∃ us'' u'',
           login compare email pw t r.2 = (200%nat, us'') ∧
           list_find (fun user => a_email user = email) us'' = Some (i, u'') ∧
           loginAttempts u'' = 0 ∧ lockUntil u'' = None).
Proof.
  intros compare us email i u attempts t5 pw5 Hfind Hactive Hlock Hcount Hwrong r.
  apply Forall_app in Hwrong as [Hwrong Hlast].
  rewrite Forall_singleton in Hlast. simpl in Hlast.
  destruct (loginRun_counts_failures compare email i attempts us u)
    as (us1 & u1 & Hrun & Hfind1 & Hpw1 & Hact1 & Hlock1 & Hcount1);
    try done; [lia|].
  assert (Happ : ∀ l1 l2 us0,
    loginRun compare email (l1 ++ l2) us0
    = ((loginRun compare email l1 us0).1
         ++ (loginRun compare email l2 (loginRun compare email l1 us0).2).1,
       (loginRun compare email l2 (loginRun compare email l1 us0).2).2)).
  { induction l1 as [|[now pw] l1 IH]; intros l2 us0; simpl.
    - by destruct (loginRun compare email l2 us0).
    - destruct (login compare email pw now us0) as [st us0'].
      rewrite IH.
      destruct (loginRun compare email l1 us0') as [sts us0'']. simpl.
      by destruct (loginRun compare email l2 us0''). }
  assert (Hemail : a_email u1 = email)
    by (by apply list_find_Some in Hfind1 as (_ & He & _)).
  set (u5 := recordFailure t5 u1).
  assert (Hr : r = (replicate (S (length attempts)) 401%nat, <[i := u5]> us1)).
  { subst r. rewrite Happ, Hrun. simpl.
    rewrite (login_found compare us1 email i u1) by done.
    unfold isLocked. rewrite Hlock1, Hpw1, Hlast. simpl. f_equal.
    change (401%nat :: replicate (length attempts) 401%nat)
      with (replicate (S (length attempts)) 401%nat).
    by rewrite replicate_S_end. }
  rewrite Hr. simpl. split; [done|].
  assert (Hfind5 : list_find (fun user => a_email user = email) (<[i := u5]> us1)
                   = Some (i, u5))
    by (by apply (list_find_insert_same _ _ _ u1)).
  assert (Hlock5 : lockUntil u5 = Some (t5 + 900000)).
  { unfold u5. simpl. by rewrite decide_True by (split; [lia|done]). }
  exists u5. split; [done|]. split; [simpl; lia|]. split; [done|]. split.
  - intros t pw Ht. rewrite (login_found compare _ email i u5) by done.
    unfold isLocked. rewrite Hlock5. by rewrite bool_decide_eq_true_2 by lia.
  - intros t pw Ht Hpw. eexists _, _.
    rewrite (login_found compare _ email i u5) by done.
    unfold isLocked. rewrite Hlock5. rewrite bool_decide_eq_false_2 by lia.
    change (a_password u5) with (a_password u1). rewrite Hpw1, Hpw.
    split; [done|]. split.
    { by apply (list_find_insert_same _ _ _ u5). }
    done.
Qed.

(** Five wrong guesses against the sample account. *)
Lemma fifth_failed_login_locks_the_account_witness :
  (loginRun String.eqb "bob@example.com"
     [(1000, "a"); (2000, "b"); (3000, "c"); (4000, "d"); (5000, "e")]
     [bob]).1
  = replicate 5 401%nat.
Proof.
  destruct (fifth_failed_login_locks_the_account String.eqb [bob]
              "bob@example.com" 0%nat bob
              [(1000, "a"); (2000, "b"); (3000, "c"); (4000, "d")] 5000 "e")
    as [Hsts _].
  - vm_compute. reflexivity.
  - reflexivity.
  - reflexivity.
  - reflexivity.
  - repeat constructor.
  - exact Hsts.
Defined.

(** X10.  A lock is set only while [lockUntil] is absent, and a failure
    never removes it.  Once an account has been locked, wrong passwords sent
    after the lock has ended are answered 401 and counted, however many they
    are, and the stored [lockUntil] stays the old, expired one: the account
    is not locked again before a successful login clears it. *)
Theorem expired_lock_is_not_renewed :
  ∀ (compare : string → string → bool) (attempts : list (Z * string))
    (us : list Account) (email : string) (i : nat) (u : Account) (l : Z),
    list_find (fun user => a_email user = email) us = Some (i, u) →
    isActive u = true → lockUntil u = Some l →
    Forall (fun a => l ≤ a.1 ∧ compare a.2 (a_password u) = false) attempts →
    let r := loginRun compare email attempts us in
    r.1 = replicate (length attempts) 401%nat ∧
    ∃ u',
      list_find (fun user => a_email user = email) r.2 = Some (i, u') ∧
      lockUntil u' = Some l ∧
      loginAttempts u' = loginAttempts u + Z.of_nat (length attempts) ∧
      ∀ t, l ≤ t → isLocked t u' = false.
Proof.
  intros compare attempts.
  induction attempts as [|[now pw] rest IH];
    intros us email i u l Hfind Hactive Hlock Hall r.
  - subst r. simpl. split; [done|]. exists u.
    repeat split; try done; [lia|].
    intros t Ht. unfold isLocked. rewrite Hlock.
    by rewrite bool_decide_eq_false_2 by lia.
  - apply Forall_cons in Hall as [[Ht Hpw] Hall]. simpl in Ht, Hpw.
    assert (Hemail : a_email u = email)
      by (by apply list_find_Some in Hfind as (_ & He & _)).
    assert (Hkeep : lockUntil (recordFailure now u) = Some l).
    { simpl. rewrite decide_False; [done|]. intros [_ Hnone]. congruence. }
    destruct (IH (<[i := recordFailure now u]> us) email i (recordFailure now u) l)
      as (Hsts & u' & Hfind' & Hlock' & Hcount & Hopen).
    + by apply (list_find_insert_same _ _ _ u).
    + done.
    + done.
    + done.
    + set (r' := loginRun compare email rest (<[i := recordFailure now u]> us)) in *.
      assert (Hr : r = (401%nat :: r'.1, r'.2)).
      { subst r. simpl loginRun.
        rewrite (login_found compare us email i u) by done.
        unfold isLocked. rewrite Hlock.
        rewrite bool_decide_eq_false_2 by lia. rewrite Hpw.
        fold r'. by destruct r'. }
      rewrite Hr. simpl. split; [by rewrite Hsts|].
      exists u'. simpl in Hcount. repeat split; try done. lia.
Qed.

(** Two more wrong guesses once the lock of the sample account has ended. *)
Lemma expired_lock_is_not_renewed_witness :
  (loginRun String.eqb "bob@example.com" [(905000, "f"); (905001, "g")]
     [bobLocked]).1
  = replicate 2 401%nat.
Proof.
  destruct (expired_lock_is_not_renewed String.eqb
              [(905000, "f"); (905001, "g")] [bobLocked]
              "bob@example.com" 0%nat bobLocked 905000) as [Hsts _].
  - vm_compute. reflexivity.
  - reflexivity.
  - reflexivity.
  - repeat constructor; simpl; lia.
  - exact Hsts.
Defined.

(** ** Reading the cart *)

Lemma cartLine_cleanCartData cart k sz :
  cartLine (cleanCartData cart) k sz
  = cartLine cart k sz ≫= (fun q => if decide (q > 0) then Some q else None).
Proof.
  unfold cartLine, cleanCartData, cleanSizes. rewrite lookup_omap.
  destruct (cart !! k) as [szs|]; simpl; [|done].
  set (P := fun entry : string * Z => entry.2 > 0).
  assert (Hfilter : filter P szs !! sz
                    = szs !! sz ≫= (fun q => if decide (q > 0) then Some q else None)).
  { destruct (szs !! sz) as [q|] eqn:Hsz; simpl.
    - case_decide.
      + by apply map_lookup_filter_Some.
      + apply map_lookup_filter_None. right. intros x Hx. unfold P. simpl.
        congruence.
    - apply map_lookup_filter_None. by left. }
  case_decide as Hempty; simpl; [|done].
  rewrite <- Hfilter, Hempty. by rewrite lookup_empty.
Qed.

Lemma cartClean_cleanCartData cart : cartClean (cleanCartData cart).
Proof.
  split.
  - intros k sz q. rewrite cartLine_cleanCartData.
    destruct (cartLine cart k sz) as [q'|]; simpl; [|done].
    case_decide; [|done]. intros [= <-]. lia.
  - intros k. unfold cleanCartData. rewrite lookup_omap.
    destruct (cart !! k) as [szs|]; simpl; [|done].
    case_decide; [done|]. congruence.
Qed.

Lemma cleanCartData_clean cart : cartClean cart → cleanCartData cart = cart.
Proof.
  intros [Hpos Hne]. apply map_eq. intros k.
  unfold cleanCartData. rewrite lookup_omap.
  destruct (cart !! k) as [szs|] eqn:Hk; simpl; [|done].
  assert (cleanSizes szs = szs) as ->.
  { apply map_filter_id. intros sz q Hsz. simpl.
    assert (0 < q); [|lia]. apply (Hpos k sz). unfold cartLine.
    by rewrite Hk. }
  rewrite decide_False; [done|]. intros ->. by apply (Hne k).
Qed.

Lemma setCartData_same user : setCartData user (cartData user) = user.
Proof. by destruct user. Qed.

(** X11.  [/getcartdata] answers with the stored cart minus its
    non-positive lines and the products left without a size.  What it
    returns is what is stored afterwards, a second call returns the same and
    writes nothing, and a cart that is already in that form is not
    written. *)
Theorem getcartdata_returns_cleaned_cart :
  ∀ (db : Db) (uid : nat) (user : User),
    findUserById uid (users db) = Some user →
    let r := getcartdata uid db in
    let cleaned := cleanCartData (cartData user) in
    r.1 = (ok, Some (cleaned, totalItemsOf cleaned)) ∧
    (∀ k sz, cartLine cleaned k sz
             = cartLine (cartData user) k sz
               ≫= (fun q => if decide (q > 0) then Some q else None)) ∧
    cartClean cleaned ∧
    findUserById uid (users r.2) = Some (setCartData user cleaned) ∧
    getcartdata uid r.2 = (r.1, r.2) ∧
    (cartClean (cartData user) ↔ cleaned = cartData user) ∧
    (cartClean (cartData user) → r.2 = db).
Proof.
  intros db uid user Huser r cleaned.
  pose proof (findUserById_id _ _ _ Huser) as Hid.
  assert (Hstored : findUserById uid (users r.2) = Some (setCartData user cleaned)).
  { subst r. unfold getcartdata. rewrite Huser. fold cleaned. simpl.
    case_decide as Hchanged; simpl.
    - by apply (findUserById_save _ _ user).
    - rewrite Hchanged. by rewrite setCartData_same. }
  assert (Hfix : cleanCartData cleaned = cleaned)
    by apply cleanCartData_clean, cartClean_cleanCartData.
  split; [|split; [|split; [|split; [|split; [|split]]]]].
  - subst r. unfold getcartdata. by rewrite Huser.
  - intros k sz. apply cartLine_cleanCartData.
  - apply cartClean_cleanCartData.
  - done.
  - unfold getcartdata at 1. rewrite Hstored. simpl. rewrite Hfix.
    rewrite decide_False by (intros Hne; by apply Hne).
    subst r. unfold getcartdata. by rewrite Huser.
  - split; [apply cleanCartData_clean|].
    intros <-. apply cartClean_cleanCartData.
  - intros Hclean. subst r. unfold getcartdata. rewrite Huser. simpl.
    rewrite decide_False; [done|].
    intros Hne. apply Hne. by apply cleanCartData_clean.
Qed.

(** A stale cart is answered without its zero lines. *)
Lemma getcartdata_returns_cleaned_cart_witness :
  (getcartdata 7 dbStale).1
  = (ok, Some (cleanCartData (cartData aliceStale),
               totalItemsOf (cleanCartData (cartData aliceStale)))) ∧
  cartLine (cleanCartData (cartData aliceStale)) 1 "M" = None ∧
  cartLine (cleanCartData (cartData aliceStale)) 1 "L" = Some 2.
Proof.
  destruct (getcartdata_returns_cleaned_cart dbStale 7%nat aliceStale)
    as (Hresp & Hlines & _).
  - reflexivity.
  - split; [exact Hresp|]. rewrite !Hlines. split; reflexivity.
Defined.

(** ** The cart routes keep the cart in the form [/getcartdata] returns *)

Lemma carts_step (P : gmap Z (gmap string Z) → Prop) now req db :
  P ∅ →
  (∀ cart k sz q, P cart → P (addtocartCart cart k sz q)) →
  (∀ cart k sz q, P cart → P (updatecartquantityCart cart k sz q)) →
  Forall (fun u => P (cartData u)) (users db) →
  Forall (fun u => P (cartData u)) (users (step now req db)).
Proof.
  intros Hempty Hadd Hupd Hall.
  assert (Huser : ∀ uid user, findUserById uid (users db) = Some user →
                              P (cartData user)).
  { intros uid user Hu. rewrite Forall_forall in Hall.
    apply Hall, list_elem_of_In. by apply findUserById_In in Hu. }
  assert (Hsave : ∀ user cart, P cart →
            Forall (fun u => P (cartData u))
              (saveUser (setCartData user cart) (users db)))
    by (intros; by apply Forall_saveUser).
  unfold step, handle.
  destruct req as [uid body|uid itemId sz qty|uid|uid address phone pm|uid pm
                  |oid st|oid|oid np].
  - unfold addtocart.
    repeat (case_decide; [done|]).
    destruct (findProduct _ _) as [product|]; [|done].
    repeat (case_decide; [done|]).
    destruct (findUserById uid (users db)) as [user|] eqn:Hu; [|done].
    destruct (createOrUpdateOrder _ _ _ _ _ _ _ _) as [db2|] eqn:E; simpl.
    + apply createOrUpdateOrder_frame in E as [-> _]. simpl.
      apply Hsave, Hadd. by eapply Huser.
    + apply Hsave, Hadd. by eapply Huser.
  - unfold updatecartquantity.
    case_decide; [done|].
    destruct (findUserById uid (users db)) as [user|] eqn:Hu; [|done].
    destruct (findProduct _ _) as [product|]; [|done].
    case_decide; [done|].
    simpl. destruct (findPendingOrder _ _) as [order|];
      [destruct (setItemQuantity _ _ _ _ _)|]; simpl;
      apply Hsave, Hupd; by eapply Huser.
  - unfold clearcart.
    destruct (findUserById uid (users db)) as [user|] eqn:Hu; [|done].
    simpl. destruct (findPendingOrder _ _) as [order|]; simpl; by apply Hsave.
  - unfold checkout.
    repeat (case_decide; [done|]).
    destruct (findUserById uid (users db)) as [user|] eqn:Hu; [|done].
    case_decide; [done|].
    destruct (checkoutItems _ _) as [updatedItems totalAmount].
    simpl. destruct (findPendingOrder _ _) as [order|]; [by apply Hsave|].
    unfold createOrder. simpl.
    destruct (insertOrder _ _) as [os|]; simpl; by apply Hsave.
  - unfold createorder.
    destruct (findPendingOrder _ _) as [order|]; [|done].
    case_decide; [done|]. simpl.
    destruct (findUserById uid _) as [user|] eqn:Hu; simpl; [|done].
    by apply Hsave.
  - unfold adminOrderStatus.
    destruct (parseStatus st); [|done].
    by destruct (findOrderById _ _).
  - unfold adminDeleteOrder. by destruct (findOrderById _ _).
  - unfold updateproduct. by destruct (List.find _ _).
Qed.

Lemma cartClean_store (cart : gmap Z (gmap string Z)) k (szs : gmap string Z) :
  (∀ k', cart !! k' ≠ Some ∅) →
  ∀ k', (if decide (szs = ∅) then delete k cart else <[k := szs]> cart) !! k'
        ≠ Some ∅.
Proof.
  intros Hne k'. case_decide as Hszs.
  - intros [_ H]%lookup_delete_Some. by apply (Hne k').
  - intros [[_ H]|[_ H]]%lookup_insert_Some; [done|]. by apply (Hne k').
Qed.

Lemma addtocartCart_clean cart k sz q :
  cartClean cart → cartClean (addtocartCart cart k sz q).
Proof.
  intros [Hpos Hne]. split; [by apply addtocartCart_positive|].
  unfold addtocartCart. cbv zeta. by apply cartClean_store.
Qed.

Lemma updatecartquantityCart_clean cart k sz q :
  cartClean cart → cartClean (updatecartquantityCart cart k sz q).
Proof.
  intros [Hpos Hne]. split; [by apply updatecartquantityCart_positive|].
  unfold updatecartquantityCart. cbv zeta.
  case_decide as Hq.
  - by apply cartClean_store.
  - intros k' [[_ H]|[_ H]]%lookup_insert_Some; [|by apply (Hne k')].
    apply (f_equal (fun m => m !! sz)) in H.
    by rewrite lookup_insert_eq, lookup_empty in H.
Qed.

Lemma cartClean_empty : cartClean ∅.
Proof. split; [apply cartPositive_empty|]. intros k. by rewrite lookup_empty. Qed.

(** X12.  Every request leaves every cart with positive lines only and no
    product without a size, so after any sequence of requests on such a
    database [/getcartdata] returns the stored cart as it is and writes
    nothing. *)
Theorem getcartdata_after_requests_writes_nothing :
  ∀ (reqs : list (Date * Request)) (db : Db) (uid : nat),
    cartsClean db →
    cartsClean (run reqs db) ∧
    (getcartdata uid (run reqs db)).2 = run reqs db ∧
    ∀ user, findUserById uid (users (run reqs db)) = Some user →
            (getcartdata uid (run reqs db)).1
            = (ok, Some (cartData user, totalItemsOf (cartData user))).
Proof.
  intros reqs db uid Hclean.
  assert (Hrun : cartsClean (run reqs db)).
  { revert db Hclean. induction reqs as [|[now req] reqs IH]; intros db Hclean;
      [done|].
    simpl. apply IH.
    apply carts_step; auto using cartClean_empty, addtocartCart_clean,
                                 updatecartquantityCart_clean. }
  split; [done|].
  unfold getcartdata.
  destruct (findUserById uid (users (run reqs db))) as [user|] eqn:Hu; [|done].
  assert (Huser : cartClean (cartData user)).
  { unfold cartsClean in Hrun. rewrite Forall_forall in Hrun.
    apply Hrun, list_elem_of_In. by apply findUserById_In in Hu. }
  rewrite (cleanCartData_clean _ Huser). simpl.
  rewrite decide_False by (intros Hne; by apply Hne).
  split; [done|]. by intros user' [= <-].
Qed.

(** The carts of Scenario D are returned as stored. *)
Lemma getcartdata_after_requests_writes_nothing_witness :
  (getcartdata 7 dbD).2 = dbD.
Proof.
  apply (getcartdata_after_requests_writes_nothing
           [(today, addLine 1 2 "M"); (today, addLine 2 1 "L")] db0 7%nat).
  repeat constructor; try apply cartPositive_empty.
  intros k. simpl. by rewrite lookup_empty.
Defined.

(** ** Cart totals *)

Section Sums.
Context {A : Type}.
Implicit Types (f g : A → Z) (l : list A).

Lemma sumWith_app f l1 l2 : sumWith f (l1 ++ l2) = sumWith f l1 + sumWith f l2.
Proof. induction l1 as [|x l1 IH]; simpl; [done|]. rewrite IH. lia. Qed.

Lemma sumWith_perm f l1 l2 : l1 ≡ₚ l2 → sumWith f l1 = sumWith f l2.
Proof.
  induction 1 as [|x l1 l2 _ IH|x y l|l1 l2 l3 _ IH1 _ IH2]; simpl; lia.
Qed.

Lemma sumWith_ext f g l :
  (∀ x, x ∈ l → f x = g x) → sumWith f l = sumWith g l.
Proof.
  induction l as [|x l IH]; intros Hfg; simpl; [done|].
  rewrite (Hfg x) by apply list_elem_of_here.
  rewrite IH; [done|]. intros y Hy. apply Hfg. by apply list_elem_of_further.
Qed.

Lemma sumWith_zero f l : (∀ x, x ∈ l → f x = 0) → sumWith f l = 0.
Proof.
  intros Hf. rewrite (sumWith_ext f (fun _ => 0)) by done.
  induction l as [|x l IH]; simpl; [done|]. rewrite IH; [done|].
  intros y Hy. apply Hf. by apply list_elem_of_further.
Qed.

Lemma fold_left_sumWith (F : Z → A → Z) f l a :
  (∀ b x, F b x = b + f x) → fold_left F l a = a + sumWith f l.
Proof.
  intros HF. revert a. induction l as [|x l IH]; intros a; simpl; [lia|].
  rewrite IH, HF. lia.
Qed.
End Sums.

(** Two maps give the same sum when they give the same term at every key,
    an absent key counting for nothing. *)
Lemma sumWith_map_ext `{Countable K} {V : Type} (h : K → V → Z)
    (m1 m2 : gmap K V) :
  (∀ k, from_option (h k) 0 (m1 !! k) = from_option (h k) 0 (m2 !! k)) →
  sumWith (fun e => h e.1 e.2) (map_to_list m1)
  = sumWith (fun e => h e.1 e.2) (map_to_list m2).
Proof.
  revert m2. induction m1 as [|i x m Hi IH] using map_ind; intros m2 Hext.
  - rewrite map_to_list_empty. simpl. symmetry. apply sumWith_zero.
    intros [k v] Hkv%elem_of_map_to_list. simpl.
    specialize (Hext k). by rewrite lookup_empty, Hkv in Hext.
  - rewrite (sumWith_perm _ _ _ (map_to_list_insert m i x Hi)). simpl.
    pose proof (Hext i) as Hix. rewrite lookup_insert_eq in Hix. simpl in Hix.
    assert (Hrest : ∀ m2', (∀ k, k ≠ i → m2' !! k = m2 !! k) → m2' !! i = None →
              sumWith (fun e => h e.1 e.2) (map_to_list m)
              = sumWith (fun e => h e.1 e.2) (map_to_list m2')).
    { intros m2' Hsame Hnone. apply IH. intros k.
      destruct (decide (k = i)) as [->|Hk].
      - by rewrite Hi, Hnone.
      - rewrite Hsame by done. rewrite <- (Hext k).
        by rewrite lookup_insert_ne. }
    destruct (m2 !! i) as [y|] eqn:Hy; simpl in Hix.
    + rewrite <- (sumWith_perm _ _ _ (map_to_list_delete m2 i y Hy)). simpl.
      rewrite Hix. f_equal. apply Hrest.
      * intros k Hk. by rewrite lookup_delete_ne.
      * by rewrite lookup_delete_eq.
    + rewrite Hix. rewrite (Hrest m2); [lia|done|done].
Qed.

Lemma cartEntries_perm (cart : gmap Z (gmap string Z)) :
  cartEntries cart ≡ₚ map_to_list cart.
Proof. unfold cartEntries. apply merge_sort_Permutation. Qed.

Lemma sum_itemTotal_sumWith its : sum_itemTotal its = sumWith itemTotal its.
Proof.
  induction its as [|x its IH]; [done|].
  rewrite sum_itemTotal_cons, IH. done.
Qed.

Lemma sumWith_flat_map {A B} (f : B → Z) (g : A → list B) (l : list A) :
  sumWith f (flat_map g l) = sumWith (fun x => sumWith f (g x)) l.
Proof.
  induction l as [|x l IH]; simpl; [done|]. by rewrite sumWith_app, IH.
Qed.

(** The amount [/checkout] computes is the value of the positive lines of
    catalog products. *)
Lemma checkoutItems_amount ps cart :
  (checkoutItems ps cart).2 = cartAmount ps cart.
Proof.
  rewrite checkoutItems_eq. simpl. rewrite sum_itemTotal_sumWith.
  unfold cartItemsOf. rewrite sumWith_flat_map.
  rewrite (sumWith_perm _ _ _ (cartEntries_perm cart)).
  unfold cartAmount. apply sumWith_ext. intros [k szs] _. simpl.
  unfold lineAmount.
  destruct (findProduct k ps) as [product|].
  - unfold sizeItems. rewrite sumWith_flat_map.
    apply sumWith_ext. intros [sz q] _. simpl.
    case_decide; simpl; lia.
  - simpl. symmetry. apply sumWith_zero. intros [sz q] _. simpl.
    by case_decide.
Qed.

Lemma roundCents_whole x : roundCents x = x.
Proof. unfold roundCents. by apply Z.div_mul. Qed.

Lemma getTotalCartAmount_amount ps cart :
  getTotalCartAmount ps cart = roundCents (cartAmount ps cart).
Proof.
  unfold getTotalCartAmount, cartAmount. f_equal.
  rewrite (fold_left_sumWith _
             (fun entry : Z * gmap string Z =>
                sumWith (fun line : string * Z => lineAmount ps entry.1 line.2)
                  (map_to_list entry.2))).
  - rewrite (sumWith_perm _ _ _ (cartEntries_perm cart)). lia.
  - intros b [k szs]. simpl. apply fold_left_sumWith.
    intros c [sz q]. simpl. unfold lineAmount.
    case_decide; [|lia]. destruct (findProduct k ps); lia.
Qed.

Lemma getTotalCartItems_units cart : getTotalCartItems cart = cartUnits cart.
Proof.
  unfold getTotalCartItems, cartUnits.
  rewrite (fold_left_sumWith _
             (fun entry : Z * gmap string Z =>
                sumWith (fun line : string * Z => line.2) (map_to_list entry.2))).
  - rewrite (sumWith_perm _ _ _ (cartEntries_perm cart)). lia.
  - intros b [k szs]. simpl. by apply fold_left_sumWith.
Qed.

Lemma totalItemsOf_units cart : totalItemsOf cart = cartUnits cart.
Proof.
  unfold totalItemsOf, cartUnits. rewrite map_fold_foldr.
  induction (map_to_list cart) as [|[k szs] l IH]; simpl; [done|].
  rewrite IH. rewrite map_fold_foldr.
  assert (foldr (uncurry (fun (_ : string) (qty sum : Z) => sum + qty)) 0
            (map_to_list szs)
          = sumWith (fun line : string * Z => line.2) (map_to_list szs)) as ->.
  { induction (map_to_list szs) as [|[sz q] l' IH']; simpl; [done|].
    rewrite IH'. lia. }
  lia.
Qed.

Lemma cartdetailsLoop_items ps cart :
  let its := cartItemsOf ps (cartEntries cart) in
  cartdetailsLoop ps cart
  = (rowOfItem <$> its, sum_itemTotal its, sumWith quantity its).
Proof.
  unfold cartdetailsLoop.
  set (state := fun its : list OrderItem =>
                  (rowOfItem <$> its, sum_itemTotal its, sumWith quantity its)).
  change ([], 0, 0) with (state []).
  change (cartItemsOf ps (cartEntries cart))
    with ([] ++ cartItemsOf ps (cartEntries cart)).
  generalize (@nil OrderItem) as its0.
  induction (cartEntries cart) as [|[k szs] entries IH]; intros its0; simpl.
  - by rewrite app_nil_r.
  - rewrite app_assoc. rewrite <- IH. f_equal.
    destruct (findProduct k ps) as [product|] eqn:Hk; [|by rewrite app_nil_r].
    apply findProduct_id in Hk. unfold sizeItems.
    generalize (map_to_list szs) as lines. clear IH. revert its0.
    intros its0 lines. revert its0.
    induction lines as [|[sz q] lines IH]; intros its0; simpl.
    + by rewrite app_nil_r.
    + rewrite app_assoc. rewrite <- IH. f_equal.
      case_decide; [|by rewrite app_nil_r].
      unfold state. rewrite fmap_app, sum_itemTotal_app, sumWith_app.
      rewrite Hk. unfold sum_itemTotal at 3. simpl. unfold rowOfItem at 3.
      simpl. repeat f_equal; lia.
Qed.

(** X13.  The summary of [/cartdetails] is the order [/checkout] would
    write from the same cart and catalog: [totalAmount] is the order total
    rounded to cents (the order itself stores the total as summed),
    [itemsCount] the number of its items and [totalItems] the sum of their
    quantities (lines of products missing from the catalog are left out of
    both). *)
Theorem cartdetails_summary_is_checkout_total :
  ∀ (db : Db) (uid : nat) (user : User),
    findUserById uid (users db) = Some user →
    let updatedItems := (checkoutItems (products db) (cartData user)).1 in
    let totalAmount_ := (checkoutItems (products db) (cartData user)).2 in
    cartdetails uid db
    = (ok, Some {| s_totalItems := sumWith quantity updatedItems;
                   s_totalAmount := roundCents totalAmount_;
                   s_itemsCount := length updatedItems |}).
Proof.
  intros db uid user Huser. unfold cartdetails. rewrite Huser.
  rewrite cartdetailsLoop_items, checkoutItems_eq. simpl.
  by rewrite length_fmap.
Qed.

(** The cart page of Scenario B shows three units for 300. *)
Lemma cartdetails_summary_is_checkout_total_witness :
  cartdetails 7 dbB
  = (ok, Some {| s_totalItems := 3; s_totalAmount := 300; s_itemsCount := 1 |}).
Proof.
  rewrite (cartdetails_summary_is_checkout_total dbB 7%nat aliceB).
  - vm_compute. reflexivity.
  - vm_compute. reflexivity.
Defined.

(** ** The cart the shop context keeps *)

Lemma normalizeCartData_base (ps : list Product)
    (m0 : gmap Z (gmap string Z)) k :
  fold_left (fun normalized p => <[p_id p := ∅]> normalized) ps m0 !! k
  = if decide (k ∈ p_id <$> ps) then Some ∅ else m0 !! k.
Proof.
  revert m0. induction ps as [|p ps IH]; intros m0.
  - simpl. destruct (decide (k ∈ [])) as [Hin|_]; [|done].
    by apply elem_of_nil in Hin.
  - change (fold_left (fun normalized p => <[p_id p := ∅]> normalized)
              (p :: ps) m0)
      with (fold_left (fun normalized p => <[p_id p := ∅]> normalized)
              ps (<[p_id p := ∅]> m0)).
    rewrite IH. rewrite fmap_cons.
    destruct (decide (k ∈ p_id <$> ps)) as [Hin|Hnotin].
    + rewrite decide_True; [done|]. by apply list_elem_of_further.
    + destruct (decide (k = p_id p)) as [->|Hk].
      * rewrite lookup_insert_eq. rewrite decide_True; [done|].
        apply list_elem_of_here.
      * rewrite lookup_insert_ne by done. rewrite decide_False; [done|].
        intros [?|?]%elem_of_cons; done.
Qed.

Lemma normalizeCartData_fill (l : list (Z * gmap string Z))
    (m0 : gmap Z (gmap string Z)) k :
  NoDup (l.*1) →
  fold_left
    (fun normalized (entry : Z * gmap string Z) =>
       let cleanedValue := filter (fun line : string * Z => line.2 > 0) entry.2 in
       if decide (cleanedValue = ∅) then normalized
       else <[entry.1 := cleanedValue]> normalized)
    l m0 !! k
  = match (list_to_map l : gmap Z (gmap string Z)) !! k with
    | Some v => if decide (cleanSizes v = ∅) then m0 !! k
                else Some (cleanSizes v)
    | None => m0 !! k
    end.
Proof.
  revert m0. induction l as [|[k0 v0] l IH]; intros m0 Hnd; simpl; [done|].
  apply NoDup_cons in Hnd as [Hk0 Hnd]. rewrite IH by done.
  fold (cleanSizes v0).
  destruct (decide (k = k0)) as [->|Hk].
  - rewrite lookup_insert_eq.
    rewrite (not_elem_of_list_to_map_1 l k0) by done.
    case_decide; [done|]. by rewrite lookup_insert_eq.
  - rewrite lookup_insert_ne by done.
    destruct (list_to_map l !! k) as [v|]; [case_decide; [|done]|];
      (case_decide; [done|by rewrite lookup_insert_ne]).
Qed.

Lemma normalizeCartData_lookup cart ps k :
  normalizeCartData cart ps !! k
  = match cleanCartData cart !! k with
    | Some c => Some c
    | None => if decide (k ∈ p_id <$> ps) then Some ∅ else None
    end.
Proof.
  unfold normalizeCartData. cbv zeta.
  assert (Hnd : NoDup ((cartEntries cart).*1)).
  { rewrite (cartEntries_perm cart). apply NoDup_fst_map_to_list. }
  rewrite normalizeCartData_fill by done.
  rewrite (list_to_map_proper _ (map_to_list cart)) by
    (done || apply cartEntries_perm).
  rewrite list_to_map_to_list, normalizeCartData_base, lookup_empty.
  unfold cleanCartData. rewrite lookup_omap.
  destruct (cart !! k) as [v|]; simpl; [|done]. by case_decide.
Qed.

Lemma sizesAmount_clean ps k (v : gmap string Z) :
  sumWith (fun line : string * Z => lineAmount ps k line.2)
    (map_to_list (cleanSizes v))
  = sumWith (fun line : string * Z => lineAmount ps k line.2) (map_to_list v).
Proof.
  apply (sumWith_map_ext (fun _ q => lineAmount ps k q)). intros sz.
  unfold cleanSizes.
  destruct (v !! sz) as [q|] eqn:Hsz; simpl.
  - destruct (decide (q > 0)) as [Hq|Hq].
    + by rewrite (proj2 (map_lookup_filter_Some _ v sz q)).
    + rewrite (proj2 (map_lookup_filter_None _ v sz)).
      * unfold lineAmount. by rewrite decide_False.
      * right. intros x Hx. simpl. congruence.
  - rewrite (proj2 (map_lookup_filter_None _ v sz)); [done|by left].
Qed.

Lemma cartAmount_clean ps cart :
  cartAmount ps (cleanCartData cart) = cartAmount ps cart.
Proof.
  apply (sumWith_map_ext
           (fun k (szs : gmap string Z) =>
              sumWith (fun line : string * Z => lineAmount ps k line.2)
                (map_to_list szs))).
  intros k. unfold cleanCartData. rewrite lookup_omap.
  destruct (cart !! k) as [v|]; simpl; [|done].
  case_decide as Hempty; simpl.
  - rewrite <- sizesAmount_clean, Hempty. by rewrite map_to_list_empty.
  - apply sizesAmount_clean.
Qed.

Lemma sumWith_normalized (h : Z → gmap string Z → Z) cart ps :
  (∀ k, h k ∅ = 0) →
  sumWith (fun e => h e.1 e.2) (map_to_list (normalizeCartData cart ps))
  = sumWith (fun e => h e.1 e.2) (map_to_list (cleanCartData cart)).
Proof.
  intros Hzero. apply sumWith_map_ext. intros k.
  rewrite normalizeCartData_lookup.
  destruct (cleanCartData cart !! k) as [c|]; [done|].
  case_decide; simpl; [apply Hzero|done].
Qed.

(** X14.  The totals the shop shows are the server's.  On the cart the
    shop context keeps (the stored cart passed through
    [normalizeCartData]), [getTotalCartAmount] is the order total that
    [/checkout] would write, rounded to cents, and [getTotalCartItems] is
    the [totalItems] of [/getcartdata]. *)
Theorem shop_totals_are_server_totals :
  ∀ (ps : list Product) (cart : gmap Z (gmap string Z)),
    getTotalCartAmount ps (normalizeCartData cart ps)
    = roundCents (checkoutItems ps cart).2 ∧
    getTotalCartItems (normalizeCartData cart ps)
    = totalItemsOf (cleanCartData cart).
Proof.
  intros ps cart. split.
  - rewrite getTotalCartAmount_amount, checkoutItems_amount. f_equal.
    rewrite <- (cartAmount_clean ps cart). unfold cartAmount.
    apply (sumWith_normalized
             (fun k (szs : gmap string Z) =>
                sumWith (fun line : string * Z => lineAmount ps k line.2)
                  (map_to_list szs))).
    intros k. by rewrite map_to_list_empty.
  - rewrite getTotalCartItems_units, totalItemsOf_units. unfold cartUnits.
    apply (sumWith_normalized
             (fun _ (szs : gmap string Z) =>
                sumWith (fun line : string * Z => line.2) (map_to_list szs))).
    intros k. by rewrite map_to_list_empty.
Qed.

(** X15.  [normalizeCartData] gives the client the stored cart line by
    line: it has the positive lines of the stored cart and no others, the
    quantity it reports for a line is the stored one (0 for a line that is
    absent or not positive), and every catalog product has an entry. *)
Theorem normalizeCartData_mirrors_stored_cart :
  ∀ (ps : list Product) (cart : gmap Z (gmap string Z)),
    (∀ k sz, cartLine (normalizeCartData cart ps) k sz
             = cartLine cart k sz
               ≫= (fun q => if decide (q > 0) then Some q else None)) ∧
    (∀ k sz, cartQuantity (normalizeCartData cart ps) k sz
             = Z.max 0 (cartQuantity cart k sz)) ∧
    Forall (fun p => is_Some (normalizeCartData cart ps !! p_id p)) ps.
Proof.
  intros ps cart.
  assert (Hline : ∀ k sz, cartLine (normalizeCartData cart ps) k sz
                          = cartLine cart k sz
                            ≫= (fun q => if decide (q > 0) then Some q else None)).
  { intros k sz. rewrite <- cartLine_cleanCartData.
    unfold cartLine at 1 2. rewrite normalizeCartData_lookup.
    destruct (cleanCartData cart !! k) as [c|]; [done|].
    case_decide; simpl; [by rewrite lookup_empty|done]. }
  split; [done|]. split.
  - intros k sz. unfold cartQuantity. rewrite Hline.
    destruct (cartLine cart k sz) as [q|]; simpl; [|done].
    case_decide; simpl; lia.
  - apply Forall_forall. intros p Hp. rewrite normalizeCartData_lookup.
    destruct (cleanCartData cart !! p_id p) as [c|]; [done|].
    rewrite decide_True; [done|]. by apply list_elem_of_fmap_2.
Qed.
